(** * Content aggregation and briefing pipeline

    A shallow embedding of the four monitor scripts
    ([medicare_access_monitor_github.py], [pharmacy_ai_monitor_github.py],
    [merlin_accuracy_monitor.py], [daily_leadership.py]) and the properties
    their specification states about them.

    Layout: Python text primitives, the relevance classifiers, the feed
    collector (classification, recency, deduplication, ranking), the sheet
    reader, the line-oriented renderer, the main programs as event traces,
    and then the theorems. *)

From Stdlib Require Import List ZArith NArith Bool Lia String Ascii.
From Stdlib Require Import Sorted Permutation.
Import ListNotations.

(* ================================================================== *)
(** * Python text *)
(* ================================================================== *)

(** A Python [str] is a sequence of Unicode code points.  Literals of the
    scripts that are plain ASCII are written with [lit]. *)
Module PyStr.

Definition char := N.
Definition str := list char.

Definition lit (s : string) : str :=
  List.map N_of_ascii (list_ascii_of_string s).

Arguments lit s%_string.

Definition str_eqb (a b : str) : bool :=
  if list_eq_dec N.eq_dec a b then true else false.

(** [str.isspace] on one code point, which is also the class [\s] of
    [re] on [str] patterns. *)
Definition isspace (c : char) : bool :=
  ((9 <=? c) && (c <=? 13) || (28 <=? c) && (c <=? 32)
   || (c =? 133) || (c =? 160) || (c =? 5760)
   || (8192 <=? c) && (c <=? 8202)
   || (c =? 8232) || (c =? 8233) || (c =? 8239) || (c =? 8287)
   || (c =? 12288))%N.

(** Membership in a table of ranges, in rising order. *)
Fixpoint in_ranges (c : char) (ranges : list (N * N)) : bool :=
  match ranges with
  | [] => false
  | (lo, hi) :: rest =>
      if (c <? lo)%N then false
      else if (c <=? hi)%N then true
      else in_ranges c rest
  end.

(** The tables below are those of Unicode 14.0, the version of the
    interpreter the scripts run on. *)

(** The word characters: the alphanumeric code points, and the
    underscore. *)
Definition word_ranges : list (N * N) :=
  [
    (48, 57); (65, 90); (95, 95); (97, 122); (170, 170); (178, 179);
    (181, 181); (185, 186); (188, 190); (192, 214); (216, 246); (248, 705);
    (710, 721); (736, 740); (748, 748); (750, 750); (880, 884); (886, 887);
    (890, 893); (895, 895); (902, 902); (904, 906); (908, 908); (910, 929);
    (931, 1013); (1015, 1153); (1162, 1327); (1329, 1366); (1369, 1369); (1376, 1416);
    (1488, 1514); (1519, 1522); (1568, 1610); (1632, 1641); (1646, 1647); (1649, 1747);
    (1749, 1749); (1765, 1766); (1774, 1788); (1791, 1791); (1808, 1808); (1810, 1839);
    (1869, 1957); (1969, 1969); (1984, 2026); (2036, 2037); (2042, 2042); (2048, 2069);
    (2074, 2074); (2084, 2084); (2088, 2088); (2112, 2136); (2144, 2154); (2160, 2183);
    (2185, 2190); (2208, 2249); (2308, 2361); (2365, 2365); (2384, 2384); (2392, 2401);
    (2406, 2415); (2417, 2432); (2437, 2444); (2447, 2448); (2451, 2472); (2474, 2480);
    (2482, 2482); (2486, 2489); (2493, 2493); (2510, 2510); (2524, 2525); (2527, 2529);
    (2534, 2545); (2548, 2553); (2556, 2556); (2565, 2570); (2575, 2576); (2579, 2600);
    (2602, 2608); (2610, 2611); (2613, 2614); (2616, 2617); (2649, 2652); (2654, 2654);
    (2662, 2671); (2674, 2676); (2693, 2701); (2703, 2705); (2707, 2728); (2730, 2736);
    (2738, 2739); (2741, 2745); (2749, 2749); (2768, 2768); (2784, 2785); (2790, 2799);
    (2809, 2809); (2821, 2828); (2831, 2832); (2835, 2856); (2858, 2864); (2866, 2867);
    (2869, 2873); (2877, 2877); (2908, 2909); (2911, 2913); (2918, 2927); (2929, 2935);
    (2947, 2947); (2949, 2954); (2958, 2960); (2962, 2965); (2969, 2970); (2972, 2972);
    (2974, 2975); (2979, 2980); (2984, 2986); (2990, 3001); (3024, 3024); (3046, 3058);
    (3077, 3084); (3086, 3088); (3090, 3112); (3114, 3129); (3133, 3133); (3160, 3162);
    (3165, 3165); (3168, 3169); (3174, 3183); (3192, 3198); (3200, 3200); (3205, 3212);
    (3214, 3216); (3218, 3240); (3242, 3251); (3253, 3257); (3261, 3261); (3293, 3294);
    (3296, 3297); (3302, 3311); (3313, 3314); (3332, 3340); (3342, 3344); (3346, 3386);
    (3389, 3389); (3406, 3406); (3412, 3414); (3416, 3425); (3430, 3448); (3450, 3455);
    (3461, 3478); (3482, 3505); (3507, 3515); (3517, 3517); (3520, 3526); (3558, 3567);
    (3585, 3632); (3634, 3635); (3648, 3654); (3664, 3673); (3713, 3714); (3716, 3716);
    (3718, 3722); (3724, 3747); (3749, 3749); (3751, 3760); (3762, 3763); (3773, 3773);
    (3776, 3780); (3782, 3782); (3792, 3801); (3804, 3807); (3840, 3840); (3872, 3891);
    (3904, 3911); (3913, 3948); (3976, 3980); (4096, 4138); (4159, 4169); (4176, 4181);
    (4186, 4189); (4193, 4193); (4197, 4198); (4206, 4208); (4213, 4225); (4238, 4238);
    (4240, 4249); (4256, 4293); (4295, 4295); (4301, 4301); (4304, 4346); (4348, 4680);
    (4682, 4685); (4688, 4694); (4696, 4696); (4698, 4701); (4704, 4744); (4746, 4749);
    (4752, 4784); (4786, 4789); (4792, 4798); (4800, 4800); (4802, 4805); (4808, 4822);
    (4824, 4880); (4882, 4885); (4888, 4954); (4969, 4988); (4992, 5007); (5024, 5109);
    (5112, 5117); (5121, 5740); (5743, 5759); (5761, 5786); (5792, 5866); (5870, 5880);
    (5888, 5905); (5919, 5937); (5952, 5969); (5984, 5996); (5998, 6000); (6016, 6067);
    (6103, 6103); (6108, 6108); (6112, 6121); (6128, 6137); (6160, 6169); (6176, 6264);
    (6272, 6276); (6279, 6312); (6314, 6314); (6320, 6389); (6400, 6430); (6470, 6509);
    (6512, 6516); (6528, 6571); (6576, 6601); (6608, 6618); (6656, 6678); (6688, 6740);
    (6784, 6793); (6800, 6809); (6823, 6823); (6917, 6963); (6981, 6988); (6992, 7001);
    (7043, 7072); (7086, 7141); (7168, 7203); (7232, 7241); (7245, 7293); (7296, 7304);
    (7312, 7354); (7357, 7359); (7401, 7404); (7406, 7411); (7413, 7414); (7418, 7418);
    (7424, 7615); (7680, 7957); (7960, 7965); (7968, 8005); (8008, 8013); (8016, 8023);
    (8025, 8025); (8027, 8027); (8029, 8029); (8031, 8061); (8064, 8116); (8118, 8124);
    (8126, 8126); (8130, 8132); (8134, 8140); (8144, 8147); (8150, 8155); (8160, 8172);
    (8178, 8180); (8182, 8188); (8304, 8305); (8308, 8313); (8319, 8329); (8336, 8348);
    (8450, 8450); (8455, 8455); (8458, 8467); (8469, 8469); (8473, 8477); (8484, 8484);
    (8486, 8486); (8488, 8488); (8490, 8493); (8495, 8505); (8508, 8511); (8517, 8521);
    (8526, 8526); (8528, 8585); (9312, 9371); (9450, 9471); (10102, 10131); (11264, 11492);
    (11499, 11502); (11506, 11507); (11517, 11517); (11520, 11557); (11559, 11559); (11565, 11565);
    (11568, 11623); (11631, 11631); (11648, 11670); (11680, 11686); (11688, 11694); (11696, 11702);
    (11704, 11710); (11712, 11718); (11720, 11726); (11728, 11734); (11736, 11742); (11823, 11823);
    (12293, 12295); (12321, 12329); (12337, 12341); (12344, 12348); (12353, 12438); (12445, 12447);
    (12449, 12538); (12540, 12543); (12549, 12591); (12593, 12686); (12690, 12693); (12704, 12735);
    (12784, 12799); (12832, 12841); (12872, 12879); (12881, 12895); (12928, 12937); (12977, 12991);
    (13312, 19903); (19968, 42124); (42192, 42237); (42240, 42508); (42512, 42539); (42560, 42606);
    (42623, 42653); (42656, 42735); (42775, 42783); (42786, 42888); (42891, 42954); (42960, 42961);
    (42963, 42963); (42965, 42969); (42994, 43009); (43011, 43013); (43015, 43018); (43020, 43042);
    (43056, 43061); (43072, 43123); (43138, 43187); (43216, 43225); (43250, 43255); (43259, 43259);
    (43261, 43262); (43264, 43301); (43312, 43334); (43360, 43388); (43396, 43442); (43471, 43481);
    (43488, 43492); (43494, 43518); (43520, 43560); (43584, 43586); (43588, 43595); (43600, 43609);
    (43616, 43638); (43642, 43642); (43646, 43695); (43697, 43697); (43701, 43702); (43705, 43709);
    (43712, 43712); (43714, 43714); (43739, 43741); (43744, 43754); (43762, 43764); (43777, 43782);
    (43785, 43790); (43793, 43798); (43808, 43814); (43816, 43822); (43824, 43866); (43868, 43881);
    (43888, 44002); (44016, 44025); (44032, 55203); (55216, 55238); (55243, 55291); (63744, 64109);
    (64112, 64217); (64256, 64262); (64275, 64279); (64285, 64285); (64287, 64296); (64298, 64310);
    (64312, 64316); (64318, 64318); (64320, 64321); (64323, 64324); (64326, 64433); (64467, 64829);
    (64848, 64911); (64914, 64967); (65008, 65019); (65136, 65140); (65142, 65276); (65296, 65305);
    (65313, 65338); (65345, 65370); (65382, 65470); (65474, 65479); (65482, 65487); (65490, 65495);
    (65498, 65500); (65536, 65547); (65549, 65574); (65576, 65594); (65596, 65597); (65599, 65613);
    (65616, 65629); (65664, 65786); (65799, 65843); (65856, 65912); (65930, 65931); (66176, 66204);
    (66208, 66256); (66273, 66299); (66304, 66339); (66349, 66378); (66384, 66421); (66432, 66461);
    (66464, 66499); (66504, 66511); (66513, 66517); (66560, 66717); (66720, 66729); (66736, 66771);
    (66776, 66811); (66816, 66855); (66864, 66915); (66928, 66938); (66940, 66954); (66956, 66962);
    (66964, 66965); (66967, 66977); (66979, 66993); (66995, 67001); (67003, 67004); (67072, 67382);
    (67392, 67413); (67424, 67431); (67456, 67461); (67463, 67504); (67506, 67514); (67584, 67589);
    (67592, 67592); (67594, 67637); (67639, 67640); (67644, 67644); (67647, 67669); (67672, 67702);
    (67705, 67742); (67751, 67759); (67808, 67826); (67828, 67829); (67835, 67867); (67872, 67897);
    (67968, 68023); (68028, 68047); (68050, 68096); (68112, 68115); (68117, 68119); (68121, 68149);
    (68160, 68168); (68192, 68222); (68224, 68255); (68288, 68295); (68297, 68324); (68331, 68335);
    (68352, 68405); (68416, 68437); (68440, 68466); (68472, 68497); (68521, 68527); (68608, 68680);
    (68736, 68786); (68800, 68850); (68858, 68899); (68912, 68921); (69216, 69246); (69248, 69289);
    (69296, 69297); (69376, 69415); (69424, 69445); (69457, 69460); (69488, 69505); (69552, 69579);
    (69600, 69622); (69635, 69687); (69714, 69743); (69745, 69746); (69749, 69749); (69763, 69807);
    (69840, 69864); (69872, 69881); (69891, 69926); (69942, 69951); (69956, 69956); (69959, 69959);
    (69968, 70002); (70006, 70006); (70019, 70066); (70081, 70084); (70096, 70106); (70108, 70108);
    (70113, 70132); (70144, 70161); (70163, 70187); (70272, 70278); (70280, 70280); (70282, 70285);
    (70287, 70301); (70303, 70312); (70320, 70366); (70384, 70393); (70405, 70412); (70415, 70416);
    (70419, 70440); (70442, 70448); (70450, 70451); (70453, 70457); (70461, 70461); (70480, 70480);
    (70493, 70497); (70656, 70708); (70727, 70730); (70736, 70745); (70751, 70753); (70784, 70831);
    (70852, 70853); (70855, 70855); (70864, 70873); (71040, 71086); (71128, 71131); (71168, 71215);
    (71236, 71236); (71248, 71257); (71296, 71338); (71352, 71352); (71360, 71369); (71424, 71450);
    (71472, 71483); (71488, 71494); (71680, 71723); (71840, 71922); (71935, 71942); (71945, 71945);
    (71948, 71955); (71957, 71958); (71960, 71983); (71999, 71999); (72001, 72001); (72016, 72025);
    (72096, 72103); (72106, 72144); (72161, 72161); (72163, 72163); (72192, 72192); (72203, 72242);
    (72250, 72250); (72272, 72272); (72284, 72329); (72349, 72349); (72368, 72440); (72704, 72712);
    (72714, 72750); (72768, 72768); (72784, 72812); (72818, 72847); (72960, 72966); (72968, 72969);
    (72971, 73008); (73030, 73030); (73040, 73049); (73056, 73061); (73063, 73064); (73066, 73097);
    (73112, 73112); (73120, 73129); (73440, 73458); (73648, 73648); (73664, 73684); (73728, 74649);
    (74752, 74862); (74880, 75075); (77712, 77808); (77824, 78894); (82944, 83526); (92160, 92728);
    (92736, 92766); (92768, 92777); (92784, 92862); (92864, 92873); (92880, 92909); (92928, 92975);
    (92992, 92995); (93008, 93017); (93019, 93025); (93027, 93047); (93053, 93071); (93760, 93846);
    (93952, 94026); (94032, 94032); (94099, 94111); (94176, 94177); (94179, 94179); (94208, 100343);
    (100352, 101589); (101632, 101640); (110576, 110579); (110581, 110587); (110589, 110590); (110592, 110882);
    (110928, 110930); (110948, 110951); (110960, 111355); (113664, 113770); (113776, 113788); (113792, 113800);
    (113808, 113817); (119520, 119539); (119648, 119672); (119808, 119892); (119894, 119964); (119966, 119967);
    (119970, 119970); (119973, 119974); (119977, 119980); (119982, 119993); (119995, 119995); (119997, 120003);
    (120005, 120069); (120071, 120074); (120077, 120084); (120086, 120092); (120094, 120121); (120123, 120126);
    (120128, 120132); (120134, 120134); (120138, 120144); (120146, 120485); (120488, 120512); (120514, 120538);
    (120540, 120570); (120572, 120596); (120598, 120628); (120630, 120654); (120656, 120686); (120688, 120712);
    (120714, 120744); (120746, 120770); (120772, 120779); (120782, 120831); (122624, 122654); (123136, 123180);
    (123191, 123197); (123200, 123209); (123214, 123214); (123536, 123565); (123584, 123627); (123632, 123641);
    (124896, 124902); (124904, 124907); (124909, 124910); (124912, 124926); (124928, 125124); (125127, 125135);
    (125184, 125251); (125259, 125259); (125264, 125273); (126065, 126123); (126125, 126127); (126129, 126132);
    (126209, 126253); (126255, 126269); (126464, 126467); (126469, 126495); (126497, 126498); (126500, 126500);
    (126503, 126503); (126505, 126514); (126516, 126519); (126521, 126521); (126523, 126523); (126530, 126530);
    (126535, 126535); (126537, 126537); (126539, 126539); (126541, 126543); (126545, 126546); (126548, 126548);
    (126551, 126551); (126553, 126553); (126555, 126555); (126557, 126557); (126559, 126559); (126561, 126562);
    (126564, 126564); (126567, 126570); (126572, 126578); (126580, 126583); (126585, 126588); (126590, 126590);
    (126592, 126601); (126603, 126619); (126625, 126627); (126629, 126633); (126635, 126651); (127232, 127244);
    (130032, 130041); (131072, 173791); (173824, 177976); (177984, 178205); (178208, 183969); (183984, 191456);
    (194560, 195101); (196608, 201546)
  ]%N.

(** The class [\w] of [re] on [str] patterns. *)
Definition isword (c : char) : bool := in_ranges c word_ranges.

(** The simple lower-case mappings, as runs [(first, last, step, image of
    first)]: the code points [first], [first + step], ... up to [last]
    map to the image of [first] shifted alike. *)
Definition lower_runs : list (N * N * N * N) :=
  [
    (65, 90, 1, 97); (192, 214, 1, 224); (216, 222, 1, 248);
    (256, 302, 2, 257); (306, 310, 2, 307); (313, 327, 2, 314);
    (330, 374, 2, 331); (376, 376, 1, 255); (377, 381, 2, 378);
    (385, 385, 1, 595); (386, 388, 2, 387); (390, 390, 1, 596);
    (391, 391, 1, 392); (393, 394, 1, 598); (395, 395, 1, 396);
    (398, 398, 1, 477); (399, 399, 1, 601); (400, 400, 1, 603);
    (401, 401, 1, 402); (403, 403, 1, 608); (404, 404, 1, 611);
    (406, 406, 1, 617); (407, 407, 1, 616); (408, 408, 1, 409);
    (412, 412, 1, 623); (413, 413, 1, 626); (415, 415, 1, 629);
    (416, 420, 2, 417); (422, 422, 1, 640); (423, 423, 1, 424);
    (425, 425, 1, 643); (428, 428, 1, 429); (430, 430, 1, 648);
    (431, 431, 1, 432); (433, 434, 1, 650); (435, 437, 2, 436);
    (439, 439, 1, 658); (440, 440, 1, 441); (444, 444, 1, 445);
    (452, 452, 1, 454); (453, 453, 1, 454); (455, 455, 1, 457);
    (456, 456, 1, 457); (458, 458, 1, 460); (459, 475, 2, 460);
    (478, 494, 2, 479); (497, 497, 1, 499); (498, 500, 2, 499);
    (502, 502, 1, 405); (503, 503, 1, 447); (504, 542, 2, 505);
    (544, 544, 1, 414); (546, 562, 2, 547); (570, 570, 1, 11365);
    (571, 571, 1, 572); (573, 573, 1, 410); (574, 574, 1, 11366);
    (577, 577, 1, 578); (579, 579, 1, 384); (580, 580, 1, 649);
    (581, 581, 1, 652); (582, 590, 2, 583); (880, 882, 2, 881);
    (886, 886, 1, 887); (895, 895, 1, 1011); (902, 902, 1, 940);
    (904, 906, 1, 941); (908, 908, 1, 972); (910, 911, 1, 973);
    (913, 929, 1, 945); (931, 939, 1, 963); (975, 975, 1, 983);
    (984, 1006, 2, 985); (1012, 1012, 1, 952); (1015, 1015, 1, 1016);
    (1017, 1017, 1, 1010); (1018, 1018, 1, 1019); (1021, 1023, 1, 891);
    (1024, 1039, 1, 1104); (1040, 1071, 1, 1072); (1120, 1152, 2, 1121);
    (1162, 1214, 2, 1163); (1216, 1216, 1, 1231); (1217, 1229, 2, 1218);
    (1232, 1326, 2, 1233); (1329, 1366, 1, 1377); (4256, 4293, 1, 11520);
    (4295, 4295, 1, 11559); (4301, 4301, 1, 11565); (5024, 5103, 1, 43888);
    (5104, 5109, 1, 5112); (7312, 7354, 1, 4304); (7357, 7359, 1, 4349);
    (7680, 7828, 2, 7681); (7838, 7838, 1, 223); (7840, 7934, 2, 7841);
    (7944, 7951, 1, 7936); (7960, 7965, 1, 7952); (7976, 7983, 1, 7968);
    (7992, 7999, 1, 7984); (8008, 8013, 1, 8000); (8025, 8031, 2, 8017);
    (8040, 8047, 1, 8032); (8072, 8079, 1, 8064); (8088, 8095, 1, 8080);
    (8104, 8111, 1, 8096); (8120, 8121, 1, 8112); (8122, 8123, 1, 8048);
    (8124, 8124, 1, 8115); (8136, 8139, 1, 8050); (8140, 8140, 1, 8131);
    (8152, 8153, 1, 8144); (8154, 8155, 1, 8054); (8168, 8169, 1, 8160);
    (8170, 8171, 1, 8058); (8172, 8172, 1, 8165); (8184, 8185, 1, 8056);
    (8186, 8187, 1, 8060); (8188, 8188, 1, 8179); (8486, 8486, 1, 969);
    (8490, 8490, 1, 107); (8491, 8491, 1, 229); (8498, 8498, 1, 8526);
    (8544, 8559, 1, 8560); (8579, 8579, 1, 8580); (9398, 9423, 1, 9424);
    (11264, 11311, 1, 11312); (11360, 11360, 1, 11361); (11362, 11362, 1, 619);
    (11363, 11363, 1, 7549); (11364, 11364, 1, 637); (11367, 11371, 2, 11368);
    (11373, 11373, 1, 593); (11374, 11374, 1, 625); (11375, 11375, 1, 592);
    (11376, 11376, 1, 594); (11378, 11378, 1, 11379); (11381, 11381, 1, 11382);
    (11390, 11391, 1, 575); (11392, 11490, 2, 11393); (11499, 11501, 2, 11500);
    (11506, 11506, 1, 11507); (42560, 42604, 2, 42561); (42624, 42650, 2, 42625);
    (42786, 42798, 2, 42787); (42802, 42862, 2, 42803); (42873, 42875, 2, 42874);
    (42877, 42877, 1, 7545); (42878, 42886, 2, 42879); (42891, 42891, 1, 42892);
    (42893, 42893, 1, 613); (42896, 42898, 2, 42897); (42902, 42920, 2, 42903);
    (42922, 42922, 1, 614); (42923, 42923, 1, 604); (42924, 42924, 1, 609);
    (42925, 42925, 1, 620); (42926, 42926, 1, 618); (42928, 42928, 1, 670);
    (42929, 42929, 1, 647); (42930, 42930, 1, 669); (42931, 42931, 1, 43859);
    (42932, 42946, 2, 42933); (42948, 42948, 1, 42900); (42949, 42949, 1, 642);
    (42950, 42950, 1, 7566); (42951, 42953, 2, 42952); (42960, 42960, 1, 42961);
    (42966, 42968, 2, 42967); (42997, 42997, 1, 42998); (65313, 65338, 1, 65345);
    (66560, 66599, 1, 66600); (66736, 66771, 1, 66776); (66928, 66938, 1, 66967);
    (66940, 66954, 1, 66979); (66956, 66962, 1, 66995); (66964, 66965, 1, 67003);
    (68736, 68786, 1, 68800); (71840, 71871, 1, 71872); (93760, 93791, 1, 93792);
    (125184, 125217, 1, 125218)
  ]%N.

Fixpoint lower_lookup (c : char) (runs : list (N * N * N * N))
  : option char :=
  match runs with
  | [] => None
  | (lo, hi, step, image) :: rest =>
      if (c <? lo)%N then None
      else if ((c <=? hi) && ((c - lo) mod step =? 0))%N
      then Some (image + (c - lo))%N
      else lower_lookup c rest
  end.

(** The full lower-case mapping of one code point, capital sigma aside;
    U+0130 is the one code point that maps to two. *)
Definition lower_full (c : char) : str :=
  if (c =? 304)%N then [105; 775]%N
  else match lower_lookup c lower_runs with
       | Some l => [l]
       | None => [c]
       end.

(** The case-ignorable code points. *)
Definition case_ignorable_ranges : list (N * N) :=
  [
    (39, 39); (46, 46); (58, 58); (94, 94); (96, 96); (168, 168);
    (173, 173); (175, 175); (180, 180); (183, 184); (688, 879); (884, 885);
    (890, 890); (900, 901); (903, 903); (1155, 1161); (1369, 1369); (1375, 1375);
    (1425, 1469); (1471, 1471); (1473, 1474); (1476, 1477); (1479, 1479); (1524, 1524);
    (1536, 1541); (1552, 1562); (1564, 1564); (1600, 1600); (1611, 1631); (1648, 1648);
    (1750, 1757); (1759, 1768); (1770, 1773); (1807, 1807); (1809, 1809); (1840, 1866);
    (1958, 1968); (2027, 2037); (2042, 2042); (2045, 2045); (2070, 2093); (2137, 2139);
    (2184, 2184); (2192, 2193); (2200, 2207); (2249, 2306); (2362, 2362); (2364, 2364);
    (2369, 2376); (2381, 2381); (2385, 2391); (2402, 2403); (2417, 2417); (2433, 2433);
    (2492, 2492); (2497, 2500); (2509, 2509); (2530, 2531); (2558, 2558); (2561, 2562);
    (2620, 2620); (2625, 2626); (2631, 2632); (2635, 2637); (2641, 2641); (2672, 2673);
    (2677, 2677); (2689, 2690); (2748, 2748); (2753, 2757); (2759, 2760); (2765, 2765);
    (2786, 2787); (2810, 2815); (2817, 2817); (2876, 2876); (2879, 2879); (2881, 2884);
    (2893, 2893); (2901, 2902); (2914, 2915); (2946, 2946); (3008, 3008); (3021, 3021);
    (3072, 3072); (3076, 3076); (3132, 3132); (3134, 3136); (3142, 3144); (3146, 3149);
    (3157, 3158); (3170, 3171); (3201, 3201); (3260, 3260); (3263, 3263); (3270, 3270);
    (3276, 3277); (3298, 3299); (3328, 3329); (3387, 3388); (3393, 3396); (3405, 3405);
    (3426, 3427); (3457, 3457); (3530, 3530); (3538, 3540); (3542, 3542); (3633, 3633);
    (3636, 3642); (3654, 3662); (3761, 3761); (3764, 3772); (3782, 3782); (3784, 3789);
    (3864, 3865); (3893, 3893); (3895, 3895); (3897, 3897); (3953, 3966); (3968, 3972);
    (3974, 3975); (3981, 3991); (3993, 4028); (4038, 4038); (4141, 4144); (4146, 4151);
    (4153, 4154); (4157, 4158); (4184, 4185); (4190, 4192); (4209, 4212); (4226, 4226);
    (4229, 4230); (4237, 4237); (4253, 4253); (4348, 4348); (4957, 4959); (5906, 5908);
    (5938, 5939); (5970, 5971); (6002, 6003); (6068, 6069); (6071, 6077); (6086, 6086);
    (6089, 6099); (6103, 6103); (6109, 6109); (6155, 6159); (6211, 6211); (6277, 6278);
    (6313, 6313); (6432, 6434); (6439, 6440); (6450, 6450); (6457, 6459); (6679, 6680);
    (6683, 6683); (6742, 6742); (6744, 6750); (6752, 6752); (6754, 6754); (6757, 6764);
    (6771, 6780); (6783, 6783); (6823, 6823); (6832, 6862); (6912, 6915); (6964, 6964);
    (6966, 6970); (6972, 6972); (6978, 6978); (7019, 7027); (7040, 7041); (7074, 7077);
    (7080, 7081); (7083, 7085); (7142, 7142); (7144, 7145); (7149, 7149); (7151, 7153);
    (7212, 7219); (7222, 7223); (7288, 7293); (7376, 7378); (7380, 7392); (7394, 7400);
    (7405, 7405); (7412, 7412); (7416, 7417); (7468, 7530); (7544, 7544); (7579, 7679);
    (8125, 8125); (8127, 8129); (8141, 8143); (8157, 8159); (8173, 8175); (8189, 8190);
    (8203, 8207); (8216, 8217); (8228, 8228); (8231, 8231); (8234, 8238); (8288, 8292);
    (8294, 8303); (8305, 8305); (8319, 8319); (8336, 8348); (8400, 8432); (11388, 11389);
    (11503, 11505); (11631, 11631); (11647, 11647); (11744, 11775); (11823, 11823); (12293, 12293);
    (12330, 12333); (12337, 12341); (12347, 12347); (12441, 12446); (12540, 12542); (40981, 40981);
    (42232, 42237); (42508, 42508); (42607, 42610); (42612, 42621); (42623, 42623); (42652, 42655);
    (42736, 42737); (42752, 42785); (42864, 42864); (42888, 42890); (42994, 42996); (43000, 43001);
    (43010, 43010); (43014, 43014); (43019, 43019); (43045, 43046); (43052, 43052); (43204, 43205);
    (43232, 43249); (43263, 43263); (43302, 43309); (43335, 43345); (43392, 43394); (43443, 43443);
    (43446, 43449); (43452, 43453); (43471, 43471); (43493, 43494); (43561, 43566); (43569, 43570);
    (43573, 43574); (43587, 43587); (43596, 43596); (43632, 43632); (43644, 43644); (43696, 43696);
    (43698, 43700); (43703, 43704); (43710, 43711); (43713, 43713); (43741, 43741); (43756, 43757);
    (43763, 43764); (43766, 43766); (43867, 43871); (43881, 43883); (44005, 44005); (44008, 44008);
    (44013, 44013); (64286, 64286); (64434, 64450); (65024, 65039); (65043, 65043); (65056, 65071);
    (65106, 65106); (65109, 65109); (65279, 65279); (65287, 65287); (65294, 65294); (65306, 65306);
    (65342, 65342); (65344, 65344); (65392, 65392); (65438, 65439); (65507, 65507); (65529, 65531);
    (66045, 66045); (66272, 66272); (66422, 66426); (67456, 67461); (67463, 67504); (67506, 67514);
    (68097, 68099); (68101, 68102); (68108, 68111); (68152, 68154); (68159, 68159); (68325, 68326);
    (68900, 68903); (69291, 69292); (69446, 69456); (69506, 69509); (69633, 69633); (69688, 69702);
    (69744, 69744); (69747, 69748); (69759, 69761); (69811, 69814); (69817, 69818); (69821, 69821);
    (69826, 69826); (69837, 69837); (69888, 69890); (69927, 69931); (69933, 69940); (70003, 70003);
    (70016, 70017); (70070, 70078); (70089, 70092); (70095, 70095); (70191, 70193); (70196, 70196);
    (70198, 70199); (70206, 70206); (70367, 70367); (70371, 70378); (70400, 70401); (70459, 70460);
    (70464, 70464); (70502, 70508); (70512, 70516); (70712, 70719); (70722, 70724); (70726, 70726);
    (70750, 70750); (70835, 70840); (70842, 70842); (70847, 70848); (70850, 70851); (71090, 71093);
    (71100, 71101); (71103, 71104); (71132, 71133); (71219, 71226); (71229, 71229); (71231, 71232);
    (71339, 71339); (71341, 71341); (71344, 71349); (71351, 71351); (71453, 71455); (71458, 71461);
    (71463, 71467); (71727, 71735); (71737, 71738); (71995, 71996); (71998, 71998); (72003, 72003);
    (72148, 72151); (72154, 72155); (72160, 72160); (72193, 72202); (72243, 72248); (72251, 72254);
    (72263, 72263); (72273, 72278); (72281, 72283); (72330, 72342); (72344, 72345); (72752, 72758);
    (72760, 72765); (72767, 72767); (72850, 72871); (72874, 72880); (72882, 72883); (72885, 72886);
    (73009, 73014); (73018, 73018); (73020, 73021); (73023, 73029); (73031, 73031); (73104, 73105);
    (73109, 73109); (73111, 73111); (73459, 73460); (78896, 78904); (92912, 92916); (92976, 92982);
    (92992, 92995); (94031, 94031); (94095, 94111); (94176, 94177); (94179, 94180); (110576, 110579);
    (110581, 110587); (110589, 110590); (113821, 113822); (113824, 113827); (118528, 118573); (118576, 118598);
    (119143, 119145); (119155, 119170); (119173, 119179); (119210, 119213); (119362, 119364); (121344, 121398);
    (121403, 121452); (121461, 121461); (121476, 121476); (121499, 121503); (121505, 121519); (122880, 122886);
    (122888, 122904); (122907, 122913); (122915, 122916); (122918, 122922); (123184, 123197); (123566, 123566);
    (123628, 123631); (125136, 125142); (125252, 125259); (127995, 127999); (917505, 917505); (917536, 917631);
    (917760, 917999)
  ]%N.

(** The cased code points, as far as they are looked at: those that are
    not case-ignorable. *)
Definition cased_ranges : list (N * N) :=
  [
    (65, 90); (97, 122); (170, 170); (181, 181); (186, 186); (192, 214);
    (216, 246); (248, 442); (444, 447); (452, 659); (661, 687); (880, 883);
    (886, 887); (891, 893); (895, 895); (902, 902); (904, 906); (908, 908);
    (910, 929); (931, 1013); (1015, 1153); (1162, 1327); (1329, 1366); (1376, 1416);
    (4256, 4293); (4295, 4295); (4301, 4301); (4304, 4346); (4349, 4351); (5024, 5109);
    (5112, 5117); (7296, 7304); (7312, 7354); (7357, 7359); (7424, 7467); (7531, 7543);
    (7545, 7578); (7680, 7957); (7960, 7965); (7968, 8005); (8008, 8013); (8016, 8023);
    (8025, 8025); (8027, 8027); (8029, 8029); (8031, 8061); (8064, 8116); (8118, 8124);
    (8126, 8126); (8130, 8132); (8134, 8140); (8144, 8147); (8150, 8155); (8160, 8172);
    (8178, 8180); (8182, 8188); (8450, 8450); (8455, 8455); (8458, 8467); (8469, 8469);
    (8473, 8477); (8484, 8484); (8486, 8486); (8488, 8488); (8490, 8493); (8495, 8500);
    (8505, 8505); (8508, 8511); (8517, 8521); (8526, 8526); (8544, 8575); (8579, 8580);
    (9398, 9449); (11264, 11387); (11390, 11492); (11499, 11502); (11506, 11507); (11520, 11557);
    (11559, 11559); (11565, 11565); (42560, 42605); (42624, 42651); (42786, 42863); (42865, 42887);
    (42891, 42894); (42896, 42954); (42960, 42961); (42963, 42963); (42965, 42969); (42997, 42998);
    (43002, 43002); (43824, 43866); (43872, 43880); (43888, 43967); (64256, 64262); (64275, 64279);
    (65313, 65338); (65345, 65370); (66560, 66639); (66736, 66771); (66776, 66811); (66928, 66938);
    (66940, 66954); (66956, 66962); (66964, 66965); (66967, 66977); (66979, 66993); (66995, 67001);
    (67003, 67004); (68736, 68786); (68800, 68850); (71840, 71903); (93760, 93823); (119808, 119892);
    (119894, 119964); (119966, 119967); (119970, 119970); (119973, 119974); (119977, 119980); (119982, 119993);
    (119995, 119995); (119997, 120003); (120005, 120069); (120071, 120074); (120077, 120084); (120086, 120092);
    (120094, 120121); (120123, 120126); (120128, 120132); (120134, 120134); (120138, 120144); (120146, 120485);
    (120488, 120512); (120514, 120538); (120540, 120570); (120572, 120596); (120598, 120628); (120630, 120654);
    (120656, 120686); (120688, 120712); (120714, 120744); (120746, 120770); (120772, 120779); (122624, 122633);
    (122635, 122654); (125184, 125251); (127280, 127305); (127312, 127337); (127344, 127369)
  ]%N.

Definition case_ignorable (c : char) : bool :=
  in_ranges c case_ignorable_ranges.

Definition cased (c : char) : bool := in_ranges c cased_ranges.

Fixpoint skip_ignorable (s : str) : str :=
  match s with
  | c :: rest => if case_ignorable c then skip_ignorable rest else s
  | [] => []
  end.

(** Whether a capital sigma stands at the end of a word: a cased letter
    before it and none after it, case-ignorable characters skipped.
    [before] is the text up to the sigma, read backwards. *)
Definition final_sigma (before after : str) : bool :=
  match skip_ignorable before with
  | c :: _ => cased c
  | [] => false
  end
  && match skip_ignorable after with
     | c :: _ => negb (cased c)
     | [] => true
     end.

(** What one character of a text becomes in [str.lower]. *)
Definition lower_at (before : str) (c : char) (after : str) : str :=
  if (c =? 931)%N
  then [if final_sigma before after then 962%N else 963%N]
  else lower_full c.

Fixpoint lower_from (before s : str) : str :=
  match s with
  | [] => []
  | c :: rest => lower_at before c rest ++ lower_from (c :: before) rest
  end.

(** [str.lower] *)
Definition lower (s : str) : str := lower_from [] s.

Fixpoint lstrip (s : str) : str :=
  match s with
  | c :: rest => if isspace c then lstrip rest else s
  | [] => []
  end.

(** [s.strip()] *)
Definition strip (s : str) : str := rev (lstrip (rev (lstrip s))).

(** [s.startswith(p)] *)
Fixpoint startswith (p s : str) : bool :=
  match p, s with
  | [], _ => true
  | a :: p', b :: s' => (a =? b)%N && startswith p' s'
  | _ :: _, [] => false
  end.

(** [p in s] *)
Fixpoint contains (p s : str) : bool :=
  startswith p s ||
  match s with
  | [] => false
  | _ :: rest => contains p rest
  end.

(** [s.replace(old, new)] for a non-empty [old]: scan from the left, and
    after a match resume behind it ([skip] counts the characters of the
    match still to pass over). *)
Fixpoint replace_from (old new : str) (skip : nat) (s : str) : str :=
  match s with
  | [] => []
  | c :: rest =>
      match skip with
      | S k => replace_from old new k rest
      | O =>
          if startswith old s
          then new ++ replace_from old new (List.length old - 1) rest
          else c :: replace_from old new 0 rest
      end
  end.

Definition replace (old new s : str) : str :=
  match old with
  | [] => new ++ flat_map (fun c => c :: new) s
  | _ :: _ => replace_from old new 0 s
  end.

(** [s.split('\n')] *)
Fixpoint split_lines (s : str) : list str :=
  match s with
  | [] => [[]]
  | c :: rest =>
      if (c =? 10)%N then [] :: split_lines rest
      else match split_lines rest with
           | l :: ls => (c :: l) :: ls
           | [] => [[c]]
           end
  end.

(** [sep.join(parts)] *)
Fixpoint join (sep : str) (parts : list str) : str :=
  match parts with
  | [] => []
  | [p] => p
  | p :: ps => p ++ sep ++ join sep ps
  end.

(** Lexicographic comparison of code points: the order of [str]. *)
Fixpoint compare (a b : str) : comparison :=
  match a, b with
  | [], [] => Eq
  | [], _ :: _ => Lt
  | _ :: _, [] => Gt
  | x :: a', y :: b' =>
      match (x ?= y)%N with
      | Eq => compare a' b'
      | Lt => Lt
      | Gt => Gt
      end
  end.

(** [a < b] and [a <= b] on [str]. *)
Definition ltb (a b : str) : bool :=
  match compare a b with Lt => true | _ => false end.
Definition leb (a b : str) : bool :=
  match compare a b with Gt => false | _ => true end.

(** [str(n)] for a natural number. *)
Fixpoint digits (fuel : nat) (n : N) (acc : str) : str :=
  match fuel with
  | O => acc
  | S f =>
      let acc' := (48 + n mod 10)%N :: acc in
      if (n <? 10)%N then acc' else digits f (n / 10)%N acc'
  end.

Definition str_of_nat (n : nat) : str := digits (S n) (N.of_nat n) [].

(** [d.get(key, default)], the key's presence as an [option]. *)
Definition get {A : Type} (v : option A) (default : A) : A :=
  match v with Some x => x | None => default end.

End PyStr.
Import PyStr.

(* ================================================================== *)
(** * Relevance classifiers *)
(* ================================================================== *)

(** [any(term in text for term in terms)] *)
Definition any_in (terms : list str) (text : str) : bool :=
  existsb (fun term => contains term text) terms.

(** [any(term.lower() in text for term in terms)] *)
Definition any_lower_in (terms : list str) (text : str) : bool :=
  existsb (fun term => contains (lower term) text) terms.

(** [medicare_access_monitor_github.py] *)
Module MedicareRules.

Definition KEYWORDS : list str :=
  [ lit "ACCESS"; lit "ACO REACH"; lit "Medicare Advantage";
    lit "CMS Innovation Center"; lit "CMMI";
    lit "Medicare Part D"; lit "medication therapy management"; lit "MTM";
    lit "value-based care"; lit "risk adjustment";
    lit "Medicare payment"; lit "Medicare policy";
    lit "star ratings"; lit "quality measures";
    lit "beneficiary"; lit "Medicare enrollment";
    lit "prescription drug coverage"; lit "formulary";
    lit "prior authorization"; lit "step therapy" ].

Definition HIGH_PRIORITY : list str :=
  [ lit "ACCESS program"; lit "ACO REACH"; lit "CMMI";
    lit "medication therapy management"; lit "MTM";
    lit "Part D"; lit "prescription drug" ].

Definition is_relevant_article (title summary : str) : bool :=
  let text := lower (title ++ lit " " ++ summary) in
  let has_medicare :=
    any_in [lit "medicare"; lit "cms"; lit "centers for medicare"] text in
  if negb has_medicare then false
  else if any_lower_in HIGH_PRIORITY text then true
  else if any_lower_in KEYWORDS text then true
  else false.

End MedicareRules.

(** [pharmacy_ai_monitor_github.py] *)
Module PharmacyRules.

Definition PHARMACY_KEYWORDS : list str :=
  [ lit "medication"; lit "pharmacy"; lit "pharmacist"; lit "drug";
    lit "prescription"; lit "adherence"; lit "MTM";
    lit "medication therapy management";
    lit "polypharmacy"; lit "deprescribing"; lit "drug interaction";
    lit "medication safety"; lit "medication error"; lit "adverse drug";
    lit "clinical pharmacy"; lit "pharmaceutical care";
    lit "medication reconciliation"; lit "medication review" ].

Definition MEDICARE_KEYWORDS : list str :=
  [ lit "Medicare"; lit "ACCESS"; lit "CMS"; lit "Part D";
    lit "medication therapy management"; lit "MTM";
    lit "star ratings"; lit "Medicare Advantage" ].

Definition AI_MEDICATION_KEYWORDS : list str :=
  [ lit "AI medication"; lit "artificial intelligence pharmacy";
    lit "machine learning drug"; lit "predictive medication";
    lit "automated dispensing"; lit "clinical decision support medication";
    lit "EHR medication"; lit "e-prescribing"; lit "medication alert" ].

Definition ai_terms : list str :=
  [ lit "ai"; lit "artificial intelligence"; lit "machine learning";
    lit "automation"; lit "algorithm" ].

Definition technology_terms : list str :=
  [ lit "technology"; lit "digital"; lit "innovation"; lit "system";
    lit "platform" ].

Definition exclude_terms : list str :=
  [ lit "imaging"; lit "radiology"; lit "ultrasound"; lit "surgery";
    lit "robot surgery"; lit "diagnostic imaging"; lit "pathology";
    lit "NASA"; lit "space" ].

Definition is_relevant_article (title summary : str) : bool :=
  let text := lower (title ++ lit " " ++ summary) in
  if any_lower_in MEDICARE_KEYWORDS text then true
  else
    let has_ai := any_in ai_terms text in
    let has_pharmacy := any_lower_in PHARMACY_KEYWORDS text in
    if has_ai && has_pharmacy then true
    else if has_pharmacy && any_in technology_terms text then true
    else if any_in exclude_terms text then false
    else false.

(** The same classifier with the exclusion tier (the [exclude_terms]
    test and its [return False]) deleted. *)
Definition is_relevant_article_without_exclusion (title summary : str)
  : bool :=
  let text := lower (title ++ lit " " ++ summary) in
  if any_lower_in MEDICARE_KEYWORDS text then true
  else
    let has_ai := any_in ai_terms text in
    let has_pharmacy := any_lower_in PHARMACY_KEYWORDS text in
    if has_ai && has_pharmacy then true
    else if has_pharmacy && any_in technology_terms text then true
    else false.

End PharmacyRules.

(* ================================================================== *)
(** * Feed collection: [collect_articles] *)
(* ================================================================== *)

(** A naive [datetime], as microseconds on the proleptic calendar line;
    the difference of two of them is a [timedelta]. *)
Definition datetime := Z.

Definition microseconds_per_day : Z := 86400000000.

(** [timedelta.days]: whole days, rounded down. *)
Definition days (delta : Z) : Z := delta / microseconds_per_day.

(** The first six fields of a [time.struct_time]. *)
Record struct_time := {
  tm_year : Z;
  tm_mon : Z;
  tm_mday : Z;
  tm_hour : Z;
  tm_min : Z;
  tm_sec : Z
}.

Definition is_leap (year : Z) : bool :=
  ((year mod 4 =? 0)
   && (negb (year mod 100 =? 0) || (year mod 400 =? 0)))%Z.

Definition days_in_month (year month : Z) : Z :=
  match month with
  | 1 => 31
  | 2 => if is_leap year then 29 else 28
  | 3 => 31
  | 4 => 30
  | 5 => 31
  | 6 => 30
  | 7 => 31
  | 8 => 31
  | 9 => 30
  | 10 => 31
  | 11 => 30
  | 12 => 31
  | _ => 0
  end%Z.

Definition days_before_year (year : Z) : Z :=
  let y := (year - 1)%Z in
  (y * 365 + y / 4 - y / 100 + y / 400)%Z.

Definition days_before_month (year month : Z) : Z :=
  fold_right Z.add 0%Z
    (List.map (fun m => days_in_month year (Z.of_nat m))
       (seq 1 (Z.to_nat month - 1))).

(** [datetime( *pub_date[:6])]: the moment, or [None] for the
    [ValueError] of a field out of range. *)
Definition datetime_of (p : struct_time) : option datetime :=
  if ((1 <=? tm_year p) && (tm_year p <=? 9999)
      && (1 <=? tm_mon p) && (tm_mon p <=? 12)
      && (1 <=? tm_mday p)
      && (tm_mday p <=? days_in_month (tm_year p) (tm_mon p))
      && (0 <=? tm_hour p) && (tm_hour p <=? 23)
      && (0 <=? tm_min p) && (tm_min p <=? 59)
      && (0 <=? tm_sec p) && (tm_sec p <=? 59))%Z
  then
    let ordinal :=
      (days_before_year (tm_year p)
       + days_before_month (tm_year p) (tm_mon p) + tm_mday p)%Z in
    Some ((((ordinal * 24 + tm_hour p) * 60 + tm_min p) * 60 + tm_sec p)
          * 1000000)%Z
  else None.

(** One entry of a parsed feed.  Each key may be absent ([None]); the
    two [*_parsed] keys may be present with the value [None] when the
    date text could not be parsed.  The texts are [str], as the feed
    parser gives them.  [datetime.now()] is read once per entry by the
    script and is one fixed value [now] here. *)
Record Entry := {
  e_title : option str;
  e_summary : option str;
  e_description : option str;
  e_link : option str;
  e_published : option str;
  e_updated : option str;
  e_published_parsed : option (option struct_time);
  e_updated_parsed : option (option struct_time)
}.

(** What [feedparser.parse] returned for one locator. *)
Record Feed := {
  entries : list Entry;
  feed_title : option str
}.

(** The dict appended at the end of the loop body; its five keys are
    always present. *)
Record Article := {
  title : str;
  link : str;
  summary : str;
  published : str;
  source : str
}.

(** [entry.get('title', '')] *)
Definition entry_title (e : Entry) : str := get (e_title e) [].

(** [entry.get('summary', entry.get('description', ''))] *)
Definition entry_summary (e : Entry) : str :=
  get (e_summary e) (get (e_description e) []).

(** [entry.get('published_parsed', entry.get('updated_parsed'))];
    [None] is Python's [None]. *)
Definition entry_pub_date (e : Entry) : option struct_time :=
  get (e_published_parsed e) (get (e_updated_parsed e) None).

(** [entry.get('published', entry.get('updated', 'Date unknown'))] *)
Definition entry_published (e : Entry) : str :=
  get (e_published e) (get (e_updated e) (lit "Date unknown")).

Definition article_of_entry (feed : Feed) (e : Entry) : Article :=
  {| title := entry_title e;
     link := get (e_link e) [];
     summary := firstn 2000 (entry_summary e);
     published := entry_published e;
     source := get (feed_title feed) (lit "Unknown source") |}.

(** [(datetime.now() - pub_datetime).days > 21] *)
Definition too_old (now pub_datetime : datetime) : bool :=
  (21 <? days (now - pub_datetime))%Z.

(** State of the collecting loop: the [articles] list, and (ghost) the
    arguments of every call of the classifier so far. *)
Record Collector := {
  articles : list Article;
  calls : list (str * str)
}.

(** How the body of the loop over the entries ends: the loop goes on
    with the next entry, or an exception leaves it. *)
Inductive Step :=
| Next (st : Collector)
| Raise (st : Collector).

(** [re.sub(r'[^\w\s]', '', title.lower())] *)
Definition simple_title (a : Article) : str :=
  filter (fun c => isword c || isspace c) (lower (title a)).

(** [x.get('published', '')]: the key is always there. *)
Definition sort_key (a : Article) : str := get (Some (published a)) [].

Section Collect.

  (** The two article monitors differ in the classifier and in how many
      entries of a feed they scan. *)
Variable is_relevant_article : str -> str -> bool.
Variable scan_limit : nat.
Variable now : datetime.

  (** Body of [for entry in feed.entries[:K]]. *)
Definition collect_entry (feed : Feed) (st : Collector) (e : Entry)
    : Step :=
    let title := entry_title e in
    let summary := entry_summary e in
    let called := calls st ++ [(title, summary)] in
    if is_relevant_article title summary then
      match entry_pub_date e with
      | Some pub_date =>
          match datetime_of pub_date with
          | Some pub_datetime =>
              if too_old now pub_datetime
              then Next {| articles := articles st; calls := called |}
              else Next {| articles := articles st ++ [article_of_entry feed e];
                           calls := called |}
          | None => Raise {| articles := articles st; calls := called |}
          end
      | None =>
          Next {| articles := articles st ++ [article_of_entry feed e];
                  calls := called |}
      end
    else Next {| articles := articles st; calls := called |}.

  (** The loop over the entries: an exception ends it, and what was
      appended so far stays. *)
Fixpoint collect_entries (feed : Feed) (st : Collector) (es : list Entry)
    : Collector :=
    match es with
    | [] => st
    | e :: rest =>
        match collect_entry feed st e with
        | Next st' => collect_entries feed st' rest
        | Raise st' => st'
        end
    end.

  (** Body of [for i, feed_url in enumerate(RSS_FEEDS, 1)]; a locator
      whose fetch raised is [None].  The [except] of the loop catches
      what the fetch or an entry raises, and the loop goes on with the
      next locator. *)
Definition collect_feed (st : Collector) (fetched : option Feed)
    : Collector :=
    match fetched with
    | None => st
    | Some feed =>
        match entries feed with
        | [] => st
        | _ :: _ =>
            collect_entries feed st (firstn scan_limit (entries feed))
        end
    end.

Definition gather (feeds : list (option Feed)) : Collector :=
    fold_left collect_feed feeds {| articles := []; calls := [] |}.

End Collect.

(** ** Deduplication *)

(** [unique_articles]: a dict in insertion order. *)
Definition Dict := list (str * Article).

Fixpoint dict_mem (k : str) (d : Dict) : bool :=
  match d with
  | [] => false
  | (k', _) :: rest => str_eqb k k' || dict_mem k rest
  end.

Definition dedup_step (unique_articles : Dict) (article : Article) : Dict :=
  let key := simple_title article in
  if dict_mem key unique_articles then unique_articles
  else unique_articles ++ [(key, article)].

(** The loop under [# Remove duplicates], then
    [list(unique_articles.values())]. *)
Definition remove_duplicates (arts : list Article) : list Article :=
  List.map snd (fold_left dedup_step arts []).

(** ** Ranking *)

(** [articles.sort(key=..., reverse=True)]: a stable sort, largest key
    first, equal keys in their original order. *)
Fixpoint insert_desc (a : Article) (sorted : list Article) : list Article :=
  match sorted with
  | [] => [a]
  | b :: rest =>
      if ltb (sort_key a) (sort_key b) then b :: insert_desc a rest
      else a :: sorted
  end.

Definition sort_desc (arts : list Article) : list Article :=
  fold_right insert_desc [] arts.

Definition collect_articles (is_relevant_article : str -> str -> bool)
  (scan_limit : nat) (now : datetime) (feeds : list (option Feed))
  : list Article :=
  sort_desc
    (remove_duplicates
       (articles (gather is_relevant_article scan_limit now feeds))).

(* ================================================================== *)
(** * Sheet reader: [read_sheet_data] *)
(* ================================================================== *)

Module Sheet.

Record MetricsRecord := {
  date : str;
  ascvd_correct : Z;
  ascvd_incorrect : Z;
  drug_interactions_detected : Z;
  drug_interactions_missed : Z;
  false_positives : Z;
  allergy_failures : Z;
  notes : str
}.

(** The decimal digits of Unicode 14.0, in runs of ten from a zero. *)
Definition decimal_ranges : list (N * N) :=
  [
    (48, 57); (1632, 1641); (1776, 1785); (1984, 1993); (2406, 2415); (2534, 2543);
    (2662, 2671); (2790, 2799); (2918, 2927); (3046, 3055); (3174, 3183); (3302, 3311);
    (3430, 3439); (3558, 3567); (3664, 3673); (3792, 3801); (3872, 3881); (4160, 4169);
    (4240, 4249); (6112, 6121); (6160, 6169); (6470, 6479); (6608, 6617); (6784, 6793);
    (6800, 6809); (6992, 7001); (7088, 7097); (7232, 7241); (7248, 7257); (42528, 42537);
    (43216, 43225); (43264, 43273); (43472, 43481); (43504, 43513); (43600, 43609); (44016, 44025);
    (65296, 65305); (66720, 66729); (68912, 68921); (69734, 69743); (69872, 69881); (69942, 69951);
    (70096, 70105); (70384, 70393); (70736, 70745); (70864, 70873); (71248, 71257); (71360, 71369);
    (71472, 71481); (71904, 71913); (72016, 72025); (72784, 72793); (73040, 73049); (73120, 73129);
    (92768, 92777); (92864, 92873); (93008, 93017); (120782, 120831); (123200, 123209); (123632, 123641);
    (125264, 125273); (130032, 130041)
  ]%N.

Fixpoint decimal_lookup (c : char) (ranges : list (N * N)) : option N :=
  match ranges with
  | [] => None
  | (lo, hi) :: rest =>
      if (c <? lo)%N then None
      else if (c <=? hi)%N then Some ((c - lo) mod 10)%N
      else decimal_lookup c rest
  end.

(** What [int] makes of one character before it reads the text: a
    character below 127 stays, white space becomes a space, a decimal
    digit its ASCII digit, and anything else a question mark. *)
Definition to_ascii (c : char) : char :=
  if (c <? 127)%N then c
  else if isspace c then 32%N
  else match decimal_lookup c decimal_ranges with
       | Some d => (48 + d)%N
       | None => 63%N
       end.

Definition isdigit (c : char) : bool := ((48 <=? c) && (c <=? 57))%N.

(** The white space that [int] skips at both ends. *)
Definition is_c_space (c : char) : bool :=
  ((9 <=? c) && (c <=? 13) || (c =? 32))%N.

Fixpoint skip_c_space (s : str) : str :=
  match s with
  | c :: rest => if is_c_space c then skip_c_space rest else s
  | [] => []
  end.

(** Digits of an integer literal, with their number; single underscores
    may separate them. *)
Fixpoint int_digits (s : str) (acc : Z) (count : nat) (after_digit : bool)
  : option (Z * nat) :=
  match s with
  | [] => if after_digit then Some (acc, count) else None
  | c :: rest =>
      if isdigit c
      then int_digits rest (acc * 10 + Z.of_N (c - 48)) (S count) true
      else if (c =? 95)%N && after_digit then int_digits rest acc count false
      else None
  end.

(** The default of [sys.get_int_max_str_digits()]. *)
Definition max_str_digits : nat := 4300.

(** A literal with more digits than the limit is refused. *)
Definition int_literal (s : str) : option Z :=
  match int_digits s 0 0 false with
  | Some (value, count) =>
      if (max_str_digits <? count)%nat then None else Some value
  | None => None
  end.

(** [int(cell)]; [None] is [ValueError]. *)
Definition int (cell : str) : option Z :=
  match rev (skip_c_space (rev (skip_c_space (List.map to_ascii cell)))) with
  | 43%N :: rest => int_literal rest
  | 45%N :: rest => option_map Z.opp (int_literal rest)
  | text => int_literal text
  end.

(** [int(row[i]) if row[i] else 0] *)
Definition counter (row : list str) (i : nat) : option Z :=
  match nth i row [] with
  | [] => Some 0%Z
  | cell => int cell
  end.

Definition bind {A B : Type} (x : option A) (f : A -> option B) : option B :=
  match x with Some a => f a | None => None end.

Notation "x <- e ;; k" := (bind e (fun x => k))
  (at level 61, e at next level, right associativity).

(** The body of the [try]: the dict literal, evaluated left to right. *)
Definition make_record (row : list str) : option MetricsRecord :=
  c1 <- counter row 1 ;;
  c2 <- counter row 2 ;;
  c3 <- counter row 3 ;;
  c4 <- counter row 4 ;;
  c5 <- counter row 5 ;;
  c6 <- counter row 6 ;;
  Some {| date := nth 0 row [];
          ascvd_correct := c1;
          ascvd_incorrect := c2;
          drug_interactions_detected := c3;
          drug_interactions_missed := c4;
          false_positives := c5;
          allergy_failures := c6;
          notes := if (7 <? List.length row)%nat then nth 7 row [] else [] |}.

(** The lines the reader prints. *)
Inductive LogLine :=
| LogReading
| LogAuthenticating
| LogSkippingInvalidRow (row : list str)
| LogFound (weeks : nat).

Record Reader := {
  records : list MetricsRecord;
  printed : list LogLine
}.

(** Body of [for row in data_rows]. *)
Definition read_row (st : Reader) (row : list str) : Reader :=
  if (7 <=? List.length row)%nat then
    match make_record row with
    | Some record =>
        {| records := records st ++ [record]; printed := printed st |}
    | None =>
        {| records := records st;
           printed := printed st ++ [LogSkippingInvalidRow row] |}
    end
  else st.

(** [values] is [result.get('values', [])]; the result [None] is
    Python's [None]. *)
Definition read_sheet_data (values : list (list str))
  : option (list MetricsRecord) * list LogLine :=
  let start := [LogReading; LogAuthenticating] in
  match values with
  | [] => (None, start)
  | [_] => (None, start)
  | headers :: data_rows =>
      let st := fold_left read_row data_rows
                  {| records := []; printed := start |} in
      (Some (records st),
       printed st ++ [LogFound (List.length (records st))])
  end.

End Sheet.

(* ================================================================== *)
(** * Brief renderer: [create_html_email] *)
(* ================================================================== *)

(** Markup literals are written with an apostrophe where the scripts
    have a double quote. *)
Definition markup (s : string) : str :=
  List.map (fun c => if (c =? 39)%N then 34%N else c) (lit s).

Arguments markup s%_string.

(** What one [html_parts.append] adds. *)
Inductive Part :=
| Raw (html : str)
| UlOpen
| UlClose
| H2 (color section : str)
| Li (text : str)
| P (line : str).

Definition html_of_part (p : Part) : str :=
  match p with
  | Raw html => html
  | UlOpen => markup "<ul style='line-height: 1.6;'>"
  | UlClose => lit "</ul>"
  | H2 color section =>
      markup "<h2 style='color: " ++ color ++ markup "; margin-top: 20px;'>"
      ++ section ++ lit "</h2>"
  | Li text => lit "<li>" ++ text ++ lit "</li>"
  | P line => markup "<p style='line-height: 1.6;'>" ++ line ++ lit "</p>"
  end.

(** [.replace('**', '<strong>').replace('**', '</strong>')] *)
Definition bold (text : str) : str :=
  replace (lit "**") (lit "</strong>")
    (replace (lit "**") (lit "<strong>") text).

(** [line.startswith('•') or line.startswith('-') or line.startswith('*')] *)
Definition is_bullet (line : str) : bool :=
  startswith [8226%N] line || startswith (lit "-") line
  || startswith (lit "*") line.

(** [line[1:].strip()] followed by the bold replacement. *)
Definition bullet_text (line : str) : str := bold (strip (tl line)).

Section Renderer.

(** The three renderers differ in the section titles they recognise, in
    the colour of a heading, and in what they do to a bullet's text. *)
Variable section_titles : list str.
Variable heading_color : str -> str.
Variable highlight : str -> str.

Definition is_section_header (line : str) : bool :=
  startswith (lit "##") line || any_in section_titles line.

Definition close_list (in_list : bool) : list Part :=
  if in_list then [UlClose] else [].

(** Body of [for line in lines], on the pair [(in_list, html_parts)]. *)
Definition render_line (st : bool * list Part) (raw : str)
  : bool * list Part :=
  let '(in_list, html_parts) := st in
  let line := strip raw in
  match line with
  | [] => st
  | _ :: _ =>
      if is_section_header line then
        let section := strip (replace (lit "#") [] (replace (lit "##") [] line)) in
        (false, html_parts ++ close_list in_list
                  ++ [H2 (heading_color section) section])
      else if is_bullet line then
        (true, html_parts ++ (if in_list then [] else [UlOpen])
                 ++ [Li (highlight (bullet_text line))])
      else
        (false, html_parts ++ close_list in_list ++ [P line])
  end.

(** The loop over [text.split('\n')] and the closing [if in_list]. *)
Definition render_lines (text : str) : list Part :=
  let '(in_list, html_parts) :=
    fold_left render_line (split_lines text) (false, []) in
  html_parts ++ close_list in_list.

End Renderer.

(** [enumerate(l, 1)] *)
Definition enumerate1 {A : Type} (l : list A) : list (nat * A) :=
  combine (seq 1 (List.length l)) l.

(** The five parts appended for one article of the reference list. *)
Definition article_parts (ia : nat * Article) : list Part :=
  let '(i, article) := ia in
  [ Raw (markup "<div style='margin: 15px 0; padding: 10px; background: #f9f9f9; border-left: 3px solid #0066cc;'>");
    Raw (markup "<p style='margin: 5px 0;'><strong>" ++ str_of_nat i
         ++ lit ". " ++ title article ++ lit "</strong></p>");
    Raw (markup "<p style='margin: 5px 0; font-size: 10pt; color: #666;'>"
         ++ source article ++ lit " | " ++ published article ++ lit "</p>");
    Raw (markup "<p style='margin: 5px 0; font-size: 10pt;'><a href='"
         ++ link article ++ markup "' style='color: #0066cc;'>"
         ++ link article ++ lit "</a></p>");
    Raw (lit "</div>") ].

Definition reference_list (arts : list Article) : list Part :=
  [ Raw (markup "<hr style='border: 1px solid #ddd; margin: 30px 0;'>");
    Raw (markup "<h2 style='color: #0066cc;'>Article Reference List</h2>");
    Raw (markup "<p style='font-style: italic; color: #666;'>All articles analyzed this week:</p>") ]
  ++ flat_map article_parts (enumerate1 arts).

(* ================================================================== *)
(** * The article monitors: synthesis, rendering, delivery, [main] *)
(* ================================================================== *)

(** What the text-generation service does with a request. *)
Inductive Generation :=
| Generated (text : str)
| GenerationRaised (e : str).

(** What the mail server does with a message. *)
Inductive Delivery :=
| Delivered
| DeliveryRaised (e : str).

(** The lines of [main] and of the functions it calls that report an
    outcome; progress lines are left out. *)
Inductive Message :=
| MsgRunStarted
| MsgNothingToReport
| MsgErrorCreatingSummary (e : str)
| MsgEmailSent
| MsgErrorSendingEmail (e : str)
| MsgSuccess (count : nat)
| MsgError (e : str).

(** What a run does to the outside world, in order. *)
Inductive Event :=
| Print (m : Message)
| CallGenerate (prompt : str)
| CallSend (html : str) (count : nat).

(** The outside world of one run.  [client_error] is the exception, if
    any, of constructing the service client; [today] is
    [datetime.now().strftime("%B %d, %Y")]. *)
Record World := {
  now : datetime;
  today : str;
  feeds : list (option Feed);
  client_error : option str;
  generate : str -> Generation;
  smtp : str -> Delivery
}.

(** A value or a raised exception, with the events so far. *)
Definition Run (A : Type) : Type := list Event * (A + str).

(** ** Building the message *)

Definition is_surrogate (c : char) : bool :=
  ((55296 <=? c) && (c <=? 57343))%N.

Definition hex_digit (d : N) : char :=
  (if d <? 10 then 48 + d else 87 + d)%N.

(** [%04x] of a code point below 65536. *)
Definition hex4 (c : char) : str :=
  [ hex_digit (c / 4096); hex_digit (c / 256 mod 16);
    hex_digit (c / 16 mod 16); hex_digit (c mod 16) ]%N.

Fixpoint surrogate_run (s : str) : nat :=
  match s with
  | c :: rest => if is_surrogate c then S (surrogate_run rest) else 0
  | [] => 0
  end.

(** The text of the [UnicodeEncodeError] for the surrogates that start
    [s], which stands at [position] in the text. *)
Definition surrogates_not_allowed (position : nat) (s : str) : str :=
  match s with
  | c :: rest =>
      match surrogate_run rest with
      | O =>
          lit "'utf-8' codec can't encode character '" ++ [92%N; 117%N]
          ++ hex4 c ++ lit "' in position " ++ str_of_nat position
          ++ lit ": surrogates not allowed"
      | S more =>
          lit "'utf-8' codec can't encode characters in position "
          ++ str_of_nat position ++ lit "-" ++ str_of_nat (position + S more)
          ++ lit ": surrogates not allowed"
      end
  | [] => []
  end.

Fixpoint encode_error (position : nat) (s : str) : option str :=
  match s with
  | [] => None
  | c :: rest =>
      if is_surrogate c then Some (surrogates_not_allowed position s)
      else encode_error (S position) rest
  end.

(** [MIMEText(html_content, 'html')], which the scripts call before the
    [try] of [send_email]: the text is encoded, and a surrogate code point
    in it raises. *)
Definition mime_error (html_content : str) : option str :=
  encode_error 0 html_content.

Section ArticleMonitor.

Variable is_relevant_article : str -> str -> bool.
Variable scan_limit : nat.
(** The prompt template around [{len(articles)}] and [{article_list}]. *)
Variable prompt_intro prompt_task prompt_format : str.
(** The page title and the focus line of the header. *)
Variable page_title focus : str.

(** One element of the list joined into [article_list]. *)
Definition article_block (ia : nat * Article) : str :=
  let '(i, art) := ia in
  lit "ARTICLE " ++ str_of_nat i ++ lit ":" ++ [10%N]
  ++ lit "Title: " ++ title art ++ [10%N]
  ++ lit "Source: " ++ source art ++ [10%N]
  ++ lit "Date: " ++ published art ++ [10%N]
  ++ lit "Summary: " ++ firstn 800 (summary art) ++ [10%N]
  ++ lit "Link: " ++ link art.

Definition prompt (arts : list Article) : str :=
  prompt_intro ++ str_of_nat (List.length arts) ++ prompt_task
  ++ join [10%N; 10%N] (List.map article_block (enumerate1 arts))
  ++ prompt_format.

Definition create_executive_summary (w : World) (arts : list Article)
  : Run str :=
  match client_error w with
  | Some e => ([], inr e)
  | None =>
      match generate w (prompt arts) with
      | Generated text => ([CallGenerate (prompt arts)], inl text)
      | GenerationRaised e =>
          ([CallGenerate (prompt arts); Print (MsgErrorCreatingSummary e)],
           inl (lit "Error creating executive summary: " ++ e))
      end
  end.

Definition article_section_titles : list str :=
  [lit "EXECUTIVE SUMMARY"; lit "KEY TAKEAWAYS"; lit "MILU STRATEGIC"].

Definition render_summary : str -> list Part :=
  render_lines article_section_titles (fun _ => lit "#0066cc")
    (fun text => text).

Definition header (w : World) (arts : list Article) : list Part :=
  [ Raw (markup "<div style='font-family: Arial, sans-serif; font-size: 12pt; max-width: 800px;'>");
    Raw (markup "<h1 style='color: #0066cc; text-align: center;'>"
         ++ page_title ++ lit "</h1>");
    Raw (markup "<p style='text-align: center; color: #666; font-size: 11pt;'>Week ending "
         ++ today w ++ lit "</p>");
    Raw (markup "<p style='text-align: center; color: #666; font-size: 10pt; font-style: italic;'>Articles analyzed: "
         ++ str_of_nat (List.length arts) ++ lit " | Focus: " ++ focus
         ++ lit "</p>");
    Raw (markup "<hr style='border: 1px solid #ddd; margin: 20px 0;'>") ].

Definition html_parts (w : World) (executive_summary : str)
  (arts : list Article) : list Part :=
  header w arts ++ render_summary executive_summary
  ++ reference_list arts ++ [Raw (lit "</div>")].

Definition create_html_email (w : World) (executive_summary : str)
  (arts : list Article) : str :=
  join [10%N] (List.map html_of_part (html_parts w executive_summary arts)).

Definition send_email (w : World) (html_content : str) (num_articles : nat)
  : Run bool :=
  match mime_error html_content with
  | Some e => ([], inr e)
  | None =>
      match smtp w html_content with
      | Delivered =>
          ([CallSend html_content num_articles; Print MsgEmailSent],
           inl true)
      | DeliveryRaised e =>
          ([CallSend html_content num_articles;
            Print (MsgErrorSendingEmail e)],
           inl false)
      end
  end.

Definition main (w : World) : list Event :=
  let arts := collect_articles is_relevant_article scan_limit (now w) (feeds w) in
  Print MsgRunStarted ::
  match arts with
  | [] => [Print MsgNothingToReport]
  | _ :: _ =>
      match create_executive_summary w arts with
      | (ev, inr e) => ev ++ [Print (MsgError e)]
      | (ev, inl executive_summary) =>
          let html_content := create_html_email w executive_summary arts in
          match send_email w html_content (List.length arts) with
          | (ev', inr e) => ev ++ ev' ++ [Print (MsgError e)]
          | (ev', inl success) =>
              ev ++ ev'
              ++ (if success then [Print (MsgSuccess (List.length arts))]
                  else [])
          end
      end
  end.

End ArticleMonitor.

Module MedicareText.

Definition prompt_intro : str := lit "You are analyzing ".

Definition prompt_task : str := lit " recent articles about Medicare programs, healthcare policy, and the ACCESS program for a Lead Clinical Pharmacist at Milu Health.

Milu Health Context:
- Milu provides AI-powered medication management services (Merlin system)
- Target market: Medicare beneficiaries, especially ACCESS program participants
- Services: Pharmacist-led MTM, medication adherence, clinical decision support
- The ACCESS program represents a $500M+ market opportunity for Milu

Please analyze these articles and create:

1. EXECUTIVE SUMMARY:
   - Brief 2-3 sentence overview of major policy/program developments
   - 5-7 bullet points covering:
     * Key Medicare policy changes or announcements
     * ACCESS/ACO REACH program updates
     * Part D or MTM program changes
     * Payment model or star ratings updates
     * Regulatory changes affecting medication management
   - Be specific about effective dates, dollar amounts, enrollment numbers when available

2. KEY TAKEAWAYS (5-7 bullet points):
   - Most critical policy changes that could impact medication management businesses
   - New opportunities or requirements for Medicare providers
   - Threats or challenges to current business models
   - Actionable intelligence for strategic planning

3. MILU STRATEGIC IMPLICATIONS:
   - Brief 2-3 sentence context about how these changes affect Milu's business
   - 4-6 bullet points covering:
     * Direct opportunities in ACCESS or other Medicare programs
     * Required changes to service offerings or compliance
     * Competitive positioning implications
     * Partnership or growth opportunities
     * Risk mitigation strategies
   - Be specific and actionable - what should Milu DO in response?

Articles to analyze:

".

Definition prompt_format : str := lit "

Format your response with clear section headers and bullet points.".

Definition page_title : str := lit "Medicare ACCESS Program Weekly Brief".

Definition focus : str := lit "Medicare ACCESS, Policy Changes, MTM Programs".

End MedicareText.

Module PharmacyText.

Definition prompt_intro : str := lit "You are analyzing ".

Definition prompt_task : str := lit " recent articles about pharmacy, medication management, Medicare programs, and healthcare AI for a Lead Clinical Pharmacist at Milu Health.

Milu Health Context:
- Milu uses an AI system called Merlin that integrates with EHR systems
- Focus areas: medication adherence, clinical decision support, cost-saving opportunities
- Target: Medicare patients, especially ACCESS program participants
- Services: Pharmacist-led care coordination, MTM, medication optimization

Please analyze these articles and create:

1. EXECUTIVE SUMMARY:
   - Start with a brief 2-3 sentence overview paragraph
   - Then provide 5-7 bullet points highlighting major themes, trends, and developments
   - Be specific and substantive - include data/findings where available
   - Focus on what pharmacy and healthcare AI leaders should be paying attention to

2. KEY TAKEAWAYS (5-7 bullet points):
   - Most important insights that would be actionable or strategically relevant
   - Focus on pharmacy practice, medication safety, AI validation, Medicare programs
   - Be specific and data-driven where possible

3. MILU STRATEGIC IMPLICATIONS:
   - Start with a brief 2-3 sentence context paragraph
   - Then provide 4-6 bullet points covering:
     * How these trends connect to Milu's work with Merlin, EHR integration, and medication adherence
     * Opportunities for Milu in Medicare ACCESS or other programs
     * Considerations for AI safety, validation, or clinical pharmacy protocols
     * Strategic positioning opportunities
   - Be actionable and specific to Milu's business

Articles to analyze:

".

Definition prompt_format : str := lit "

Format your response with clear section headers and bullet points.".

Definition page_title : str := lit "Pharmacy & Medication Management AI Weekly Brief".

Definition focus : str := lit "Medication Management, Medicare ACCESS, Clinical Pharmacy AI".

End PharmacyText.

Module Medicare.
Import MedicareText.
Definition is_relevant_article := MedicareRules.is_relevant_article.
Definition collect_articles := collect_articles is_relevant_article 25.
Definition create_executive_summary :=
  create_executive_summary prompt_intro prompt_task prompt_format.
Definition render_summary := render_summary.
Definition html_parts := html_parts page_title focus.
Definition create_html_email := create_html_email page_title focus.
Definition main : World -> list Event :=
  main is_relevant_article 25 prompt_intro prompt_task prompt_format
    page_title focus.
End Medicare.

Module Pharmacy.
Import PharmacyText.
Definition is_relevant_article := PharmacyRules.is_relevant_article.
Definition collect_articles := collect_articles is_relevant_article 20.
Definition create_executive_summary :=
  create_executive_summary prompt_intro prompt_task prompt_format.
Definition render_summary := render_summary.
Definition html_parts := html_parts page_title focus.
Definition create_html_email := create_html_email page_title focus.
Definition main : World -> list Event :=
  main is_relevant_article 20 prompt_intro prompt_task prompt_format
    page_title focus.
End Pharmacy.

(* ================================================================== *)
(** * The metrics monitor: [merlin_accuracy_monitor.py] *)
(* ================================================================== *)

Module Merlin.
Import Sheet.

Definition SHEET_ID : str := lit "1PGYgCJf-_m8OnrXT3V2aX_X3DTjxqeahieNmqWtl6ok".

(** The outside world of one run; [sheet] is the [values] of the read,
    or the exception of the credentials or of the read. *)
Record World := {
  today : str;
  sheet : list (list str) + str;
  client_error : option str;
  generate : str -> Generation;
  smtp : str -> Delivery
}.

Definition section_titles : list str :=
  [lit "EXECUTIVE SUMMARY"; lit "KEY METRICS"; lit "ANOMALIES";
   lit "RECOMMENDATIONS"].

(** ['#cc0000' if 'ANOMALIES' in section else '#0066cc'] *)
Definition heading_color (section : str) : str :=
  if contains (lit "ANOMALIES") section then lit "#cc0000" else lit "#0066cc".

Definition concerning_words : list str :=
  [lit "drop"; lit "decline"; lit "concern"; lit "alert"; lit "spike";
   lit "failure"].

Definition warning_sign : str := [9888%N; 65039%N].

(** The [# Highlight concerning items] step. *)
Definition highlight (text : str) : str :=
  if any_in concerning_words (lower text)
  then markup "<span style='color: #cc0000;'>" ++ warning_sign ++ lit " "
       ++ text ++ lit "</span>"
  else text.

Definition render_analysis : str -> list Part :=
  render_lines section_titles heading_color highlight.

Definition html_parts (w : World) (analysis : str) (num_weeks : nat)
  : list Part :=
  [ Raw (markup "<div style='font-family: Arial, sans-serif; font-size: 12pt; max-width: 800px;'>");
    Raw (markup "<h1 style='color: #cc0000; text-align: center;'>"
         ++ warning_sign ++ lit " Merlin Accuracy Weekly Report</h1>");
    Raw (markup "<p style='text-align: center; color: #666; font-size: 11pt;'>Week ending "
         ++ today w ++ lit "</p>");
    Raw (markup "<p style='text-align: center; color: #666; font-size: 10pt; font-style: italic;'>Analyzing "
         ++ str_of_nat num_weeks ++ lit " weeks of data</p>");
    Raw (markup "<hr style='border: 1px solid #ddd; margin: 20px 0;'>") ]
  ++ render_analysis analysis
  ++ [ Raw (markup "<hr style='border: 1px solid #ddd; margin: 30px 0;'>");
       Raw (markup "<p style='font-size: 10pt; color: #666;'>Data source: <a href='https://docs.google.com/spreadsheets/d/"
            ++ SHEET_ID
            ++ markup "' style='color: #0066cc;'>Merlin Accuracy Tracking Google Sheet</a></p>");
       Raw (lit "</div>") ].

Definition create_html_email (w : World) (analysis : str) (num_weeks : nat)
  : str :=
  join [10%N] (List.map html_of_part (html_parts w analysis num_weeks)).

(** The SMTP calls inside the [try] of [send_email].  The message is
    built before that [try]; here its text is taken to be encodable (see
    [mime_error] for the article monitors). *)
Definition send_email (w : World) (html_content : str) (num_weeks : nat)
  : list Event * bool :=
  match smtp w html_content with
  | Delivered => ([CallSend html_content num_weeks; Print MsgEmailSent], true)
  | DeliveryRaised e =>
      ([CallSend html_content num_weeks; Print (MsgErrorSendingEmail e)],
       false)
  end.

Section Program.

(** The prompt of [analyze_metrics]; it formats percentages in floating
    point, which is left to this parameter and is taken to succeed. *)
Variable prompt : list MetricsRecord -> str.

Definition analyze_metrics (w : World) (recs : list MetricsRecord)
  : Run str :=
  match client_error w with
  | Some e => ([], inr e)
  | None =>
      match generate w (prompt recs) with
      | Generated text => ([CallGenerate (prompt recs)], inl text)
      | GenerationRaised e =>
          ([CallGenerate (prompt recs); Print (MsgErrorCreatingSummary e)],
           inl (lit "Error analyzing metrics: " ++ e))
      end
  end.

Definition main (w : World) : list Event :=
  Print MsgRunStarted ::
  match sheet w with
  | inr e => [Print (MsgError e)]
  | inl values =>
      match fst (read_sheet_data values) with
      | None => [Print MsgNothingToReport]
      | Some [] => [Print MsgNothingToReport]
      | Some ((_ :: _) as recs) =>
          match analyze_metrics w recs with
          | (ev, inr e) => ev ++ [Print (MsgError e)]
          | (ev, inl analysis) =>
              let html_content :=
                create_html_email w analysis (List.length recs) in
              let '(ev', success) :=
                send_email w html_content (List.length recs) in
              ev ++ ev'
              ++ (if success then [Print (MsgSuccess (List.length recs))]
                  else [])
          end
      end
  end.

End Program.

End Merlin.

(* ================================================================== *)
(** * The insight mailer: [daily_leadership.py] *)
(* ================================================================== *)

Module DailyLeadership.

Section Program.

(** The prompt, a fixed text around the date of the day. *)
Variable prompt : str.

(** No [try] around the request here: an exception leaves the function. *)
Definition generate_leadership_insight (w : World) : Run str :=
  match client_error w with
  | Some e => ([], inr e)
  | None =>
      match generate w prompt with
      | Generated text => ([CallGenerate prompt], inl text)
      | GenerationRaised e => ([CallGenerate prompt], inr e)
      end
  end.

(** No [try] here either; the text of the message is taken to be
    encodable. *)
Definition send_email (w : World) (content : str) : Run unit :=
  match smtp w content with
  | Delivered => ([CallSend content 0; Print MsgEmailSent], inl tt)
  | DeliveryRaised e => ([CallSend content 0], inr e)
  end.

(** The events of the run, and the exception [main] re-raises. *)
Definition main (w : World) : list Event * option str :=
  match generate_leadership_insight w with
  | (ev, inr e) => (Print MsgRunStarted :: ev ++ [Print (MsgError e)], Some e)
  | (ev, inl content) =>
      match send_email w content with
      | (ev', inr e) =>
          (Print MsgRunStarted :: ev ++ ev' ++ [Print (MsgError e)], Some e)
      | (ev', inl _) =>
          (Print MsgRunStarted :: ev ++ ev' ++ [Print (MsgSuccess 0)], None)
      end
  end.

End Program.

End DailyLeadership.

(* ================================================================== *)
(** * Notions used in the statements *)
(* ================================================================== *)

(** Whether the loop body appends the entry's article. *)
Definition entry_kept (is_relevant_article : str -> str -> bool)
  (now : datetime) (e : Entry) : bool :=
  is_relevant_article (entry_title e) (entry_summary e)
  && match entry_pub_date e with
     | Some pub_date =>
         match datetime_of pub_date with
         | Some pub_datetime => negb (too_old now pub_datetime)
         | None => false
         end
     | None => true
     end.

(** Whether the loop body raises at the entry: the entry is relevant and
    the time that is read from it is no calendar time. *)
Definition entry_raises (is_relevant_article : str -> str -> bool)
  (e : Entry) : bool :=
  is_relevant_article (entry_title e) (entry_summary e)
  && match entry_pub_date e with
     | Some pub_date =>
         match datetime_of pub_date with Some _ => false | None => true end
     | None => false
     end.

(** The entries the loop gets to: all of them up to the first at which
    the body raises, that one included. *)
Fixpoint reached (is_relevant_article : str -> str -> bool)
  (es : list Entry) : list Entry :=
  match es with
  | [] => []
  | e :: rest =>
      if entry_raises is_relevant_article e then [e]
      else e :: reached is_relevant_article rest
  end.

(** The entries of a fetched feed that the loop looks at. *)
Definition scanned (is_relevant_article : str -> str -> bool)
  (scan_limit : nat) (fetched : option Feed) : list Entry :=
  match fetched with
  | None => []
  | Some feed =>
      reached is_relevant_article (firstn scan_limit (entries feed))
  end.

(** What one feed adds to the list of articles, and to the calls of the
    classifier. *)
Definition feed_articles (is_relevant_article : str -> str -> bool)
  (scan_limit : nat) (now : datetime) (fetched : option Feed)
  : list Article :=
  match fetched with
  | None => []
  | Some feed =>
      List.map (article_of_entry feed)
        (filter (entry_kept is_relevant_article now)
           (scanned is_relevant_article scan_limit fetched))
  end.

Definition feed_calls (is_relevant_article : str -> str -> bool)
  (scan_limit : nat) (fetched : option Feed) : list (str * str) :=
  List.map (fun e => (entry_title e, entry_summary e))
    (scanned is_relevant_article scan_limit fetched).

(** What one row of the sheet adds to the records, and to the printed
    lines. *)
Definition accepted (row : list str) : list Sheet.MetricsRecord :=
  if (7 <=? List.length row)%nat then
    match Sheet.make_record row with Some record => [record] | None => [] end
  else [].

Definition warned (row : list str) : list Sheet.LogLine :=
  if (7 <=? List.length row)%nat then
    match Sheet.make_record row with
    | Some _ => []
    | None => [Sheet.LogSkippingInvalidRow row]
    end
  else [].

(** The records of [l] whose key is not in [seen] and not the key of an
    earlier record of [l]. *)
Fixpoint first_occurrences (seen : list str) (l : list Article)
  : list Article :=
  match l with
  | [] => []
  | a :: rest =>
      if existsb (str_eqb (simple_title a)) seen
      then first_occurrences seen rest
      else a :: first_occurrences (seen ++ [simple_title a]) rest
  end.

(** Largest key first. *)
Definition descending (l : list Article) : Prop :=
  StronglySorted (fun a b => leb (sort_key b) (sort_key a) = true) l.

(** Reading the parts from the left with the flag [open]: [Some] of the
    flag at the end, or [None] when a list is opened inside an open
    list, or closed when none is open. *)
Fixpoint scan_lists (open : bool) (parts : list Part) : option bool :=
  match parts with
  | [] => Some open
  | UlOpen :: rest => if open then None else scan_lists true rest
  | UlClose :: rest => if open then scan_lists false rest else None
  | _ :: rest => scan_lists open rest
  end.

Definition is_open (p : Part) : bool :=
  match p with UlOpen => true | _ => false end.

Definition is_close (p : Part) : bool :=
  match p with UlClose => true | _ => false end.

Definition opens (parts : list Part) : nat :=
  List.length (filter is_open parts).

Definition closes (parts : list Part) : nat :=
  List.length (filter is_close parts).

(** Balanced and never nested. *)
Definition lists_well_formed (parts : list Part) : Prop :=
  scan_lists false parts = Some false /\ opens parts = closes parts.

(** The same count on the emitted strings: how many elements of
    [html_parts] are the given line. *)
Definition count_lines (line : str) (lines : list str) : nat :=
  List.length (filter (str_eqb line) lines).

Definition ul_open_html : str := html_of_part UlOpen.
Definition ul_close_html : str := html_of_part UlClose.

(** Balanced on the strings too. *)
Definition html_balanced (parts : list Part) : Prop :=
  count_lines ul_open_html (List.map html_of_part parts)
  = count_lines ul_close_html (List.map html_of_part parts).

(** A part whose string cannot be taken for a list tag: fixed markup is,
    when it does not start as one. *)
Definition tidy (p : Part) : Prop :=
  match p with
  | Raw html => firstn 3 html <> lit "<ul" /\ firstn 3 html <> lit "</u"
  | _ => True
  end.

(** A trace without a synthesis call and without a delivery attempt. *)
Definition quiet (trace : list Event) : Prop :=
  forall ev, In ev trace -> exists m, ev = Print m.

(** The normalisation as the specification words it: drop what is neither
    alphanumeric nor a space, and lower-case. *)
Definition isalnum (c : char) : bool := isword c && negb (c =? 95)%N.

Definition spec_normalize (t : str) : str :=
  lower (filter (fun c => isalnum c || isspace c) t).

Definition flag (b : bool) : nat := if b then 1 else 0.

(** The trace after a failed synthesis request: the request, the report of
    the error, the delivery attempt of [html], and how that ended. *)
Definition degraded_trace (w : World) (prompt e html : str) (count : nat)
  : list Event :=
  [ Print MsgRunStarted; CallGenerate prompt;
    Print (MsgErrorCreatingSummary e); CallSend html count ]
  ++ match smtp w html with
     | Delivered => [Print MsgEmailSent; Print (MsgSuccess count)]
     | DeliveryRaised e' => [Print (MsgErrorSendingEmail e')]
     end.

(** ** Sample inputs *)

Definition no_entry : Entry :=
  {| e_title := None; e_summary := None; e_description := None;
     e_link := None; e_published := None; e_updated := None;
     e_published_parsed := None; e_updated_parsed := None |}.

Definition entry_titled (t : str) : Entry :=
  {| e_title := Some t; e_summary := None; e_description := None;
     e_link := None; e_published := None; e_updated := None;
     e_published_parsed := None; e_updated_parsed := None |}.

Definition feed_of (es : list Entry) : option Feed :=
  Some {| entries := es; feed_title := Some (lit "CMS Newsroom") |}.

(** A world whose only reachable feed has nothing relevant. *)
Definition world_without_news : World :=
  {| now := 0%Z; today := lit "January 05, 2026";
     feeds := [None; feed_of [entry_titled (lit "Local bakery opens")]];
     client_error := None;
     generate := fun _ => Generated [];
     smtp := fun _ => Delivered |}.

(** A sheet whose only data row is short. *)
Definition short_sheet : list (list str) :=
  [ [lit "Date"; lit "Correct"; lit "Incorrect"];
    [lit "2026-01-05"; lit "5"; lit "3"] ].

Definition merlin_world (values : list (list str)) : Merlin.World :=
  {| Merlin.today := lit "January 05, 2026";
     Merlin.sheet := inl values;
     Merlin.client_error := None;
     Merlin.generate := fun _ => Generated [];
     Merlin.smtp := fun _ => Delivered |}.

(** A world with one relevant article, whose service fails. *)
Definition world_with_failing_service : World :=
  {| now := 0%Z; today := lit "January 05, 2026";
     feeds := [feed_of [entry_titled (lit "CMS updates Medicare Part D rules")]];
     client_error := None;
     generate := fun _ => GenerationRaised (lit "overloaded");
     smtp := fun _ => Delivered |}.

(** The moment of a calendar time that is known to be one. *)
Definition moment (year month day hour minute second : Z) : datetime :=
  get (datetime_of {| tm_year := year; tm_mon := month; tm_mday := day;
                      tm_hour := hour; tm_min := minute; tm_sec := second |})
    0%Z.

(** The time of [stale_entry]; an update time of more than a year
    before [late]; and a time with the year 0, which is no calendar time. *)
Definition stale_time : struct_time :=
  {| tm_year := 2025; tm_mon := 12; tm_mday := 15;
     tm_hour := 9; tm_min := 0; tm_sec := 0 |}.

Definition old_time : struct_time :=
  {| tm_year := 2024; tm_mon := 11; tm_mday := 1;
     tm_hour := 9; tm_min := 0; tm_sec := 0 |}.

Definition broken_time : struct_time :=
  {| tm_year := 0; tm_mon := 1; tm_mday := 1;
     tm_hour := 0; tm_min := 0; tm_sec := 0 |}.

(** 5 January 2026, 21:00, and an entry published twenty-one days and
    twelve hours before. *)
Definition late : datetime := moment 2026 1 5 21 0 0.

Definition stale_entry : Entry :=
  {| e_title := Some (lit "CMS updates Medicare Part D rules");
     e_summary := None; e_description := None; e_link := None;
     e_published := Some (lit "Mon, 15 Dec 2025 09:00:00 GMT");
     e_updated := None;
     e_published_parsed := Some (Some stale_time);
     e_updated_parsed := None |}.

(** An entry whose [published_parsed] is present without a value, and
    whose update time is old. *)
Definition masked_entry : Entry :=
  {| e_title := Some (lit "CMS updates Medicare Part D rules");
     e_summary := None; e_description := None; e_link := None;
     e_published := Some (lit "last autumn");
     e_updated := Some (lit "2024-11-01T09:00:00Z");
     e_published_parsed := Some None;
     e_updated_parsed := Some (Some old_time) |}.

(** An entry whose time is no calendar time. *)
Definition broken_entry : Entry :=
  {| e_title := Some (lit "CMS updates Medicare Part D rules");
     e_summary := None; e_description := None; e_link := None;
     e_published := Some (lit "0000-01-01");
     e_updated := None;
     e_published_parsed := Some (Some broken_time);
     e_updated_parsed := None |}.

(** An entry without a date. *)
Definition undated_entry : Entry :=
  entry_titled (lit "CMS updates Medicare Part D rules").

(** An entry without a title, relevant by its summary. *)
Definition untitled_entry : Entry :=
  {| e_title := None;
     e_summary := Some (lit "CMS updates Medicare Part D rules");
     e_description := None; e_link := None; e_published := None;
     e_updated := None; e_published_parsed := None;
     e_updated_parsed := None |}.

Definition sample_feed (es : list Entry) : Feed :=
  {| entries := es; feed_title := Some (lit "CMS Newsroom") |}.

(** Rows of the sheet: long enough and well formed, long enough with a
    counter that is no number, and short. *)
Definition good_row : list str :=
  [lit "2026-01-05"; lit "41"; lit "2"; lit "17"; []; lit "3"; lit "0";
   lit "stable week"].

Definition bad_row : list str :=
  [lit "2026-01-12"; lit "41"; lit "n/a"; lit "17"; lit "1"; lit "3"; lit "0"].

Definition short_row : list str := [lit "2026-01-19"; lit "5"; lit "3"].

Definition article_titled (t : str) : Article :=
  {| title := t; link := []; summary := []; published := lit "Date unknown";
     source := lit "CMS Newsroom" |}.

(** An entry of an Atom feed, published one day before [late], and the
    feed that lists it before an entry without a date. *)
Definition dated_entry : Entry :=
  {| e_title := Some (lit "Medicare Advantage star ratings released");
     e_summary := None; e_description := None; e_link := None;
     e_published := Some (lit "2026-01-04T09:00:00Z");
     e_updated := None;
     e_published_parsed :=
       Some (Some {| tm_year := 2026; tm_mon := 1; tm_mday := 4;
                     tm_hour := 9; tm_min := 0; tm_sec := 0 |});
     e_updated_parsed := None |}.

Definition mixed_feed : Feed := sample_feed [dated_entry; undated_entry].

(** A synthesis text with one heading, three bullets and one paragraph. *)
Definition sample_summary : str :=
  lit "## Key Takeaways" ++ [10%N]
  ++ lit "- first" ++ [10%N]
  ++ [8226%N] ++ lit " second" ++ [10%N] ++ [10%N]
  ++ lit "* third" ++ [10%N]
  ++ lit "Closing remark.".

(** Five distinct relevant titles, and two more that repeat the second up
    to case and punctuation. *)
Definition seven_entries : list Entry :=
  List.map entry_titled
    [ lit "CMS updates Medicare Part D rules";
      lit "Medicare Advantage star ratings released";
      lit "CMS proposes prior authorization reform";
      lit "Medicare Advantage: Star Ratings Released!";
      lit "Medicare payment rule finalized, formulary changes";
      lit "CMMI launches ACO REACH changes for Medicare";
      lit "medicare advantage star ratings released" ].

(** ** Notions of the further properties *)

(** The records of a list with a given publication text, in order. *)
Definition with_key (k : str) (l : list Article) : list Article :=
  filter (fun a => str_eqb k (sort_key a)) l.

(** A fetch that gives the loop nothing to look at: it raised, or the
    feed has no entry. *)
Definition barren (fetched : option Feed) : bool :=
  match fetched with
  | None => true
  | Some feed => match entries feed with [] => true | _ :: _ => false end
  end.

(** Where the reading of the parts stands: outside a list, behind the
    opening of a list that has no item yet, or inside a list with items. *)
Inductive ListState := Outside | Opened | Inside.

(** Reading the parts from the left: [None] when an item stands outside a
    list, a heading, a paragraph or fixed markup inside one, a list is
    opened inside a list, or a list is closed that has no item. *)
Fixpoint place (st : ListState) (parts : list Part) : option ListState :=
  match parts with
  | [] => Some st
  | UlOpen :: rest =>
      match st with Outside => place Opened rest | _ => None end
  | Li _ :: rest =>
      match st with Outside => None | _ => place Inside rest end
  | UlClose :: rest =>
      match st with Inside => place Outside rest | _ => None end
  | _ :: rest =>
      match st with Outside => place Outside rest | _ => None end
  end.

(** Headings, items and paragraphs, as opposed to list tags and fixed
    markup. *)
Definition is_content (p : Part) : bool :=
  match p with
  | H2 _ _ | Li _ | P _ => true
  | _ => false
  end.

(** What a stripped, non-empty line becomes. *)
Definition part_of_line (section_titles : list str)
  (heading_color highlight : str -> str) (line : str) : Part :=
  if is_section_header section_titles line then
    let section := strip (replace (lit "#") [] (replace (lit "##") [] line)) in
    H2 (heading_color section) section
  else if is_bullet line then Li (highlight (bullet_text line))
  else P line.

Definition nonblank (line : str) : bool :=
  match line with [] => false | _ :: _ => true end.

(** The lines of a text, stripped, without the empty ones. *)
Definition nonblank_lines (text : str) : list str :=
  filter nonblank (List.map strip (split_lines text)).

(** The state of the reading that the flag [in_list] stands for. *)
Definition state_of (in_list : bool) : ListState :=
  if in_list then Inside else Outside.

(** A text of white space only. *)
Definition blank (text : str) : bool := forallb isspace text.

(** Lines of the reader about a row it passed over, and rows that are
    too short to be looked at. *)
Definition is_skip_line (l : Sheet.LogLine) : bool :=
  match l with Sheet.LogSkippingInvalidRow _ => true | _ => false end.

Definition short (row : list str) : bool := (List.length row <? 7)%nat.

(** Requests to the text-generation service and delivery attempts in a
    trace. *)
Definition is_request (ev : Event) : bool :=
  match ev with CallGenerate _ => true | _ => false end.

Definition is_send (ev : Event) : bool :=
  match ev with CallSend _ _ => true | _ => false end.

Definition requests (trace : list Event) : nat :=
  List.length (filter is_request trace).

Definition sends (trace : list Event) : nat :=
  List.length (filter is_send trace).

(** Every delivery attempt of the trace has a request before it. *)
Fixpoint send_follows_request (requested : bool) (trace : list Event)
  : bool :=
  match trace with
  | [] => true
  | CallGenerate _ :: rest => send_follows_request true rest
  | CallSend _ _ :: rest => requested && send_follows_request requested rest
  | Print _ :: rest => send_follows_request requested rest
  end.

(** The lines that follow a delivery attempt. *)
Definition after_send (outcome : Delivery) (count : nat) : list Event :=
  match outcome with
  | Delivered => [Print MsgEmailSent; Print (MsgSuccess count)]
  | DeliveryRaised e => [Print (MsgErrorSendingEmail e)]
  end.

(** The lines between the request and the delivery attempt. *)
Definition after_request (outcome : Generation) : list Event :=
  match outcome with
  | Generated _ => []
  | GenerationRaised e => [Print (MsgErrorCreatingSummary e)]
  end.

(** A sheet with one good row, read by a world whose text-generation
    service fails, and by one whose client cannot be built. *)
Definition good_sheet : list (list str) :=
  [ [lit "Date"; lit "Correct"; lit "Incorrect"]; good_row ].


Definition merlin_world_without_client : Merlin.World :=
  {| Merlin.today := lit "January 05, 2026";
     Merlin.sheet := inl good_sheet;
     Merlin.client_error := Some (lit "no api key");
     Merlin.generate := fun _ => Generated [];
     Merlin.smtp := fun _ => Delivered |}.

(** A feed cut down to the entries the loop looks at. *)
Definition truncated (scan_limit : nat) (feed : Feed) : Feed :=
  {| entries := firstn scan_limit (entries feed);
     feed_title := feed_title feed |}.

(** Lower-casing of a piece of text that stands between [before] (the
    text in front of it, nearest character first) and [after]. *)
Fixpoint lower_within (before s after : str) : str :=
  match s with
  | [] => []
  | c :: rest =>
      lower_at before c (rest ++ after)
      ++ lower_within (c :: before) rest after
  end.

(** The two small sigmas, and texts that are equal but for which of the
    two stands at a place. *)
Definition is_sigma (c : char) : bool := (c =? 962)%N || (c =? 963)%N.

Definition sigma_free (s : str) : bool :=
  forallb (fun c => negb (is_sigma c)) s.

Definition sigma_like (s s' : str) : Prop :=
  Forall2 (fun c c' => c = c' \/ (is_sigma c = true /\ is_sigma c' = true))
    s s'.

(** The three lines of the reference list that show a record: its number
    with its title, its source with its publication text, and its link. *)
Definition reference_lines (i : nat) (a : Article) : list str :=
  [ markup "<p style='margin: 5px 0;'><strong>" ++ str_of_nat i
    ++ lit ". " ++ title a ++ lit "</strong></p>";
    markup "<p style='margin: 5px 0; font-size: 10pt; color: #666;'>"
    ++ source a ++ lit " | " ++ published a ++ lit "</p>";
    markup "<p style='margin: 5px 0; font-size: 10pt;'><a href='"
    ++ link a ++ markup "' style='color: #0066cc;'>"
    ++ link a ++ lit "</a></p>" ].

Definition shows_record (html : str) (i : nat) (a : Article) : bool :=
  forallb (fun line => contains line html) (reference_lines i a).

(** A world with one relevant article whose title holds a lone surrogate,
    and whose service fails. *)
Definition world_with_unencodable_title : World :=
  {| now := 0%Z; today := lit "January 05, 2026";
     feeds :=
       [feed_of [entry_titled (lit "CMS updates Medicare Part D rules "
                               ++ [55357%N])]];
     client_error := None;
     generate := fun _ => GenerationRaised (lit "overloaded");
     smtp := fun _ => Delivered |}.

(* ================================================================== *)
(** * Properties of the classifiers *)
(* ================================================================== *)

(** C6: the pharmacy classifier and the classifier without its exclusion
    tier return the same boolean on every title and summary; the
    exclusion test never changes the outcome. *)
Theorem C6_exclusion_tier_changes_nothing :
  forall title summary : str,
    PharmacyRules.is_relevant_article title summary
    = PharmacyRules.is_relevant_article_without_exclusion title summary.
Proof.
  intros t s.
  unfold PharmacyRules.is_relevant_article,
    PharmacyRules.is_relevant_article_without_exclusion.
  cbv zeta.
  destruct (any_lower_in PharmacyRules.MEDICARE_KEYWORDS _); [reflexivity|].
  destruct (any_in PharmacyRules.ai_terms _ && _); [reflexivity|].
  destruct (any_lower_in PharmacyRules.PHARMACY_KEYWORDS _ && _);
    [reflexivity|].
  destruct (any_in PharmacyRules.exclude_terms _); reflexivity.
Qed.

(** The exclusion tier is reached, and still rejects as the default does. *)
Example exclusion_tier_reached :
  any_in PharmacyRules.exclude_terms (lower (lit "New radiology suite opens"))
  = true
  /\ PharmacyRules.is_relevant_article (lit "New radiology suite opens") []
     = false
  /\ PharmacyRules.is_relevant_article (lit "Local bakery opens") [] = false.
Proof. vm_compute. repeat split. Qed.

(* ================================================================== *)
(** * Properties of the renderer *)
(* ================================================================== *)

Section RendererFacts.

Variable section_titles : list str.
Variable heading_color : str -> str.
Variable highlight : str -> str.

Lemma scan_lists_app :
  forall a b open,
    scan_lists open (a ++ b)
    = match scan_lists open a with
      | Some open' => scan_lists open' b
      | None => None
      end.
Proof.
  induction a as [|p a IH]; intros b open; simpl; [reflexivity|].
  destruct p; destruct open; simpl; auto.
Qed.

Lemma scan_close_list :
  forall in_list, scan_lists in_list (close_list in_list) = Some false.
Proof. destruct in_list; reflexivity. Qed.

(** One line keeps the flag [in_list] equal to the state of the lists
    emitted so far. *)
Lemma render_line_scan :
  forall in_list parts raw,
    scan_lists false parts = Some in_list ->
    scan_lists false
      (snd (render_line section_titles heading_color highlight
              (in_list, parts) raw))
    = Some (fst (render_line section_titles heading_color highlight
                   (in_list, parts) raw)).
Proof.
  intros in_list parts raw H.
  unfold render_line.
  destruct (strip raw) as [|c line]; [exact H|].
  destruct (is_section_header section_titles (c :: line)).
  - simpl. rewrite scan_lists_app, H. destruct in_list; reflexivity.
  - destruct (is_bullet (c :: line)); simpl;
      rewrite scan_lists_app, H; destruct in_list; reflexivity.
Qed.

Lemma render_loop_scan :
  forall lines st,
    scan_lists false (snd st) = Some (fst st) ->
    let st' :=
      fold_left (render_line section_titles heading_color highlight) lines st
    in scan_lists false (snd st') = Some (fst st').
Proof.
  induction lines as [|raw lines IH]; intros [in_list parts] H;
    cbn [fold_left].
  - exact H.
  - apply IH. apply render_line_scan. exact H.
Qed.

Lemma render_lines_scan :
  forall text,
    scan_lists false (render_lines section_titles heading_color highlight text)
    = Some false.
Proof.
  intro text. unfold render_lines.
  pose proof (render_loop_scan (split_lines text) (false, []) eq_refl) as H.
  simpl in H.
  destruct (fold_left _ (split_lines text) (false, [])) as [in_list parts].
  simpl in H. rewrite scan_lists_app, H. apply scan_close_list.
Qed.


End RendererFacts.

Lemma scan_lists_counts :
  forall parts open open',
    scan_lists open parts = Some open' ->
    opens parts + flag open = closes parts + flag open'.
Proof.
  unfold opens, closes.
  induction parts as [|p parts IH]; intros open open' H; simpl in *.
  - inversion H. reflexivity.
  - destruct p; simpl; try (apply IH; exact H).
    + destruct open; [discriminate|]. apply IH in H. simpl in *. lia.
    + destruct open; [|discriminate]. apply IH in H. simpl in *. lia.
Qed.

Lemma scan_lists_well_formed :
  forall parts, scan_lists false parts = Some false -> lists_well_formed parts.
Proof.
  intros parts H. split; [exact H|].
  apply scan_lists_counts in H. simpl in H. lia.
Qed.

Lemma scan_lists_raw :
  forall parts open,
    Forall (fun p => exists html, p = Raw html) parts ->
    scan_lists open parts = Some open.
Proof.
  induction 1 as [|p parts [html ->] _ IH]; simpl; auto.
Qed.

Lemma article_parts_raw :
  forall ia, Forall (fun p => exists html, p = Raw html) (article_parts ia).
Proof.
  intros [i a]. unfold article_parts. repeat constructor; eexists; reflexivity.
Qed.

Lemma reference_list_raw :
  forall arts, Forall (fun p => exists html, p = Raw html) (reference_list arts).
Proof.
  intro arts. unfold reference_list. apply Forall_app. split.
  - repeat constructor; eexists; reflexivity.
  - induction (enumerate1 arts) as [|ia l IH]; simpl; [constructor|].
    apply Forall_app. split; [apply article_parts_raw | exact IH].
Qed.

Lemma scan_lists_skip_raw :
  forall a b open,
    Forall (fun p => exists html, p = Raw html) a ->
    scan_lists open (a ++ b) = scan_lists open b.
Proof.
  intros a b open H. rewrite scan_lists_app, (scan_lists_raw a open H).
  reflexivity.
Qed.

Lemma scan_lists_past :
  forall a b open open',
    scan_lists open a = Some open' ->
    scan_lists open (a ++ b) = scan_lists open' b.
Proof. intros a b open open' H. rewrite scan_lists_app, H. reflexivity. Qed.

Lemma header_raw :
  forall page_title focus w arts,
    Forall (fun p => exists html, p = Raw html) (header page_title focus w arts).
Proof. intros. unfold header. repeat constructor; eexists; reflexivity. Qed.

Lemma article_html_parts_scan :
  forall page_title focus w text arts,
    scan_lists false (html_parts page_title focus w text arts) = Some false.
Proof.
  intros. unfold html_parts, render_summary.
  rewrite (scan_lists_skip_raw _ _ false (header_raw page_title focus w arts)).
  rewrite (scan_lists_past _ _ false false (render_lines_scan _ _ _ text)).
  rewrite (scan_lists_skip_raw _ _ false (reference_list_raw arts)).
  reflexivity.
Qed.

Lemma merlin_html_parts_scan :
  forall w text n,
    scan_lists false (Merlin.html_parts w text n) = Some false.
Proof.
  intros. unfold Merlin.html_parts, Merlin.render_analysis.
  rewrite scan_lists_skip_raw
    by (repeat constructor; eexists; reflexivity).
  rewrite (scan_lists_past _ _ false false (render_lines_scan _ _ _ text)).
  reflexivity.
Qed.

Lemma str_eqb_prefix :
  forall a b : str, firstn 3 a <> firstn 3 b -> str_eqb a b = false.
Proof.
  intros a b H. unfold str_eqb.
  destruct (list_eq_dec N.eq_dec a b) as [E|]; [|reflexivity].
  subst. contradiction.
Qed.

Lemma tidy_open :
  forall p, tidy p -> str_eqb ul_open_html (html_of_part p) = is_open p.
Proof.
  intros p Hp. destruct p; try reflexivity;
    apply str_eqb_prefix; try (vm_compute; discriminate).
  destruct Hp as [Ho _]. intro E. apply Ho. exact (eq_sym E).
Qed.

Lemma tidy_close :
  forall p, tidy p -> str_eqb ul_close_html (html_of_part p) = is_close p.
Proof.
  intros p Hp. destruct p; try reflexivity;
    apply str_eqb_prefix; try (vm_compute; discriminate).
  destruct Hp as [_ Hc]. intro E. apply Hc. exact (eq_sym E).
Qed.

Lemma tidy_counts :
  forall parts,
    Forall tidy parts ->
    count_lines ul_open_html (List.map html_of_part parts) = opens parts
    /\ count_lines ul_close_html (List.map html_of_part parts) = closes parts.
Proof.
  unfold count_lines, opens, closes.
  induction 1 as [|p parts Hp _ [IHo IHc]]; [split; reflexivity|].
  cbn [List.map filter]. rewrite (tidy_open p Hp), (tidy_close p Hp).
  destruct (is_open p), (is_close p); simpl; split; congruence.
Qed.

Lemma well_formed_html_balanced :
  forall parts,
    Forall tidy parts -> lists_well_formed parts -> html_balanced parts.
Proof.
  intros parts Ht [_ Hc]. unfold html_balanced.
  destruct (tidy_counts parts Ht) as [-> ->]. exact Hc.
Qed.

Lemma render_lines_tidy :
  forall section_titles heading_color highlight text,
    Forall tidy (render_lines section_titles heading_color highlight text).
Proof.
  intros titles color hl text. unfold render_lines.
  assert (H : forall lines st,
             Forall tidy (snd st) ->
             Forall tidy (snd (fold_left (render_line titles color hl) lines st))).
  { induction lines as [|raw lines IH]; intros [in_list parts] Hst;
      cbn [fold_left]; [exact Hst|].
    apply IH. unfold render_line. simpl in Hst.
    destruct (strip raw) as [|c line]; [exact Hst|].
    destruct (is_section_header titles (c :: line));
      [|destruct (is_bullet (c :: line))];
      cbn [snd]; repeat (apply Forall_app; split); try exact Hst;
      destruct in_list; repeat constructor. }
  specialize (H (split_lines text) (false, []) (Forall_nil _)).
  destruct (fold_left _ (split_lines text) (false, [])) as [in_list parts].
  apply Forall_app. split; [exact H|].
  destruct in_list; repeat constructor.
Qed.

Lemma reference_list_tidy :
  forall arts, Forall tidy (reference_list arts).
Proof.
  intro arts. unfold reference_list. apply Forall_app. split.
  - repeat constructor; vm_compute; discriminate.
  - induction (enumerate1 arts) as [|[i a] l IH]; simpl; [constructor|].
    repeat (constructor; [split; vm_compute; discriminate|]). exact IH.
Qed.

Lemma article_html_parts_tidy :
  forall page_title focus w text arts,
    Forall tidy (html_parts page_title focus w text arts).
Proof.
  intros. unfold html_parts.
  apply Forall_app; split;
    [|apply Forall_app; split; [|apply Forall_app; split]].
  - unfold header. repeat constructor; vm_compute; discriminate.
  - apply render_lines_tidy.
  - apply reference_list_tidy.
  - repeat constructor; vm_compute; discriminate.
Qed.

Lemma merlin_html_parts_tidy :
  forall w text n, Forall tidy (Merlin.html_parts w text n).
Proof.
  intros. unfold Merlin.html_parts.
  apply Forall_app; split; [|apply Forall_app; split].
  - repeat constructor; vm_compute; discriminate.
  - apply render_lines_tidy.
  - repeat constructor; vm_compute; discriminate.
Qed.

(** C10: whatever the synthesis text, and whether or not it ends inside
    a run of bullets, the parts each of the three renderers emits open and
    close lists in balance (as many closes as opens), never open a list
    inside an open one and never close one that is not open; the same
    holds of the whole document, whose strings hold as many closing list
    tags as opening ones. *)
Theorem C10_lists_balanced_never_nested :
  forall text : str,
    lists_well_formed (Medicare.render_summary text)
    /\ lists_well_formed (Pharmacy.render_summary text)
    /\ lists_well_formed (Merlin.render_analysis text)
    /\ (forall w arts,
          lists_well_formed (Medicare.html_parts w text arts)
          /\ html_balanced (Medicare.html_parts w text arts))
    /\ (forall w arts,
          lists_well_formed (Pharmacy.html_parts w text arts)
          /\ html_balanced (Pharmacy.html_parts w text arts))
    /\ (forall w n,
          lists_well_formed (Merlin.html_parts w text n)
          /\ html_balanced (Merlin.html_parts w text n)).
Proof.
  intro text.
  split; [apply scan_lists_well_formed; apply render_lines_scan|].
  split; [apply scan_lists_well_formed; apply render_lines_scan|].
  split; [apply scan_lists_well_formed; apply render_lines_scan|].
  assert (A : forall page_title focus w arts,
             lists_well_formed (html_parts page_title focus w text arts)).
  { intros. apply scan_lists_well_formed, article_html_parts_scan. }
  assert (M : forall w n, lists_well_formed (Merlin.html_parts w text n)).
  { intros. apply scan_lists_well_formed, merlin_html_parts_scan. }
  split; [|split]; intros.
  - split; [apply A|].
    apply well_formed_html_balanced; [apply article_html_parts_tidy|apply A].
  - split; [apply A|].
    apply well_formed_html_balanced; [apply article_html_parts_tidy|apply A].
  - split; [apply M|].
    apply well_formed_html_balanced; [apply merlin_html_parts_tidy|apply M].
Qed.

(* ================================================================== *)
(** * Properties of the main programs *)
(* ================================================================== *)

Lemma quiet_prints :
  forall ms, quiet (List.map Print ms).
Proof.
  intros ms ev H. apply in_map_iff in H. destruct H as [m [<- _]].
  exists m. reflexivity.
Qed.

Section ArticleMonitorFacts.

Variable is_relevant_article : str -> str -> bool.
Variable scan_limit : nat.
Variable prompt_intro prompt_task prompt_format page_title focus : str.

Lemma main_nothing_to_report :
  forall w,
    collect_articles is_relevant_article scan_limit (now w) (feeds w) = [] ->
    main is_relevant_article scan_limit prompt_intro prompt_task prompt_format
      page_title focus w
    = [Print MsgRunStarted; Print MsgNothingToReport].
Proof.
  intros w H. unfold main. rewrite H. reflexivity.
Qed.

Lemma main_synthesis_raised :
  forall w e,
    collect_articles is_relevant_article scan_limit (now w) (feeds w) <> [] ->
    client_error w = None ->
    generate w
      (prompt prompt_intro prompt_task prompt_format
         (collect_articles is_relevant_article scan_limit (now w) (feeds w)))
    = GenerationRaised e ->
    let arts := collect_articles is_relevant_article scan_limit (now w) (feeds w) in
    let html := create_html_email page_title focus w
                  (lit "Error creating executive summary: " ++ e) arts in
    (mime_error html = None ->
     main is_relevant_article scan_limit prompt_intro prompt_task prompt_format
       page_title focus w
     = degraded_trace w (prompt prompt_intro prompt_task prompt_format arts) e
         html (List.length arts))
    /\ (forall m,
          mime_error html = Some m ->
          main is_relevant_article scan_limit prompt_intro prompt_task
            prompt_format page_title focus w
          = [ Print MsgRunStarted;
              CallGenerate (prompt prompt_intro prompt_task prompt_format arts);
              Print (MsgErrorCreatingSummary e); Print (MsgError m) ]).
Proof.
  intros w e Hne Hc Hg arts html.
  unfold main. fold arts. fold arts in Hne, Hg.
  destruct arts as [|a arts'] eqn:Ea; [contradiction|].
  unfold create_executive_summary. rewrite Hc, Hg.
  fold html. unfold send_email, degraded_trace.
  split.
  - intro Hm. rewrite Hm. destruct (smtp w html); reflexivity.
  - intros m Hm. rewrite Hm. reflexivity.
Qed.

End ArticleMonitorFacts.

(** C8: in a run of an article monitor that collects no record, and in a
    run of the metrics monitor whose sheet yields no record (nothing but a
    header, or every row rejected), the program reports that there is
    nothing to report and stops: the trace holds no synthesis request and
    no delivery attempt. *)
Theorem C8_no_records_no_synthesis_no_delivery :
  (forall w : World,
      Medicare.collect_articles (now w) (feeds w) = [] ->
      Medicare.main w = [Print MsgRunStarted; Print MsgNothingToReport]
      /\ quiet (Medicare.main w))
  /\ (forall w : World,
      Pharmacy.collect_articles (now w) (feeds w) = [] ->
      Pharmacy.main w = [Print MsgRunStarted; Print MsgNothingToReport]
      /\ quiet (Pharmacy.main w))
  /\ (forall prompt (w : Merlin.World) values,
      Merlin.sheet w = inl values ->
      fst (Sheet.read_sheet_data values) = None
      \/ fst (Sheet.read_sheet_data values) = Some [] ->
      Merlin.main prompt w = [Print MsgRunStarted; Print MsgNothingToReport]
      /\ quiet (Merlin.main prompt w)).
Proof.
  split; [|split].
  - intros w H.
    assert (E : Medicare.main w
                = [Print MsgRunStarted; Print MsgNothingToReport])
      by (apply main_nothing_to_report; exact H).
    split; [exact E|]. rewrite E.
    apply (quiet_prints [MsgRunStarted; MsgNothingToReport]).
  - intros w H.
    assert (E : Pharmacy.main w
                = [Print MsgRunStarted; Print MsgNothingToReport])
      by (apply main_nothing_to_report; exact H).
    split; [exact E|]. rewrite E.
    apply (quiet_prints [MsgRunStarted; MsgNothingToReport]).
  - intros prompt w values Hs Hr.
    assert (E : Merlin.main prompt w
                = [Print MsgRunStarted; Print MsgNothingToReport]).
    { unfold Merlin.main. rewrite Hs.
      destruct Hr as [Hr | Hr]; rewrite Hr; reflexivity. }
    split; [exact E|]. rewrite E.
    apply (quiet_prints [MsgRunStarted; MsgNothingToReport]).
Qed.

Lemma C8_no_records_witness :
  (Medicare.main world_without_news
   = [Print MsgRunStarted; Print MsgNothingToReport]
   /\ quiet (Medicare.main world_without_news))
  /\ (Pharmacy.main world_without_news
      = [Print MsgRunStarted; Print MsgNothingToReport]
      /\ quiet (Pharmacy.main world_without_news))
  /\ (Merlin.main (fun _ => []) (merlin_world short_sheet)
      = [Print MsgRunStarted; Print MsgNothingToReport]
      /\ quiet (Merlin.main (fun _ => []) (merlin_world short_sheet))).
Proof.
  split; [|split].
  - apply (proj1 C8_no_records_no_synthesis_no_delivery world_without_news).
    vm_compute. reflexivity.
  - apply (proj1 (proj2 C8_no_records_no_synthesis_no_delivery)
             world_without_news).
    vm_compute. reflexivity.
  - apply (proj2 (proj2 C8_no_records_no_synthesis_no_delivery)
             (fun _ => []) (merlin_world short_sheet) short_sheet).
    + reflexivity.
    + right. vm_compute. reflexivity.
Defined.

(** The insight mailer has no such handler: a failed request ends its run
    with the exception and without a delivery attempt. *)
Lemma daily_leadership_aborts :
  forall prompt w e,
    client_error w = None ->
    generate w prompt = GenerationRaised e ->
    DailyLeadership.main prompt w
    = ([Print MsgRunStarted; CallGenerate prompt; Print (MsgError e)], Some e).
Proof.
  intros prompt w e Hc Hg.
  unfold DailyLeadership.main, DailyLeadership.generate_leadership_insight.
  rewrite Hc, Hg. reflexivity.
Qed.

(* ================================================================== *)
(** * Properties of the collector *)
(* ================================================================== *)

Section CollectFacts.

Variable is_relevant_article : str -> str -> bool.
Variable scan_limit : nat.
Variable now : datetime.

(** What the body of the loop does to the two lists, and how it ends. *)
Lemma collect_entry_spec :
  forall feed st e,
    collect_entry is_relevant_article now feed st e
    = (if entry_raises is_relevant_article e then Raise else Next)
        {| articles :=
             articles st
             ++ (if entry_kept is_relevant_article now e
                 then [article_of_entry feed e] else []);
           calls := calls st ++ [(entry_title e, entry_summary e)] |}.
Proof.
  intros feed st e. unfold collect_entry, entry_raises, entry_kept.
  destruct (is_relevant_article _ _); cbn [andb].
  - destruct (entry_pub_date e) as [p|]; [|reflexivity].
    destruct (datetime_of p) as [t|].
    + destruct (too_old now t); cbn [negb];
        [rewrite app_nil_r|]; reflexivity.
    + rewrite app_nil_r. reflexivity.
  - rewrite app_nil_r. reflexivity.
Qed.

Lemma raising_entry_not_kept :
  forall e,
    entry_raises is_relevant_article e = true ->
    entry_kept is_relevant_article now e = false.
Proof.
  intro e. unfold entry_raises, entry_kept.
  destruct (is_relevant_article _ _); [|discriminate]. cbn [andb].
  destruct (entry_pub_date e) as [p|]; [|discriminate].
  destruct (datetime_of p); [discriminate | reflexivity].
Qed.

Lemma collect_entries_spec :
  forall feed es st,
    articles (collect_entries is_relevant_article now feed st es)
    = articles st
      ++ List.map (article_of_entry feed)
           (filter (entry_kept is_relevant_article now)
              (reached is_relevant_article es))
    /\ calls (collect_entries is_relevant_article now feed st es)
       = calls st
         ++ List.map (fun e => (entry_title e, entry_summary e))
              (reached is_relevant_article es).
Proof.
  intros feed es. induction es as [|e es IH]; intro st;
    cbn [collect_entries reached].
  - cbn. rewrite !app_nil_r. split; reflexivity.
  - rewrite collect_entry_spec.
    destruct (entry_raises is_relevant_article e) eqn:R.
    + cbn [articles calls filter List.map].
      rewrite (raising_entry_not_kept e R). cbn [List.map].
      rewrite !app_nil_r. split; reflexivity.
    + destruct (IH {| articles :=
                        articles st
                        ++ (if entry_kept is_relevant_article now e
                            then [article_of_entry feed e] else []);
                      calls :=
                        calls st ++ [(entry_title e, entry_summary e)] |})
        as [Ha Hc].
      rewrite Ha, Hc. cbn [articles calls filter List.map].
      destruct (entry_kept is_relevant_article now e); cbn [List.map app];
        rewrite <- !app_assoc; split; reflexivity.
Qed.

Lemma collect_feed_articles :
  forall st fetched,
    articles (collect_feed is_relevant_article scan_limit now st fetched)
    = articles st ++ feed_articles is_relevant_article scan_limit now fetched.
Proof.
  intros st [feed|]; unfold collect_feed, feed_articles, scanned.
  - destruct (entries feed) as [|e es] eqn:E.
    + rewrite firstn_nil. simpl. rewrite app_nil_r. reflexivity.
    + apply collect_entries_spec.
  - rewrite app_nil_r. reflexivity.
Qed.

Lemma collect_feed_calls :
  forall st fetched,
    calls (collect_feed is_relevant_article scan_limit now st fetched)
    = calls st ++ feed_calls is_relevant_article scan_limit fetched.
Proof.
  intros st [feed|]; unfold collect_feed, feed_calls, scanned.
  - destruct (entries feed) as [|e es] eqn:E.
    + rewrite firstn_nil. simpl. rewrite app_nil_r. reflexivity.
    + apply collect_entries_spec.
  - simpl. rewrite app_nil_r. reflexivity.
Qed.

Lemma fold_collect_feed :
  forall fs st,
    articles (fold_left (collect_feed is_relevant_article scan_limit now) fs st)
    = articles st
      ++ flat_map (feed_articles is_relevant_article scan_limit now) fs
    /\ calls (fold_left (collect_feed is_relevant_article scan_limit now) fs st)
       = calls st ++ flat_map (feed_calls is_relevant_article scan_limit) fs.
Proof.
  induction fs as [|f fs IH]; intro st; cbn [fold_left flat_map].
  - rewrite !app_nil_r. split; reflexivity.
  - destruct (IH (collect_feed is_relevant_article scan_limit now st f))
      as [Ha Hc].
    rewrite Ha, Hc, collect_feed_articles, collect_feed_calls.
    rewrite <- !app_assoc. split; reflexivity.
Qed.

Lemma gather_articles :
  forall fs,
    articles (gather is_relevant_article scan_limit now fs)
    = flat_map (feed_articles is_relevant_article scan_limit now) fs.
Proof. intro fs. unfold gather. apply (fold_collect_feed fs). Qed.

Lemma gather_calls :
  forall fs,
    calls (gather is_relevant_article scan_limit now fs)
    = flat_map (feed_calls is_relevant_article scan_limit) fs.
Proof. intro fs. unfold gather. apply (fold_collect_feed fs). Qed.

Lemma reached_all :
  forall es,
    (forall e, In e es -> entry_raises is_relevant_article e = false) ->
    reached is_relevant_article es = es.
Proof.
  induction es as [|e es IH]; intro H; [reflexivity|].
  cbn [reached]. rewrite (H e (or_introl eq_refl)). f_equal.
  apply IH. intros e' He'. apply H. right. exact He'.
Qed.

Lemma reached_incl :
  forall es e, In e (reached is_relevant_article es) -> In e es.
Proof.
  induction es as [|x es IH]; intros e H; [exact H|].
  cbn [reached] in H. destruct (entry_raises is_relevant_article x).
  - destruct H as [<- | []]. left. reflexivity.
  - destruct H as [<- | H]; [left; reflexivity | right; apply IH; exact H].
Qed.

Lemma reached_length :
  forall es, List.length (reached is_relevant_article es) <= List.length es.
Proof.
  induction es as [|x es IH]; [apply Nat.le_refl|].
  cbn [reached]. destruct (entry_raises is_relevant_article x);
    cbn [List.length]; lia.
Qed.

End CollectFacts.

Lemma too_old_iff :
  forall now t : datetime,
    too_old now t = true <-> (22 * microseconds_per_day <= now - t)%Z.
Proof.
  intros now t. unfold too_old, days, microseconds_per_day.
  rewrite Z.ltb_lt. split; intro H.
  - assert (22 <= (now - t) / 86400000000)%Z by lia.
    pose proof (Z.mul_div_le (now - t) 86400000000 ltac:(lia)). lia.
  - apply Z.lt_le_trans with (m := 22%Z); [lia|].
    apply Z.div_le_lower_bound; lia.
Qed.

(** C3 (as the code has it): for a relevant entry that the loop gets to
    and a fixed current time, the time that is checked is the value of
    [published_parsed] when the entry has that key, and the value of
    [updated_parsed] otherwise.  When that value is a calendar time, the
    check counts whole elapsed days: the entry is left out exactly when
    more than 21 whole days have passed, that is from 22 days on, and is
    appended when less than 22 days have passed.  When there is no such
    value ([None], also for a [published_parsed] that is present without a
    value), the entry is never left out by the check: it is classified and
    appended.  A value that is no calendar time raises and ends the scan of
    the feed. *)
Theorem C3_recency_counts_whole_days :
  forall (is_relevant_article : str -> str -> bool) (scan_limit : nat)
         (now : datetime) (feed : Feed) (st : Collector) (e : Entry),
    is_relevant_article (entry_title e) (entry_summary e) = true ->
    let called := calls st ++ [(entry_title e, entry_summary e)] in
    ((forall v, e_published_parsed e = Some v -> entry_pub_date e = v)
     /\ (e_published_parsed e = None ->
         entry_pub_date e = get (e_updated_parsed e) None))
    /\ (forall p t,
          entry_pub_date e = Some p -> datetime_of p = Some t ->
          (22 * microseconds_per_day <= now - t)%Z ->
          collect_entry is_relevant_article now feed st e
          = Next {| articles := articles st; calls := called |})
    /\ (forall p t,
          entry_pub_date e = Some p -> datetime_of p = Some t ->
          (now - t < 22 * microseconds_per_day)%Z ->
          collect_entry is_relevant_article now feed st e
          = Next {| articles := articles st ++ [article_of_entry feed e];
                    calls := called |})
    /\ (entry_pub_date e = None ->
          collect_entry is_relevant_article now feed st e
          = Next {| articles := articles st ++ [article_of_entry feed e];
                    calls := called |}
          /\ forall fs,
               In (Some feed) fs ->
               In e (scanned is_relevant_article scan_limit (Some feed)) ->
               In (article_of_entry feed e)
                 (articles (gather is_relevant_article scan_limit now fs)))
    /\ (forall p,
          entry_pub_date e = Some p -> datetime_of p = None ->
          collect_entry is_relevant_article now feed st e
          = Raise {| articles := articles st; calls := called |}).
Proof.
  intros f K now feed st e Hrel called.
  split; [|split; [|split; [|split]]].
  - split.
    + intros v Hv. unfold entry_pub_date. rewrite Hv. reflexivity.
    + intro Hv. unfold entry_pub_date. rewrite Hv. reflexivity.
  - intros p t Hp Ht Hold. unfold collect_entry. rewrite Hrel, Hp, Ht.
    apply too_old_iff in Hold. rewrite Hold. reflexivity.
  - intros p t Hp Ht Hnew. unfold collect_entry. rewrite Hrel, Hp, Ht.
    destruct (too_old now t) eqn:E; [|reflexivity].
    apply too_old_iff in E. lia.
  - intro Hnone. split.
    + unfold collect_entry. rewrite Hrel, Hnone. reflexivity.
    + intros fs Hf He. rewrite gather_articles.
      apply in_flat_map. exists (Some feed). split; [exact Hf|].
      unfold feed_articles. apply in_map. apply filter_In.
      split; [exact He|]. unfold entry_kept. rewrite Hrel, Hnone.
      reflexivity.
  - intros p Hp Ht. unfold collect_entry. rewrite Hrel, Hp, Ht. reflexivity.
Qed.

Lemma C3_recency_witness :
  collect_entry MedicareRules.is_relevant_article (moment 2026 1 6 9 0 0)
    (sample_feed [stale_entry]) {| articles := []; calls := [] |} stale_entry
  = Next {| articles := [];
            calls := [(entry_title stale_entry, entry_summary stale_entry)] |}
  /\ collect_entry MedicareRules.is_relevant_article late
       (sample_feed [stale_entry]) {| articles := []; calls := [] |}
       stale_entry
     = Next {| articles :=
                 [article_of_entry (sample_feed [stale_entry]) stale_entry];
               calls :=
                 [(entry_title stale_entry, entry_summary stale_entry)] |}
  /\ collect_entry MedicareRules.is_relevant_article late
       (sample_feed [masked_entry]) {| articles := []; calls := [] |}
       masked_entry
     = Next {| articles :=
                 [article_of_entry (sample_feed [masked_entry]) masked_entry];
               calls :=
                 [(entry_title masked_entry, entry_summary masked_entry)] |}
  /\ collect_entry MedicareRules.is_relevant_article late
       (sample_feed [broken_entry]) {| articles := []; calls := [] |}
       broken_entry
     = Raise {| articles := [];
                calls :=
                  [(entry_title broken_entry, entry_summary broken_entry)] |}.
Proof.
  split; [|split; [|split]].
  - apply (proj1 (proj2 (C3_recency_counts_whole_days
                    MedicareRules.is_relevant_article 25
                    (moment 2026 1 6 9 0 0) (sample_feed [stale_entry])
                    {| articles := []; calls := [] |} stale_entry
                    ltac:(vm_compute; reflexivity)))
             stale_time (moment 2025 12 15 9 0 0));
      [reflexivity | reflexivity | vm_compute; discriminate].
  - apply (proj1 (proj2 (proj2 (C3_recency_counts_whole_days
                    MedicareRules.is_relevant_article 25
                    late (sample_feed [stale_entry])
                    {| articles := []; calls := [] |} stale_entry
                    ltac:(vm_compute; reflexivity))))
             stale_time (moment 2025 12 15 9 0 0));
      [reflexivity | reflexivity | vm_compute; reflexivity].
  - apply (proj1 (proj2 (proj2 (proj2 (C3_recency_counts_whole_days
                    MedicareRules.is_relevant_article 25
                    late (sample_feed [masked_entry])
                    {| articles := []; calls := [] |} masked_entry
                    ltac:(vm_compute; reflexivity)))))).
    reflexivity.
  - apply (proj2 (proj2 (proj2 (proj2 (C3_recency_counts_whole_days
                    MedicareRules.is_relevant_article 25
                    late (sample_feed [broken_entry])
                    {| articles := []; calls := [] |} broken_entry
                    ltac:(vm_compute; reflexivity)))))
             broken_time);
      reflexivity.
Defined.

(** C3 as stated fails twice.  The first entry below was published
    twenty-one days and twelve hours before the current time, which is
    older than the 21-day window, and it is collected.  The second has an
    update time more than 400 days old, and it is collected too, because
    its [published_parsed] is present without a value and hides it. *)
Lemma C3_older_than_window_is_collected :
  (entry_pub_date stale_entry = Some stale_time
   /\ datetime_of stale_time = Some (moment 2025 12 15 9 0 0)
   /\ (21 * microseconds_per_day < late - moment 2025 12 15 9 0 0)%Z
   /\ MedicareRules.is_relevant_article (entry_title stale_entry)
        (entry_summary stale_entry) = true
   /\ Medicare.collect_articles late [Some (sample_feed [stale_entry])]
      = [article_of_entry (sample_feed [stale_entry]) stale_entry])
  /\ (e_published_parsed masked_entry = Some None
      /\ e_updated_parsed masked_entry = Some (Some old_time)
      /\ datetime_of old_time = Some (moment 2024 11 1 9 0 0)
      /\ (400 * microseconds_per_day < late - moment 2024 11 1 9 0 0)%Z
      /\ MedicareRules.is_relevant_article (entry_title masked_entry)
           (entry_summary masked_entry) = true
      /\ Medicare.collect_articles late [Some (sample_feed [masked_entry])]
         = [article_of_entry (sample_feed [masked_entry]) masked_entry]).
Proof. vm_compute. repeat split. Qed.

(** C4 (as the code has it): the reader drops no entry for its title.
    Every entry that the loop gets to (the first [scan_limit] entries of a
    fetched feed, or those of them up to an entry at which the body of the
    loop raises) is passed to the classifier, a missing title as the empty
    string; so the classifier is called with empty titles too. *)
Theorem C4_every_scanned_entry_is_classified :
  forall (is_relevant_article : str -> str -> bool) (scan_limit : nat)
         (now : datetime) (fs : list (option Feed)),
    calls (gather is_relevant_article scan_limit now fs)
    = flat_map
        (fun fetched =>
           List.map (fun e => (entry_title e, entry_summary e))
             (scanned is_relevant_article scan_limit fetched))
        fs
    /\ forall feed,
         In (Some feed) fs ->
         ((forall e, In e (firstn scan_limit (entries feed)) ->
                     entry_raises is_relevant_article e = false) ->
          scanned is_relevant_article scan_limit (Some feed)
          = firstn scan_limit (entries feed))
         /\ forall e,
              In e (scanned is_relevant_article scan_limit (Some feed)) ->
              In (entry_title e, entry_summary e)
                (calls (gather is_relevant_article scan_limit now fs))
              /\ (e_title e = None -> entry_title e = []).
Proof.
  intros f K now fs. split; [apply gather_calls|].
  intros feed Hf. split.
  - intro H. unfold scanned. apply reached_all. exact H.
  - intros e He. split.
    + rewrite gather_calls. apply in_flat_map. exists (Some feed).
      split; [exact Hf|]. unfold feed_calls.
      apply (in_map (fun e => (entry_title e, entry_summary e))). exact He.
    + intro H. unfold entry_title. rewrite H. reflexivity.
Qed.

Lemma C4_classified_witness :
  In (entry_title untitled_entry, entry_summary untitled_entry)
    (calls (gather MedicareRules.is_relevant_article 25 0%Z
              [Some (sample_feed [untitled_entry])]))
  /\ entry_title untitled_entry = [].
Proof.
  destruct (proj2 (proj2 (C4_every_scanned_entry_is_classified
                            MedicareRules.is_relevant_article 25 0%Z
                            [Some (sample_feed [untitled_entry])])
                     (sample_feed [untitled_entry]) (or_introl eq_refl))
              untitled_entry (or_introl eq_refl))
    as (Hcall & Hempty).
  split; [exact Hcall | apply Hempty; reflexivity].
Defined.

(** C4 as stated fails: the classifier is called with an empty title, and
    the record it accepts is collected with that empty title. *)
Lemma C4_empty_title_reaches_classifier :
  In ([], lit "CMS updates Medicare Part D rules")
    (calls (gather MedicareRules.is_relevant_article 25 0%Z
              [Some (sample_feed [untitled_entry])]))
  /\ List.map title
       (Medicare.collect_articles 0%Z [Some (sample_feed [untitled_entry])])
     = [[]].
Proof. vm_compute. split; [left|]; reflexivity. Qed.

(* ================================================================== *)
(** * Properties of the sheet reader *)
(* ================================================================== *)

Lemma read_row_records :
  forall st row,
    Sheet.records (Sheet.read_row st row) = Sheet.records st ++ accepted row.
Proof.
  intros st row. unfold Sheet.read_row, accepted.
  destruct (7 <=? List.length row)%nat.
  - destruct (Sheet.make_record row); simpl;
      [reflexivity | rewrite app_nil_r; reflexivity].
  - rewrite app_nil_r. reflexivity.
Qed.

Lemma read_row_printed :
  forall st row,
    Sheet.printed (Sheet.read_row st row) = Sheet.printed st ++ warned row.
Proof.
  intros st row. unfold Sheet.read_row, warned.
  destruct (7 <=? List.length row)%nat.
  - destruct (Sheet.make_record row); simpl;
      [rewrite app_nil_r; reflexivity | reflexivity].
  - rewrite app_nil_r. reflexivity.
Qed.

Lemma read_rows :
  forall rows st,
    Sheet.records (fold_left Sheet.read_row rows st)
    = Sheet.records st ++ flat_map accepted rows
    /\ Sheet.printed (fold_left Sheet.read_row rows st)
       = Sheet.printed st ++ flat_map warned rows.
Proof.
  induction rows as [|row rows IH]; intro st; cbn [fold_left flat_map].
  - rewrite !app_nil_r. split; reflexivity.
  - destruct (IH (Sheet.read_row st row)) as [Hr Hp].
    rewrite Hr, Hp, read_row_records, read_row_printed.
    rewrite <- !app_assoc. split; reflexivity.
Qed.

(** C7 (as the code has it): past the header, a row becomes a record
    only if it has at least 7 columns (and then only if each of its six
    counters is empty or an integer literal).  A row with fewer than 7
    columns is passed over without any printed line; a row with 7 columns
    or more and a counter that is no integer is passed over with the line
    [Skipping invalid row].  Neither stops the reading: the records are
    those of all the accepted rows, in order. *)
Theorem C7_rows_and_warnings :
  forall (headers row : list str) (rows : list (list str)),
    Sheet.read_sheet_data (headers :: row :: rows)
    = (Some (flat_map accepted (row :: rows)),
       [Sheet.LogReading; Sheet.LogAuthenticating]
       ++ flat_map warned (row :: rows)
       ++ [Sheet.LogFound (List.length (flat_map accepted (row :: rows)))])
    /\ (forall r record,
          In record (accepted r) ->
          7 <= List.length r /\ Sheet.make_record r = Some record)
    /\ (forall r,
          List.length r < 7 -> accepted r = [] /\ warned r = [])
    /\ (forall r,
          7 <= List.length r -> Sheet.make_record r = None ->
          accepted r = [] /\ warned r = [Sheet.LogSkippingInvalidRow r])
    /\ (forall r record,
          In r (row :: rows) -> 7 <= List.length r ->
          Sheet.make_record r = Some record ->
          exists records,
            fst (Sheet.read_sheet_data (headers :: row :: rows)) = Some records
            /\ In record records).
Proof.
  intros headers row rows.
  assert (E : Sheet.read_sheet_data (headers :: row :: rows)
              = (Some (flat_map accepted (row :: rows)),
                 [Sheet.LogReading; Sheet.LogAuthenticating]
                 ++ flat_map warned (row :: rows)
                 ++ [Sheet.LogFound
                       (List.length (flat_map accepted (row :: rows)))])).
  { unfold Sheet.read_sheet_data.
    destruct (read_rows (row :: rows)
                {| Sheet.records := [];
                   Sheet.printed := [Sheet.LogReading; Sheet.LogAuthenticating] |})
      as [Hr Hp].
    rewrite Hr, Hp. cbn [Sheet.records Sheet.printed].
    rewrite <- app_assoc. reflexivity. }
  split; [exact E|]. split; [|split; [|split]].
  - intros r record H. unfold accepted in H.
    destruct (7 <=? List.length r)%nat eqn:L; [|contradiction].
    apply Nat.leb_le in L.
    destruct (Sheet.make_record r) as [rec|]; [|contradiction].
    destruct H as [<- | []]. split; [exact L | reflexivity].
  - intros r H. unfold accepted, warned.
    apply Nat.leb_gt in H. rewrite H. split; reflexivity.
  - intros r H Hn. unfold accepted, warned.
    apply Nat.leb_le in H. rewrite H, Hn. split; reflexivity.
  - intros r record Hin L Hm. exists (flat_map accepted (row :: rows)).
    rewrite E. split; [reflexivity|].
    apply in_flat_map. exists r. split; [exact Hin|].
    unfold accepted. apply Nat.leb_le in L. rewrite L, Hm. left. reflexivity.
Qed.

Lemma C7_rows_witness :
  (accepted short_row = [] /\ warned short_row = [])
  /\ (accepted bad_row = []
      /\ warned bad_row = [Sheet.LogSkippingInvalidRow bad_row])
  /\ exists records,
       fst (Sheet.read_sheet_data [short_row; short_row; bad_row; good_row])
       = Some records
       /\ List.map Sheet.ascvd_correct records = [41%Z].
Proof.
  pose proof (C7_rows_and_warnings short_row short_row [bad_row; good_row])
    as (E & _ & Hshort & Hbad & _).
  split; [|split].
  - apply Hshort. vm_compute. lia.
  - apply Hbad; [vm_compute; lia | vm_compute; reflexivity].
  - eexists. rewrite E. split; [reflexivity|]. vm_compute. reflexivity.
Defined.

(** C7 as stated fails: the short row below is passed over, and the
    reader prints nothing about it. *)
Lemma C7_short_row_skipped_without_warning :
  List.length short_row < 7
  /\ Sheet.read_sheet_data [[lit "Date"; lit "Correct"]; short_row]
     = (Some [],
        [Sheet.LogReading; Sheet.LogAuthenticating; Sheet.LogFound 0])
  /\ ~ In (Sheet.LogSkippingInvalidRow short_row)
         (snd (Sheet.read_sheet_data [[lit "Date"; lit "Correct"]; short_row])).
Proof.
  split; [vm_compute; lia|]. split; [vm_compute; reflexivity|].
  vm_compute. intros [H | [H | [H | []]]]; discriminate.
Qed.

(* ================================================================== *)
(** * Properties of the deduplication *)
(* ================================================================== *)

Lemma str_eqb_eq : forall a b : str, str_eqb a b = true <-> a = b.
Proof.
  intros a b. unfold str_eqb.
  destruct (list_eq_dec N.eq_dec a b); split; congruence.
Qed.

Lemma seen_In :
  forall k seen, existsb (str_eqb k) seen = true <-> In k seen.
Proof.
  intros k seen. rewrite existsb_exists. split.
  - intros [x [Hx E]]. apply str_eqb_eq in E. subst. exact Hx.
  - intro H. exists k. split; [exact H | apply str_eqb_eq; reflexivity].
Qed.

Lemma dict_mem_keys :
  forall k d, dict_mem k d = existsb (str_eqb k) (List.map fst d).
Proof.
  intros k d. induction d as [|[k' a] d IH]; simpl; [reflexivity|].
  rewrite IH. reflexivity.
Qed.

(** The loop, started with any dict, adds the first occurrences of the
    keys it does not hold yet. *)
Lemma dedup_loop :
  forall l d,
    List.map snd (fold_left dedup_step l d)
    = List.map snd d ++ first_occurrences (List.map fst d) l.
Proof.
  induction l as [|a l IH]; intro d; cbn [fold_left first_occurrences].
  - rewrite app_nil_r. reflexivity.
  - rewrite IH. unfold dedup_step. rewrite dict_mem_keys.
    destruct (existsb (str_eqb (simple_title a)) (List.map fst d));
      [reflexivity|].
    rewrite !map_app. simpl. rewrite <- app_assoc. reflexivity.
Qed.

Lemma remove_duplicates_first_occurrences :
  forall l, remove_duplicates l = first_occurrences [] l.
Proof. intro l. unfold remove_duplicates. rewrite dedup_loop. reflexivity. Qed.

Lemma first_occurrences_In :
  forall l seen b,
    In b (first_occurrences seen l)
    <-> exists l1 l2,
          l = l1 ++ b :: l2
          /\ ~ In (simple_title b) seen
          /\ forall c, In c l1 -> simple_title c <> simple_title b.
Proof.
  induction l as [|a l IH]; intros seen b; cbn [first_occurrences].
  - split; [intros []|]. intros (l1 & l2 & E & _).
    destruct l1; discriminate.
  - destruct (existsb (str_eqb (simple_title a)) seen) eqn:S.
    + apply seen_In in S. rewrite IH. split.
      * intros (l1 & l2 & -> & Hs & Hf). exists (a :: l1), l2.
        split; [reflexivity|]. split; [exact Hs|].
        intros c [<- | Hc]; [congruence | apply Hf; exact Hc].
      * intros (l1 & l2 & E & Hs & Hf). destruct l1 as [|a' l1].
        -- injection E as -> ->. contradiction.
        -- injection E as -> ->. exists l1, l2.
           split; [reflexivity|]. split; [exact Hs|].
           intros c Hc. apply Hf. right. exact Hc.
    + assert (Hna : ~ In (simple_title a) seen).
      { intro H. apply seen_In in H. congruence. }
      cbn [In]. rewrite IH. split.
      * intros [<- | (l1 & l2 & -> & Hs & Hf)].
        -- exists [], l. split; [reflexivity|]. split; [exact Hna|].
           intros c [].
        -- exists (a :: l1), l2. split; [reflexivity|].
           split; [intro H; apply Hs, in_or_app; left; exact H|].
           intros c [<- | Hc]; [|apply Hf; exact Hc].
           intro E. apply Hs, in_or_app. right. left. exact E.
      * intros (l1 & l2 & E & Hs & Hf). destruct l1 as [|a' l1].
        -- injection E as -> ->. left. reflexivity.
        -- injection E as -> ->. right. exists l1, l2.
           split; [reflexivity|]. split.
           ++ intro H. apply in_app_or in H. destruct H as [H | [H | []]].
              ** contradiction.
              ** apply (Hf a'); [left; reflexivity | exact H].
           ++ intros c Hc. apply Hf. right. exact Hc.
Qed.

Lemma first_occurrences_NoDup :
  forall l seen, NoDup (List.map simple_title (first_occurrences seen l)).
Proof.
  induction l as [|a l IH]; intro seen; cbn [first_occurrences].
  - constructor.
  - destruct (existsb (str_eqb (simple_title a)) seen); [apply IH|].
    simpl. constructor; [|apply IH].
    intro H. apply in_map_iff in H. destruct H as (b & E & Hb).
    apply first_occurrences_In in Hb. destruct Hb as (_ & _ & _ & Hs & _).
    apply Hs, in_or_app. right. left. symmetry. exact E.
Qed.

Lemma first_occurrences_fixed :
  forall l seen,
    NoDup (List.map simple_title l) ->
    (forall a, In a l -> ~ In (simple_title a) seen) ->
    first_occurrences seen l = l.
Proof.
  induction l as [|a l IH]; intros seen Hnd Hs; cbn [first_occurrences].
  - reflexivity.
  - destruct (existsb (str_eqb (simple_title a)) seen) eqn:S.
    + apply seen_In in S. exfalso. apply (Hs a); [left; reflexivity | exact S].
    + simpl in Hnd. apply NoDup_cons_iff in Hnd. destruct Hnd as [Hout Hnd].
      f_equal. apply IH; [exact Hnd|].
      intros b Hb H. apply in_app_or in H. destruct H as [H | [H | []]].
      * apply (Hs b); [right; exact Hb | exact H].
      * apply Hout. rewrite H. apply in_map. exact Hb.
Qed.

(** The first record of a list with a given key. *)
Lemma first_with_key :
  forall l a,
    In a l ->
    exists l1 b l2,
      l = l1 ++ b :: l2
      /\ simple_title b = simple_title a
      /\ forall c, In c l1 -> simple_title c <> simple_title b.
Proof.
  induction l as [|x l IH]; intros a Ha; [destruct Ha|].
  destruct (list_eq_dec N.eq_dec (simple_title x) (simple_title a)) as [E | N].
  - exists [], x, l. split; [reflexivity|]. split; [exact E|]. intros c [].
  - destruct Ha as [-> | Ha]; [congruence|].
    destruct (IH a Ha) as (l1 & b & l2 & -> & Eb & Hf).
    exists (x :: l1), b, l2. split; [reflexivity|]. split; [exact Eb|].
    intros c [<- | Hc]; [congruence | apply Hf; exact Hc].
Qed.

(** C2 (as the code has it): the key of a record is its title in lower
    case without the characters that are neither word characters (the
    letters and digits of every script, and the underscore) nor white
    space.  Among the records with one
    key exactly one is kept, the first in the order of the input: no two
    kept records share a key, every input record has a kept record with its
    key, and a record is kept exactly when it stands in the input with no
    record of its key before it.  Deduplicating twice gives what
    deduplicating once gives. *)
Theorem C2_dedup_first_wins_idempotent :
  forall arts : list Article,
    NoDup (List.map simple_title (remove_duplicates arts))
    /\ (forall a, In a arts ->
          exists b, In b (remove_duplicates arts)
                    /\ simple_title b = simple_title a)
    /\ (forall b, In b (remove_duplicates arts)
          <-> exists l1 l2,
                arts = l1 ++ b :: l2
                /\ forall c, In c l1 -> simple_title c <> simple_title b)
    /\ remove_duplicates (remove_duplicates arts) = remove_duplicates arts.
Proof.
  intro arts. rewrite !remove_duplicates_first_occurrences.
  assert (Hin : forall b, In b (first_occurrences [] arts)
          <-> exists l1 l2,
                arts = l1 ++ b :: l2
                /\ forall c, In c l1 -> simple_title c <> simple_title b).
  { intro b. rewrite first_occurrences_In. split.
    - intros (l1 & l2 & E & _ & Hf). exists l1, l2. split; assumption.
    - intros (l1 & l2 & E & Hf). exists l1, l2.
      split; [exact E|]. split; [intros []|exact Hf]. }
  split; [apply first_occurrences_NoDup|]. split; [|split; [exact Hin|]].
  - intros a Ha. destruct (first_with_key arts a Ha) as (l1 & b & l2 & E & Eb & Hf).
    exists b. split; [|exact Eb]. apply Hin. exists l1, l2.
    split; assumption.
  - apply first_occurrences_fixed; [apply first_occurrences_NoDup|].
    intros a _ [].
Qed.

Lemma C2_dedup_witness :
  exists b,
    In b (remove_duplicates
            [article_titled (lit "CMS: new rule!");
             article_titled (lit "Part D update");
             article_titled (lit "cms new rule")])
    /\ simple_title b = simple_title (article_titled (lit "cms new rule")).
Proof.
  apply (proj1 (proj2 (C2_dedup_first_wins_idempotent
                         [article_titled (lit "CMS: new rule!");
                          article_titled (lit "Part D update");
                          article_titled (lit "cms new rule")]))).
  right. right. left. reflexivity.
Defined.

Example dedup_keeps_the_first :
  remove_duplicates
    [article_titled (lit "CMS: new rule!");
     article_titled (lit "Part D update");
     article_titled (lit "cms new rule")]
  = [article_titled (lit "CMS: new rule!");
     article_titled (lit "Part D update")].
Proof. vm_compute. reflexivity. Qed.

(** C2 as stated fails: dropping what is neither alphanumeric nor a space
    gives the two titles below one key, and both records are kept, because
    the underscore is a word character and stays in the key. *)
Lemma C2_underscore_keeps_both :
  spec_normalize (lit "Medicare Part_D") = spec_normalize (lit "Medicare PartD")
  /\ remove_duplicates
       [article_titled (lit "Medicare Part_D");
        article_titled (lit "Medicare PartD")]
     = [article_titled (lit "Medicare Part_D");
        article_titled (lit "Medicare PartD")].
Proof. vm_compute. split; reflexivity. Qed.

(* ================================================================== *)
(** * Properties of the ranking *)
(* ================================================================== *)

Lemma compare_antisym :
  forall a b : str, PyStr.compare b a = CompOpp (PyStr.compare a b).
Proof.
  induction a as [|x a IH]; destruct b as [|y b]; simpl; try reflexivity.
  rewrite (N.compare_antisym x y).
  destruct (x ?= y)%N; simpl; auto.
Qed.

Lemma compare_eq :
  forall a b : str, PyStr.compare a b = Eq -> a = b.
Proof.
  induction a as [|x a IH]; destruct b as [|y b]; simpl; try discriminate.
  - reflexivity.
  - destruct (x ?= y)%N eqn:E; try discriminate.
    intro H. apply N.compare_eq in E. subst. f_equal. apply IH. exact H.
Qed.

Lemma leb_trans :
  forall a b c : str, leb a b = true -> leb b c = true -> leb a c = true.
Proof.
  unfold leb.
  induction a as [|x a IH]; destruct b as [|y b]; destruct c as [|z c];
    simpl; try reflexivity; try discriminate.
  destruct (N.compare_spec x y) as [-> | Hxy | Hxy]; try discriminate.
  - destruct (N.compare_spec y z) as [-> | Hyz | Hyz]; try discriminate.
    + apply IH.
    + reflexivity.
  - intros _.
    destruct (N.compare_spec y z) as [-> | Hyz | Hyz]; try discriminate;
      intros _.
    + destruct (N.compare_spec x z); try reflexivity; lia.
    + destruct (N.compare_spec x z); try reflexivity; lia.
Qed.

Lemma leb_antisym :
  forall a b : str, leb a b = true -> leb b a = true -> a = b.
Proof.
  unfold leb. intros a b Hab Hba. rewrite (compare_antisym a b) in Hba.
  destruct (PyStr.compare a b) eqn:E; try discriminate.
  apply compare_eq. exact E.
Qed.

Lemma ltb_leb :
  forall a b : str, ltb a b = true -> leb a b = true.
Proof. unfold ltb, leb. intros a b. destruct (PyStr.compare a b); easy. Qed.

Lemma not_ltb_leb :
  forall a b : str, ltb a b = false -> leb b a = true.
Proof.
  unfold ltb, leb. intros a b. rewrite (compare_antisym a b).
  destruct (PyStr.compare a b); easy.
Qed.

Lemma insert_desc_perm :
  forall a l, Permutation (insert_desc a l) (a :: l).
Proof.
  intros a l. induction l as [|b l IH]; simpl; [apply Permutation_refl|].
  destruct (ltb (sort_key a) (sort_key b)); [|apply Permutation_refl].
  apply perm_trans with (b :: a :: l);
    [apply perm_skip; exact IH | apply perm_swap].
Qed.

Lemma sort_desc_perm :
  forall l, Permutation (sort_desc l) l.
Proof.
  induction l as [|a l IH]; simpl; [constructor|].
  apply perm_trans with (a :: sort_desc l);
    [apply insert_desc_perm | apply perm_skip; exact IH].
Qed.

Lemma insert_desc_descending :
  forall a l, descending l -> descending (insert_desc a l).
Proof.
  unfold descending. intros a l H.
  induction H as [|b l Hs IH Hb]; simpl.
  - constructor; constructor.
  - destruct (ltb (sort_key a) (sort_key b)) eqn:E.
    + constructor; [exact IH|].
      apply Forall_forall. intros c Hc.
      apply (Permutation_in _ (insert_desc_perm a l)) in Hc.
      destruct Hc as [<- | Hc]; [apply ltb_leb; exact E|].
      rewrite Forall_forall in Hb. apply Hb. exact Hc.
    + apply not_ltb_leb in E.
      constructor; [constructor; assumption|].
      constructor; [exact E|].
      apply Forall_forall. intros c Hc. rewrite Forall_forall in Hb.
      apply leb_trans with (b := sort_key b); [apply Hb; exact Hc | exact E].
Qed.

Lemma sort_desc_descending :
  forall l, descending (sort_desc l).
Proof.
  induction l as [|a l IH]; simpl;
    [constructor | apply insert_desc_descending; exact IH].
Qed.

Lemma descending_tail :
  forall l1 l2, descending (l1 ++ l2) -> descending l2.
Proof.
  unfold descending. induction l1 as [|a l1 IH]; intros l2 H; [exact H|].
  apply IH. simpl in H. apply StronglySorted_inv in H. apply H.
Qed.

Lemma descending_before :
  forall l2 b l3 c,
    descending (l2 ++ b :: l3) -> In c l2 ->
    leb (sort_key b) (sort_key c) = true.
Proof.
  unfold descending. induction l2 as [|x l2 IH]; intros b l3 c H Hc;
    [destruct Hc|].
  simpl in H. apply StronglySorted_inv in H. destruct H as [Hs Hx].
  destruct Hc as [<- | Hc].
  - rewrite Forall_forall in Hx. apply Hx. apply in_or_app. right. left.
    reflexivity.
  - apply (IH b l3 c Hs Hc).
Qed.

(** In a descending list the records with one key stand together. *)
Lemma descending_block :
  forall l1 a l2 b l3,
    descending (l1 ++ a :: l2 ++ b :: l3) ->
    sort_key a = sort_key b ->
    forall c, In c l2 -> sort_key c = sort_key a.
Proof.
  intros l1 a l2 b l3 H E c Hc.
  apply descending_tail in H.
  pose proof H as H'. unfold descending in H'.
  apply StronglySorted_inv in H'. destruct H' as [Hs Ha].
  apply leb_antisym.
  - rewrite Forall_forall in Ha. apply Ha. apply in_or_app. left. exact Hc.
  - rewrite E. apply (descending_before l2 b l3 c Hs Hc).
Qed.

(** C1 (what the code does): the ranker orders the deduplicated records
    by their publication text, largest first in the order of strings.  The
    sort asks for the empty string when a record has no publication text,
    but that default is never used: every record is built with one, and a
    record whose entry has neither a published nor an updated value is
    built with the text [Date unknown].  Such records are ordered by that
    text and stand together in one block, at the place of [Date unknown]
    among the other publication texts. *)
Theorem C1_ranked_by_publication_text :
  forall (is_relevant_article : str -> str -> bool) (scan_limit : nat)
         (now : datetime) (fs : list (option Feed)),
    descending (collect_articles is_relevant_article scan_limit now fs)
    /\ Permutation
         (collect_articles is_relevant_article scan_limit now fs)
         (remove_duplicates
            (articles (gather is_relevant_article scan_limit now fs)))
    /\ (forall a, sort_key a = published a)
    /\ (forall feed e,
          e_published e = None -> e_updated e = None ->
          sort_key (article_of_entry feed e) = lit "Date unknown")
    /\ (forall l1 a l2 b l3,
          collect_articles is_relevant_article scan_limit now fs
          = l1 ++ a :: l2 ++ b :: l3 ->
          sort_key a = lit "Date unknown" ->
          sort_key b = lit "Date unknown" ->
          forall c, In c l2 -> sort_key c = lit "Date unknown").
Proof.
  intros f K now fs. unfold collect_articles.
  split; [apply sort_desc_descending|].
  split; [apply sort_desc_perm|].
  split; [reflexivity|]. split.
  - intros feed e Hp Hu. unfold sort_key, article_of_entry, entry_published.
    simpl. rewrite Hp, Hu. reflexivity.
  - intros l1 a l2 b l3 E Ha Hb c Hc. rewrite <- Ha.
    apply (descending_block l1 a l2 b l3); [|congruence|exact Hc].
    rewrite <- E. apply sort_desc_descending.
Qed.

Lemma C1_ranked_witness :
  sort_key (article_of_entry mixed_feed undated_entry) = lit "Date unknown".
Proof.
  apply (C1_ranked_by_publication_text MedicareRules.is_relevant_article 25
           late [Some mixed_feed]); reflexivity.
Defined.

(** C1 fails in the code: the record without a date is ordered by
    [Date unknown], which is not the empty string that the sort names as
    its default, and which is greater than the other record's date, so it
    comes first; with the empty string as its key it would come last. *)
Lemma C1_unknown_date_sorts_first :
  e_published undated_entry = None /\ e_updated undated_entry = None
  /\ Medicare.collect_articles late [Some mixed_feed]
     = [article_of_entry mixed_feed undated_entry;
        article_of_entry mixed_feed dated_entry]
  /\ sort_key (article_of_entry mixed_feed undated_entry) <> []
  /\ ltb (sort_key (article_of_entry mixed_feed dated_entry))
       (sort_key (article_of_entry mixed_feed undated_entry)) = true
  /\ ltb [] (sort_key (article_of_entry mixed_feed dated_entry)) = true.
Proof.
  vm_compute. repeat split; try reflexivity. discriminate.
Qed.

(* ================================================================== *)
(** * Properties of the bold replacement *)
(* ================================================================== *)

Lemma replace_from_absent :
  forall old new t,
    contains old t = false -> replace_from old new 0 t = t.
Proof.
  intros old new t. induction t as [|c t IH]; intro H; [reflexivity|].
  cbn [contains] in H. apply orb_false_iff in H. destruct H as [Hs Hc].
  cbn [replace_from]. rewrite Hs. f_equal. apply IH. exact Hc.
Qed.

Lemma stars_step_pair :
  forall new rest,
    replace_from (lit "**") new 0 (42%N :: 42%N :: rest)
    = new ++ replace_from (lit "**") new 0 rest.
Proof. reflexivity. Qed.

Lemma stars_step_other :
  forall new c rest,
    startswith (lit "**") (c :: rest) = false ->
    replace_from (lit "**") new 0 (c :: rest)
    = c :: replace_from (lit "**") new 0 rest.
Proof. intros new c rest H. cbn [replace_from]. rewrite H. reflexivity. Qed.

Lemma startswith_stars :
  forall c rest,
    startswith (lit "**") (c :: rest)
    = (42 =? c)%N && match rest with
                     | d :: _ => (42 =? d)%N
                     | [] => false
                     end.
Proof.
  intros c rest. change (lit "**") with [42%N; 42%N]. cbn [startswith].
  destruct rest as [|d rest]; [reflexivity|].
  cbn [startswith]. rewrite andb_true_r. reflexivity.
Qed.

Lemma contains_after_tag :
  forall t, contains (lit "**") (lit "<strong>" ++ t) = contains (lit "**") t.
Proof. intro t. reflexivity. Qed.

(** After the first replacement no pair of stars is left, and the result
    starts with a star only where the text starts with a single one. *)
Lemma stars_gone :
  forall n text,
    List.length text <= n ->
    contains (lit "**")
      (replace_from (lit "**") (lit "<strong>") 0 text) = false
    /\ (startswith (lit "*")
          (replace_from (lit "**") (lit "<strong>") 0 text) = true ->
        startswith (lit "*") text = true
        /\ startswith (lit "**") text = false).
Proof.
  induction n as [|n IH]; intros text Hn.
  - destruct text; [|simpl in Hn; lia]. split; [reflexivity|discriminate].
  - destruct text as [|c rest]; [split; [reflexivity|discriminate]|].
    simpl in Hn.
    destruct (startswith (lit "**") (c :: rest)) eqn:Hss.
    + rewrite startswith_stars in Hss. apply andb_true_iff in Hss.
      destruct Hss as [Sc Sr]. apply N.eqb_eq in Sc. subst c.
      destruct rest as [|d rest]; [discriminate|].
      apply N.eqb_eq in Sr. subst d.
      rewrite stars_step_pair, contains_after_tag.
      split; [apply IH; simpl in Hn; lia | discriminate].
    + rewrite (stars_step_other _ c rest Hss).
      destruct (IH rest ltac:(lia)) as [Hc Hs].
      split.
      * cbn [contains]. rewrite Hc, orb_false_r.
        rewrite startswith_stars.
        destruct (42 =? c)%N eqn:Ec; [|reflexivity]. cbn [andb].
        destruct (replace_from (lit "**") (lit "<strong>") 0 rest)
          as [|d out] eqn:Er; [reflexivity|].
        destruct (42 =? d)%N eqn:Ed; [|reflexivity].
        exfalso. apply N.eqb_eq in Ed. subst d.
        destruct (Hs eq_refl) as [Hs1 _].
        rewrite startswith_stars, Ec in Hss. cbn [andb] in Hss.
        destruct rest as [|d' rest']; [discriminate Hs1|].
        change (startswith (lit "*") (d' :: rest'))
          with ((42 =? d')%N && true) in Hs1.
        rewrite andb_true_r in Hs1. congruence.
      * intro H. split; [exact H | reflexivity].
Qed.

Lemma first_replacement_leaves_no_stars :
  forall text,
    contains (lit "**") (replace (lit "**") (lit "<strong>") text) = false.
Proof.
  intro text. apply (stars_gone (List.length text) text). apply Nat.le_refl.
Qed.

(** C5: the second replacement finds nothing to replace, because the
    first one has turned every marker, closing ones included, into the
    opening tag.  So the text of a bullet never gets a closing tag from its
    markers: in the bullet below both markers become the opening tag, where
    the closing marker should have become the closing tag. *)
Theorem C5_closing_marker_becomes_opening_tag :
  (forall text : str,
      bold text = replace (lit "**") (lit "<strong>") text)
  /\ Medicare.render_summary (lit "- **Key** point")
     = [UlOpen; Li (lit "<strong>Key<strong> point"); UlClose]
  /\ Pharmacy.render_summary (lit "- **Key** point")
     = [UlOpen; Li (lit "<strong>Key<strong> point"); UlClose]
  /\ Merlin.render_analysis (lit "- **Key** point")
     = [UlOpen; Li (lit "<strong>Key<strong> point"); UlClose]
  /\ bullet_text (lit "- **Key** point") <> lit "<strong>Key</strong> point".
Proof.
  split.
  - intro text. unfold bold.
    change (replace (lit "**") (lit "</strong>")
              (replace (lit "**") (lit "<strong>") text))
      with (replace_from (lit "**") (lit "</strong>") 0
              (replace (lit "**") (lit "<strong>") text)).
    apply replace_from_absent. apply first_replacement_leaves_no_stars.
  - vm_compute. repeat split; try reflexivity. discriminate.
Qed.

(* ================================================================== *)
(** * Worked examples *)
(* ================================================================== *)

(** The key of a title keeps the letters of every script: [Caf\u00e9 &
    Th\u00e9] has the key [caf\u00e9 th\u00e9];  and a capital sigma at the
    end of a word becomes the final small sigma. *)
Example accented_title_key :
  simple_title (article_titled [67; 97; 102; 233; 32; 38; 32; 84; 104; 233]%N)
  = [99; 97; 102; 233; 32; 32; 116; 104; 233]%N
  /\ lower [927; 916; 927; 931; 32; 931; 913]%N
     = [959; 948; 959; 962; 32; 963; 945]%N.
Proof. vm_compute. split; reflexivity. Qed.

(** A counter may be written in the decimal digits of any script, with
    white space around it and single underscores between its digits. *)
Example counters_read :
  Sheet.int [1636; 1634]%N = Some 42%Z
  /\ Sheet.int (lit " -1_000 ") = Some (-1000)%Z
  /\ Sheet.int (lit "1__0") = None
  /\ Sheet.int (lit "4.5") = None.
Proof. vm_compute. repeat split; reflexivity. Qed.

(** A time with the year 0 is no calendar time, and neither is the 29th
    of February of a common year. *)
Example calendar_times :
  datetime_of broken_time = None
  /\ datetime_of {| tm_year := 2025; tm_mon := 2; tm_mday := 29;
                    tm_hour := 0; tm_min := 0; tm_sec := 0 |} = None
  /\ days (late - moment 2025 12 15 9 0 0) = 21%Z.
Proof. vm_compute. repeat split; reflexivity. Qed.

(** One heading, three bullets (a blank line between them does not close
    the list) and one paragraph. *)
Example render_sample :
  Medicare.render_summary sample_summary
  = [ H2 (lit "#0066cc") (lit "Key Takeaways");
      UlOpen; Li (lit "first"); Li (lit "second"); Li (lit "third"); UlClose;
      P (lit "Closing remark.") ].
Proof. vm_compute. reflexivity. Qed.

(** The metrics renderer flags a bullet with a concerning word. *)
Example render_flagged :
  Merlin.render_analysis (lit "- Accuracy drop in week 3")
  = [ UlOpen;
      Li (markup "<span style='color: #cc0000;'>" ++ Merlin.warning_sign
          ++ lit " Accuracy drop in week 3</span>");
      UlClose ].
Proof. vm_compute. reflexivity. Qed.

(** Five distinct records and two duplicates of one of them give five
    records, numbered 1 to 5 in the reference list. *)
Example five_of_seven :
  List.map title (Medicare.collect_articles 0%Z [feed_of seven_entries])
  = [ lit "CMS updates Medicare Part D rules";
      lit "Medicare Advantage star ratings released";
      lit "CMS proposes prior authorization reform";
      lit "Medicare payment rule finalized, formulary changes";
      lit "CMMI launches ACO REACH changes for Medicare" ]
  /\ List.map fst
       (enumerate1 (Medicare.collect_articles 0%Z [feed_of seven_entries]))
     = [1; 2; 3; 4; 5].
Proof. vm_compute. split; reflexivity. Qed.

(** The mandatory clause of the Medicare classifier comes first: a
    high-priority term without the program or the agency is rejected. *)
Example mandatory_clause_comes_first :
  MedicareRules.is_relevant_article (lit "ACO REACH model expands") [] = false
  /\ MedicareRules.is_relevant_article (lit "CMS expands ACO REACH model") []
     = true.
Proof. vm_compute. split; reflexivity. Qed.

(** A well-formed row and what the reader makes of it. *)
Example good_row_record :
  Sheet.make_record good_row
  = Some {| Sheet.date := lit "2026-01-05";
            Sheet.ascvd_correct := 41;
            Sheet.ascvd_incorrect := 2;
            Sheet.drug_interactions_detected := 17;
            Sheet.drug_interactions_missed := 0;
            Sheet.false_positives := 3;
            Sheet.allergy_failures := 0;
            Sheet.notes := lit "stable week" |}.
Proof. vm_compute. reflexivity. Qed.

(* ================================================================== *)
(** * Further properties of the classifiers *)
(* ================================================================== *)

Lemma startswith_spec :
  forall p s : str, startswith p s = true <-> exists post, s = p ++ post.
Proof.
  induction p as [|a p IH]; intro s; cbn [startswith].
  - split; [intros _; exists s; reflexivity | reflexivity].
  - destruct s as [|b s].
    + split; [discriminate | intros [post E]; discriminate].
    + rewrite andb_true_iff, N.eqb_eq, IH. split.
      * intros [-> [post ->]]. exists post. reflexivity.
      * intros [post E]. injection E as -> ->. split; [reflexivity|].
        exists post. reflexivity.
Qed.

Lemma contains_spec :
  forall p s : str,
    contains p s = true <-> exists pre post, s = pre ++ p ++ post.
Proof.
  intros p s. split.
  - induction s as [|c s IH]; cbn [contains]; rewrite orb_true_iff.
    + intros [H | H]; [|discriminate].
      apply startswith_spec in H. destruct H as [post E].
      exists [], post. exact E.
    + intros [H | H].
      * apply startswith_spec in H. destruct H as [post E].
        exists [], post. exact E.
      * destruct (IH H) as (pre & post & ->).
        exists (c :: pre), post. reflexivity.
  - intros (pre & post & ->). induction pre as [|c pre IH].
    + assert (H : startswith p (p ++ post) = true)
        by (apply startswith_spec; exists post; reflexivity).
      simpl. destruct (p ++ post); cbn [contains]; rewrite H; reflexivity.
    + cbn [app contains]. rewrite IH. apply orb_true_r.
Qed.

Lemma contains_inside :
  forall p pre s post,
    contains p s = true -> contains p (pre ++ s ++ post) = true.
Proof.
  intros p pre s post H. apply contains_spec in H.
  destruct H as (a & b & ->). apply contains_spec.
  exists (pre ++ a), (b ++ post). rewrite <- !app_assoc. reflexivity.
Qed.

Lemma contains_part :
  forall a p b s, contains (a ++ p ++ b) s = true -> contains p s = true.
Proof.
  intros a p b s H. apply contains_spec in H.
  destruct H as (pre & post & ->). apply contains_spec.
  exists (pre ++ a), (b ++ post). rewrite <- !app_assoc. reflexivity.
Qed.

Lemma any_in_inside :
  forall terms pre s post,
    any_in terms s = true -> any_in terms (pre ++ s ++ post) = true.
Proof.
  intros terms pre s post H. unfold any_in in *.
  apply existsb_exists in H. destruct H as (t & Ht & Hc).
  apply existsb_exists. exists t. split; [exact Ht|].
  apply contains_inside. exact Hc.
Qed.

Lemma any_lower_in_inside :
  forall terms pre s post,
    any_lower_in terms s = true -> any_lower_in terms (pre ++ s ++ post) = true.
Proof.
  intros terms pre s post H. unfold any_lower_in in *.
  apply existsb_exists in H. destruct H as (t & Ht & Hc).
  apply existsb_exists. exists t. split; [exact Ht|].
  apply contains_inside. exact Hc.
Qed.

(** Lower-casing is local but for the capital sigma, whose image
    depends on what stands around it. *)
Lemma lower_within_all :
  forall s before, lower_within before s [] = lower_from before s.
Proof.
  induction s as [|c rest IH]; intros bf; cbn [lower_within lower_from].
  - reflexivity.
  - rewrite app_nil_r, IH. reflexivity.
Qed.

Lemma lower_within_app :
  forall a b before after,
    lower_within before (a ++ b) after
    = lower_within before a (b ++ after)
      ++ lower_within (rev a ++ before) b after.
Proof.
  induction a as [|c a IH]; intros b bf af.
  - reflexivity.
  - cbn [app lower_within rev]. rewrite IH, <- !app_assoc. reflexivity.
Qed.

Lemma lower_three :
  forall pre mid post,
    lower (pre ++ mid ++ post)
    = lower_within [] pre (mid ++ post)
      ++ lower_within (rev pre) mid post
      ++ lower_within (rev mid ++ rev pre) post [].
Proof.
  intros pre mid post. unfold lower.
  rewrite <- lower_within_all, !lower_within_app, !app_nil_r.
  reflexivity.
Qed.

Lemma sigma_like_refl : forall s, sigma_like s s.
Proof.
  induction s as [|c s IH]; constructor; [left; reflexivity | exact IH].
Qed.

Lemma sigma_like_app :
  forall a a' b b',
    sigma_like a a' -> sigma_like b b' -> sigma_like (a ++ b) (a' ++ b').
Proof. intros a a' b b'. apply Forall2_app. Qed.

Lemma lower_within_sigma_like :
  forall s before after before' after',
    sigma_like (lower_within before s after)
      (lower_within before' s after').
Proof.
  induction s as [|c rest IH]; intros bf af bf' af';
    cbn [lower_within].
  - constructor.
  - apply sigma_like_app; [|apply IH].
    unfold lower_at. destruct (c =? 931)%N; [|apply sigma_like_refl].
    constructor; [|constructor]. right.
    destruct (final_sigma _ _), (final_sigma _ _); split; reflexivity.
Qed.

Lemma sigma_free_same :
  forall p q, sigma_free p = true -> sigma_like p q -> q = p.
Proof.
  intros p q Hp H. induction H as [|x y p q Hxy H IH]; [reflexivity|].
  cbn [sigma_free forallb] in Hp. apply andb_true_iff in Hp.
  destruct Hp as [Hx Hp]. f_equal; [|apply IH; exact Hp].
  destruct Hxy as [-> | [Hs _]]; [reflexivity|].
  rewrite Hs in Hx. discriminate.
Qed.

(** A term without a sigma that is found in the lower-cased text is found
    again when text is added at both ends. *)
Lemma contains_grows :
  forall term pre mid post,
    sigma_free term = true ->
    contains term (lower mid) = true ->
    contains term (lower (pre ++ mid ++ post)) = true.
Proof.
  intros term pre mid post Hfree H.
  rewrite lower_three. apply contains_inside.
  apply contains_spec in H. destruct H as (u & v & E).
  pose proof (lower_within_sigma_like mid [] [] (rev pre) post) as L.
  rewrite lower_within_all in L. fold (lower mid) in L. rewrite E in L.
  apply Forall2_app_inv_l in L. destruct L as (u' & r & _ & L & ->).
  apply Forall2_app_inv_l in L. destruct L as (t' & v' & Ht & _ & ->).
  rewrite (sigma_free_same term t' Hfree Ht).
  apply contains_spec. exists u', v'. reflexivity.
Qed.

Lemma any_in_grows :
  forall terms pre mid post,
    forallb sigma_free terms = true ->
    any_in terms (lower mid) = true ->
    any_in terms (lower (pre ++ mid ++ post)) = true.
Proof.
  intros terms pre mid post Hfree H. unfold any_in in *.
  apply existsb_exists in H. destruct H as (t & Ht & Hc).
  apply existsb_exists. exists t. split; [exact Ht|].
  apply contains_grows; [|exact Hc].
  rewrite forallb_forall in Hfree. apply Hfree. exact Ht.
Qed.

Lemma any_lower_in_grows :
  forall terms pre mid post,
    forallb (fun term => sigma_free (lower term)) terms = true ->
    any_lower_in terms (lower mid) = true ->
    any_lower_in terms (lower (pre ++ mid ++ post)) = true.
Proof.
  intros terms pre mid post Hfree H. unfold any_lower_in in *.
  apply existsb_exists in H. destruct H as (t & Ht & Hc).
  apply existsb_exists. exists t. split; [exact Ht|].
  apply contains_grows; [|exact Hc].
  rewrite forallb_forall in Hfree. apply Hfree. exact Ht.
Qed.

(** The text the classifiers look at, when title and summary grow at
    their outer ends. *)
Lemma classified_text_grows :
  forall pre title summary post : str,
    (pre ++ title) ++ lit " " ++ summary ++ post
    = pre ++ (title ++ lit " " ++ summary) ++ post.
Proof. intros. rewrite <- !app_assoc. reflexivity. Qed.

(** None of the terms of the classifiers holds a sigma. *)
Lemma medicare_gate_free :
  forallb sigma_free [lit "medicare"; lit "cms"; lit "centers for medicare"]
  = true.
Proof. vm_compute. reflexivity. Qed.

Lemma medicare_high_free :
  forallb (fun term => sigma_free (lower term)) MedicareRules.HIGH_PRIORITY
  = true.
Proof. vm_compute. reflexivity. Qed.

Lemma medicare_keywords_free :
  forallb (fun term => sigma_free (lower term)) MedicareRules.KEYWORDS = true.
Proof. vm_compute. reflexivity. Qed.

Lemma pharmacy_medicare_free :
  forallb (fun term => sigma_free (lower term))
    PharmacyRules.MEDICARE_KEYWORDS = true.
Proof. vm_compute. reflexivity. Qed.

Lemma pharmacy_keywords_free :
  forallb (fun term => sigma_free (lower term))
    PharmacyRules.PHARMACY_KEYWORDS = true.
Proof. vm_compute. reflexivity. Qed.

Lemma pharmacy_ai_free :
  forallb sigma_free PharmacyRules.ai_terms = true.
Proof. vm_compute. reflexivity. Qed.

Lemma pharmacy_technology_free :
  forallb sigma_free PharmacyRules.technology_terms = true.
Proof. vm_compute. reflexivity. Qed.

(** X2: neither classifier has a clause that rejects on a term it finds:
    an article that is relevant stays relevant when text is added before
    its title or after its summary. *)
Theorem X2_more_text_never_demotes :
  forall pre title summary post : str,
    (MedicareRules.is_relevant_article title summary = true ->
     MedicareRules.is_relevant_article (pre ++ title) (summary ++ post) = true)
    /\ (PharmacyRules.is_relevant_article title summary = true ->
        PharmacyRules.is_relevant_article (pre ++ title) (summary ++ post)
        = true).
Proof.
  intros pre t s post. split.
  - unfold MedicareRules.is_relevant_article. cbv zeta.
    rewrite classified_text_grows.
    set (mid := t ++ lit " " ++ s).
    destruct (any_in _ (lower mid)) eqn:G; [|discriminate].
    rewrite (any_in_grows _ pre mid post medicare_gate_free G).
    cbn [negb].
    destruct (any_lower_in MedicareRules.HIGH_PRIORITY (lower mid)) eqn:H.
    + rewrite (any_lower_in_grows _ pre mid post
                 medicare_high_free H).
      reflexivity.
    + destruct (any_lower_in MedicareRules.KEYWORDS (lower mid)) eqn:K;
        [|discriminate].
      rewrite (any_lower_in_grows _ pre mid post
                 medicare_keywords_free K).
      intros _.
      destruct (any_lower_in MedicareRules.HIGH_PRIORITY (lower (pre ++ _)));
        reflexivity.
  - unfold PharmacyRules.is_relevant_article. cbv zeta.
    rewrite classified_text_grows.
    set (mid := t ++ lit " " ++ s).
    destruct (any_lower_in PharmacyRules.MEDICARE_KEYWORDS (lower mid)) eqn:M.
    + rewrite (any_lower_in_grows _ pre mid post
                 pharmacy_medicare_free M).
      reflexivity.
    + intro H.
      destruct (any_lower_in PharmacyRules.MEDICARE_KEYWORDS
                  (lower (pre ++ _))); [reflexivity|].
      destruct (any_lower_in PharmacyRules.PHARMACY_KEYWORDS (lower mid))
        eqn:P.
      * rewrite (any_lower_in_grows _ pre mid post
                   pharmacy_keywords_free P).
        destruct (any_in PharmacyRules.ai_terms (lower mid)) eqn:A.
        -- rewrite (any_in_grows _ pre mid post
                      pharmacy_ai_free A).
           reflexivity.
        -- cbn [andb] in H.
           destruct (any_in PharmacyRules.technology_terms (lower mid))
             eqn:T.
           ++ rewrite (any_in_grows _ pre mid post
                         pharmacy_technology_free T).
              cbn [andb].
              destruct (any_in PharmacyRules.ai_terms (lower (pre ++ _)));
                reflexivity.
           ++ destruct (any_in PharmacyRules.exclude_terms _); discriminate.
      * rewrite !andb_false_r in H. cbn [andb] in H.
        destruct (any_in PharmacyRules.exclude_terms _); discriminate.
Qed.

Lemma X2_more_text_witness :
  MedicareRules.is_relevant_article
    (lit "Breaking: " ++ lit "CMS updates Medicare Part D rules")
    ([] ++ lit " Radiology and imaging news follow.") = true.
Proof.
  apply (proj1 (X2_more_text_never_demotes (lit "Breaking: ")
                  (lit "CMS updates Medicare Part D rules") []
                  (lit " Radiology and imaging news follow."))).
  vm_compute. reflexivity.
Defined.

(** X3: whatever the Medicare monitor takes, the pharmacy monitor takes
    too: the mandatory terms of the first are among the terms that the
    second accepts at once. *)
Theorem X3_medicare_relevance_implies_pharmacy_relevance :
  forall title summary : str,
    MedicareRules.is_relevant_article title summary = true ->
    PharmacyRules.is_relevant_article title summary = true.
Proof.
  intros t s. unfold MedicareRules.is_relevant_article,
    PharmacyRules.is_relevant_article. cbv zeta.
  set (text := lower (t ++ lit " " ++ s)).
  destruct (any_in [lit "medicare"; lit "cms"; lit "centers for medicare"]
              text) eqn:G; [|discriminate].
  intros _.
  assert (M : any_lower_in PharmacyRules.MEDICARE_KEYWORDS text = true).
  { unfold any_in in G. cbn [existsb] in G.
    rewrite orb_false_r in G. apply orb_true_iff in G.
    unfold any_lower_in. apply existsb_exists.
    destruct G as [G | G]; [|apply orb_true_iff in G; destruct G as [G | G]].
    - exists (lit "Medicare"). split; [left; reflexivity | exact G].
    - exists (lit "CMS"). split; [right; right; left; reflexivity | exact G].
    - exists (lit "Medicare"). split; [left; reflexivity|].
      apply (contains_part (lit "centers for ") (lit "medicare") [] text).
      exact G. }
  rewrite M. reflexivity.
Qed.

Lemma X3_inclusion_witness :
  PharmacyRules.is_relevant_article (lit "CMMI model for CMS plans") [] = true.
Proof.
  apply X3_medicare_relevance_implies_pharmacy_relevance.
  vm_compute. reflexivity.
Defined.

(* ================================================================== *)
(** * Further properties of the collector *)
(* ================================================================== *)

Lemma collect_articles_In :
  forall f K now fs a,
    In a (collect_articles f K now fs)
    <-> In a (remove_duplicates (articles (gather f K now fs))).
Proof.
  intros f K now fs a. unfold collect_articles. split; intro H.
  - apply (Permutation_in _ (sort_desc_perm _)). exact H.
  - apply (Permutation_in _ (Permutation_sym (sort_desc_perm _))). exact H.
Qed.

Lemma remove_duplicates_incl :
  forall l a, In a (remove_duplicates l) -> In a l.
Proof.
  intros l a H. rewrite remove_duplicates_first_occurrences in H.
  apply first_occurrences_In in H. destruct H as (l1 & l2 & -> & _).
  apply in_or_app. right. left. reflexivity.
Qed.

Lemma collected_provenance :
  forall f K now fs a,
    In a (collect_articles f K now fs) ->
    exists feed e,
      In (Some feed) fs
      /\ In e (scanned f K (Some feed))
      /\ a = article_of_entry feed e
      /\ entry_kept f now e = true.
Proof.
  intros f K now fs a H.
  apply collect_articles_In, remove_duplicates_incl in H.
  rewrite gather_articles in H. apply in_flat_map in H.
  destruct H as ([feed|] & Hf & Ha); [|destruct Ha].
  unfold feed_articles in Ha. apply in_map_iff in Ha.
  destruct Ha as (e & Ea & He). apply filter_In in He.
  destruct He as [He Hk]. exists feed, e.
  split; [exact Hf|]. split; [exact He|]. split; [symmetry; exact Ea|].
  exact Hk.
Qed.

(** X4: nothing is collected that was not fetched and accepted: every
    collected record is built from one of the scanned entries of a fetched
    feed, an entry which the classifier accepts and whose time, as the code
    reads it ([published_parsed] when the entry has that key, else
    [updated_parsed]), is either absent or a calendar time less than 22
    days old. *)
Theorem X4_collected_records_come_from_accepted_entries :
  forall (is_relevant_article : str -> str -> bool) (scan_limit : nat)
         (now : datetime) (fs : list (option Feed)) (a : Article),
    In a (collect_articles is_relevant_article scan_limit now fs) ->
    exists feed e,
      In (Some feed) fs
      /\ In e (firstn scan_limit (entries feed))
      /\ a = article_of_entry feed e
      /\ is_relevant_article (entry_title e) (entry_summary e) = true
      /\ (get (e_published_parsed e) (get (e_updated_parsed e) None) = None
          \/ exists p t,
               get (e_published_parsed e) (get (e_updated_parsed e) None)
               = Some p
               /\ datetime_of p = Some t
               /\ (now - t < 22 * microseconds_per_day)%Z).
Proof.
  intros f K now fs a H.
  destruct (collected_provenance f K now fs a H)
    as (feed & e & Hf & He & Ea & Hk).
  exists feed, e. unfold entry_kept in Hk. apply andb_true_iff in Hk.
  destruct Hk as [Hr Hd].
  split; [exact Hf|].
  split; [apply (reached_incl f), He|].
  split; [exact Ea|]. split; [exact Hr|].
  unfold entry_pub_date in Hd.
  destruct (get (e_published_parsed e) (get (e_updated_parsed e) None))
    as [p|]; [right | left; reflexivity].
  destruct (datetime_of p) as [t|] eqn:Et; [|discriminate].
  exists p, t. split; [reflexivity|]. split; [exact Et|].
  destruct (Z_lt_le_dec (now - t) (22 * microseconds_per_day)) as [L | L];
    [exact L|].
  apply too_old_iff in L. rewrite L in Hd. discriminate.
Qed.

Lemma X4_provenance_witness :
  exists feed e,
    In (Some feed) [Some mixed_feed]
    /\ In e (firstn 25 (entries feed))
    /\ article_of_entry mixed_feed dated_entry = article_of_entry feed e
    /\ MedicareRules.is_relevant_article (entry_title e) (entry_summary e)
       = true
    /\ (get (e_published_parsed e) (get (e_updated_parsed e) None) = None
        \/ exists p t,
             get (e_published_parsed e) (get (e_updated_parsed e) None)
             = Some p
             /\ datetime_of p = Some t
             /\ (late - t < 22 * microseconds_per_day)%Z).
Proof.
  apply (X4_collected_records_come_from_accepted_entries
           MedicareRules.is_relevant_article 25 late [Some mixed_feed]).
  vm_compute. right. left. reflexivity.
Defined.

Lemma first_occurrences_length :
  forall l seen, List.length (first_occurrences seen l) <= List.length l.
Proof.
  induction l as [|a l IH]; intro seen; cbn [first_occurrences];
    [apply Nat.le_refl|].
  destruct (existsb (str_eqb (simple_title a)) seen); simpl.
  - apply Nat.le_trans with (List.length l); [apply IH | lia].
  - apply le_n_S, IH.
Qed.

Lemma feed_articles_length :
  forall f K now fetched,
    List.length (feed_articles f K now fetched) <= K.
Proof.
  intros f K now [feed|]; unfold feed_articles, scanned; simpl; [|lia].
  rewrite length_map.
  apply Nat.le_trans
    with (List.length (reached f (firstn K (entries feed))));
    [apply filter_length_le|].
  apply Nat.le_trans with (List.length (firstn K (entries feed)));
    [apply reached_length | apply firstn_le_length].
Qed.

Lemma gathered_length :
  forall f K now fs,
    List.length (flat_map (feed_articles f K now) fs) <= K * List.length fs.
Proof.
  intros f K now fs. induction fs as [|x fs IH]; simpl; [lia|].
  rewrite length_app. pose proof (feed_articles_length f K now x). lia.
Qed.

(** X5: the scan of a feed is bounded, and so is what is kept of a
    summary: a run collects at most [scan_limit] records per locator, and
    the summary of a collected record has at most 2000 characters. *)
Theorem X5_collection_is_bounded :
  forall (is_relevant_article : str -> str -> bool) (scan_limit : nat)
         (now : datetime) (fs : list (option Feed)),
    List.length (collect_articles is_relevant_article scan_limit now fs)
    <= scan_limit * List.length fs
    /\ forall a,
         In a (collect_articles is_relevant_article scan_limit now fs) ->
         List.length (summary a) <= 2000.
Proof.
  intros f K now fs. split.
  - unfold collect_articles.
    rewrite (Permutation_length (sort_desc_perm _)).
    rewrite remove_duplicates_first_occurrences.
    apply Nat.le_trans
      with (List.length (articles (gather f K now fs)));
      [apply first_occurrences_length|].
    rewrite gather_articles. apply gathered_length.
  - intros a H.
    destruct (collected_provenance f K now fs a H) as (feed & e & _ & _ & -> & _).
    unfold article_of_entry. cbn [summary]. apply firstn_le_length.
Qed.

Lemma X5_bounded_witness :
  List.length (summary (article_of_entry mixed_feed undated_entry)) <= 2000.
Proof.
  apply (proj2 (X5_collection_is_bounded MedicareRules.is_relevant_article 25
                  late [Some mixed_feed])).
  vm_compute. left. reflexivity.
Defined.

Lemma barren_adds_nothing :
  forall f K now x,
    barren x = true ->
    feed_articles f K now x = [] /\ feed_calls f K x = [].
Proof.
  intros f K now [feed|] H; unfold feed_articles, feed_calls, scanned;
    [|split; reflexivity].
  unfold barren in H. destruct (entries feed); [|discriminate].
  rewrite firstn_nil. split; reflexivity.
Qed.

(** X6: a locator whose fetch raises, or whose feed has no entry, is
    passed over and changes nothing for the others: the run collects the
    same records, and calls the classifier on the same entries, as the run
    without that locator. *)
Theorem X6_failed_fetch_is_isolated :
  forall (is_relevant_article : str -> str -> bool) (scan_limit : nat)
         (now : datetime) (before after : list (option Feed))
         (x : option Feed),
    barren x = true ->
    collect_articles is_relevant_article scan_limit now (before ++ x :: after)
    = collect_articles is_relevant_article scan_limit now (before ++ after)
    /\ calls (gather is_relevant_article scan_limit now (before ++ x :: after))
       = calls (gather is_relevant_article scan_limit now (before ++ after)).
Proof.
  intros f K now before after x H.
  destruct (barren_adds_nothing f K now x H) as [Ha Hc].
  unfold collect_articles.
  rewrite !gather_articles, !gather_calls, !flat_map_app.
  cbn [flat_map]. rewrite Ha, Hc. split; reflexivity.
Qed.

Lemma X6_isolated_witness :
  collect_articles MedicareRules.is_relevant_article 25 late
    ([None] ++ None :: [Some mixed_feed])
  = collect_articles MedicareRules.is_relevant_article 25 late
      ([None] ++ [Some mixed_feed]).
Proof.
  apply (X6_failed_fetch_is_isolated MedicareRules.is_relevant_article 25
           late [None] [Some mixed_feed] None).
  reflexivity.
Defined.

(** X7: the ranking keeps what the deduplication established: no two
    records of the result of [collect_articles] have the same key. *)
Theorem X7_collected_keys_are_distinct :
  forall (is_relevant_article : str -> str -> bool) (scan_limit : nat)
         (now : datetime) (fs : list (option Feed)),
    NoDup (List.map simple_title
             (collect_articles is_relevant_article scan_limit now fs)).
Proof.
  intros f K now fs. unfold collect_articles.
  apply (Permutation_NoDup
           (l := List.map simple_title
                   (remove_duplicates (articles (gather f K now fs))))).
  - apply Permutation_map, Permutation_sym, sort_desc_perm.
  - rewrite remove_duplicates_first_occurrences.
    apply first_occurrences_NoDup.
Qed.

Lemma ltb_irrefl : forall a : str, ltb a a = false.
Proof.
  intro a. unfold ltb.
  assert (E : PyStr.compare a a = Eq).
  { induction a as [|x a IH]; simpl; [reflexivity|].
    rewrite N.compare_refl. exact IH. }
  rewrite E. reflexivity.
Qed.

Lemma with_key_insert :
  forall k a l, with_key k (insert_desc a l) = with_key k (a :: l).
Proof.
  intros k a l. unfold with_key.
  induction l as [|b l IH]; cbn [insert_desc]; [reflexivity|].
  destruct (ltb (sort_key a) (sort_key b)) eqn:L; [|reflexivity].
  cbn [filter]. cbn [filter] in IH. rewrite IH.
  destruct (str_eqb k (sort_key a)) eqn:Ea; [|reflexivity].
  destruct (str_eqb k (sort_key b)) eqn:Eb; [|reflexivity].
  apply str_eqb_eq in Ea, Eb. rewrite <- Ea, <- Eb, ltb_irrefl in L.
  discriminate.
Qed.

Lemma with_key_sort :
  forall k l, with_key k (sort_desc l) = with_key k l.
Proof.
  intros k l. induction l as [|a l IH]; [reflexivity|].
  cbn [sort_desc fold_right]. rewrite with_key_insert.
  unfold with_key in *. cbn [filter]. fold (sort_desc l). rewrite IH.
  reflexivity.
Qed.

(** X8: the ranking is stable: the records with one publication text
    stand in the result in the order they had after the deduplication,
    that is in the order of the feeds and of their entries. *)
Theorem X8_ranking_is_stable :
  forall (is_relevant_article : str -> str -> bool) (scan_limit : nat)
         (now : datetime) (fs : list (option Feed)) (k : str),
    with_key k (collect_articles is_relevant_article scan_limit now fs)
    = with_key k
        (remove_duplicates
           (articles (gather is_relevant_article scan_limit now fs))).
Proof. intros. unfold collect_articles. apply with_key_sort. Qed.

Lemma sort_desc_fixed :
  forall l, descending l -> sort_desc l = l.
Proof.
  unfold descending. induction 1 as [|a l Hs IH Ha]; [reflexivity|].
  cbn [sort_desc fold_right]. fold (sort_desc l). rewrite IH.
  destruct l as [|b l]; [reflexivity|]. cbn [insert_desc].
  apply Forall_inv in Ha. unfold leb in Ha. unfold ltb.
  rewrite (compare_antisym (sort_key b) (sort_key a)).
  destruct (PyStr.compare (sort_key b) (sort_key a)); try reflexivity.
  discriminate.
Qed.

(** X9: the result of [collect_articles] is a fixed point of its last
    two steps: deduplicating it again, or ranking it again, gives it
    back unchanged. *)
Theorem X9_collected_list_is_stable_under_rerun :
  forall (is_relevant_article : str -> str -> bool) (scan_limit : nat)
         (now : datetime) (fs : list (option Feed)),
    remove_duplicates (collect_articles is_relevant_article scan_limit now fs)
    = collect_articles is_relevant_article scan_limit now fs
    /\ sort_desc (collect_articles is_relevant_article scan_limit now fs)
       = collect_articles is_relevant_article scan_limit now fs.
Proof.
  intros f K now fs. split.
  - rewrite remove_duplicates_first_occurrences.
    apply first_occurrences_fixed; [|intros a _ []].
    unfold collect_articles.
    apply (Permutation_NoDup
             (l := List.map simple_title
                     (remove_duplicates (articles (gather f K now fs))))).
    + apply Permutation_map, Permutation_sym, sort_desc_perm.
    + rewrite remove_duplicates_first_occurrences.
      apply first_occurrences_NoDup.
  - apply sort_desc_fixed. unfold collect_articles.
    apply sort_desc_descending.
Qed.

Lemma all_barren_gathers_nothing :
  forall f K now fs,
    forallb barren fs = true ->
    collect_articles f K now fs = [].
Proof.
  intros f K now fs H. unfold collect_articles. rewrite gather_articles.
  assert (E : flat_map (feed_articles f K now) fs = []).
  { induction fs as [|x fs IH]; [reflexivity|].
    cbn [forallb] in H. apply andb_true_iff in H. destruct H as [Hx Hfs].
    cbn [flat_map].
    rewrite (proj1 (barren_adds_nothing f K now x Hx)), (IH Hfs).
    reflexivity. }
  rewrite E. reflexivity.
Qed.

(** X10: when every fetch fails or finds no entry, [collect_articles]
    returns the empty list instead of raising, and both article monitors
    end with the report that there is nothing to send. *)
Theorem X10_all_sources_failing_is_handled :
  forall w : World,
    forallb barren (feeds w) = true ->
    Medicare.collect_articles (now w) (feeds w) = []
    /\ Pharmacy.collect_articles (now w) (feeds w) = []
    /\ Medicare.main w = [Print MsgRunStarted; Print MsgNothingToReport]
    /\ Pharmacy.main w = [Print MsgRunStarted; Print MsgNothingToReport].
Proof.
  intros w H.
  split; [apply all_barren_gathers_nothing; exact H|].
  split; [apply all_barren_gathers_nothing; exact H|].
  split; apply main_nothing_to_report, all_barren_gathers_nothing; exact H.
Qed.

Lemma X10_all_failing_witness :
  Medicare.main
    {| now := 0%Z; today := []; feeds := [None; Some (sample_feed []); None];
       client_error := None; generate := fun _ => Generated [];
       smtp := fun _ => Delivered |}
  = [Print MsgRunStarted; Print MsgNothingToReport].
Proof.
  apply (X10_all_sources_failing_is_handled
           {| now := 0%Z; today := [];
              feeds := [None; Some (sample_feed []); None];
              client_error := None; generate := fun _ => Generated [];
              smtp := fun _ => Delivered |}).
  reflexivity.
Defined.

(* ================================================================== *)
(** * Further properties of the renderer *)
(* ================================================================== *)

Section RenderedParts.

Variable section_titles : list str.
Variable heading_color : str -> str.
Variable highlight : str -> str.

Lemma place_app :
  forall a b st,
    place st (a ++ b)
    = match place st a with
      | Some st' => place st' b
      | None => None
      end.
Proof.
  induction a as [|p a IH]; intros b st; [reflexivity|].
  destruct p, st; cbn [app place]; auto.
Qed.

Lemma render_line_place :
  forall in_list parts raw,
    place Outside parts = Some (state_of in_list) ->
    place Outside
      (snd (render_line section_titles heading_color highlight
              (in_list, parts) raw))
    = Some (state_of
              (fst (render_line section_titles heading_color highlight
                      (in_list, parts) raw))).
Proof.
  intros in_list parts raw H. unfold render_line.
  destruct (strip raw) as [|c line]; [exact H|].
  destruct (is_section_header section_titles (c :: line));
    [|destruct (is_bullet (c :: line))];
    cbn [fst snd]; rewrite place_app, H; destruct in_list; reflexivity.
Qed.

Lemma render_lines_place :
  forall text,
    place Outside (render_lines section_titles heading_color highlight text)
    = Some Outside.
Proof.
  intro text. unfold render_lines.
  assert (H : forall lines st,
             place Outside (snd st) = Some (state_of (fst st)) ->
             place Outside
               (snd (fold_left
                       (render_line section_titles heading_color highlight)
                       lines st))
             = Some (state_of
                       (fst (fold_left
                               (render_line section_titles heading_color
                                  highlight) lines st)))).
  { induction lines as [|raw lines IH]; intros [in_list parts] Hst;
      cbn [fold_left]; [exact Hst|].
    apply IH. apply render_line_place. exact Hst. }
  specialize (H (split_lines text) (false, []) eq_refl).
  destruct (fold_left _ (split_lines text) (false, [])) as [in_list parts].
  cbn [fst snd] in H. rewrite place_app, H. destruct in_list; reflexivity.
Qed.

Lemma filter_content_close :
  forall in_list, filter is_content (close_list in_list) = [].
Proof. destruct in_list; reflexivity. Qed.

Lemma render_line_content :
  forall in_list parts raw,
    filter is_content
      (snd (render_line section_titles heading_color highlight
              (in_list, parts) raw))
    = filter is_content parts
      ++ List.map (part_of_line section_titles heading_color highlight)
           (filter nonblank [strip raw]).
Proof.
  intros in_list parts raw. unfold render_line, part_of_line.
  destruct (strip raw) as [|c line]; cbn [filter nonblank List.map snd].
  - rewrite app_nil_r. reflexivity.
  - destruct (is_section_header section_titles (c :: line));
      [|destruct (is_bullet (c :: line))];
      cbn [snd]; rewrite !filter_app;
      try rewrite filter_content_close;
      destruct in_list; reflexivity.
Qed.

Lemma render_loop_content :
  forall lines st,
    filter is_content
      (snd (fold_left (render_line section_titles heading_color highlight)
              lines st))
    = filter is_content (snd st)
      ++ List.map (part_of_line section_titles heading_color highlight)
           (filter nonblank (List.map strip lines)).
Proof.
  induction lines as [|raw lines IH]; intros [in_list parts];
    cbn [fold_left].
  - cbn. rewrite app_nil_r. reflexivity.
  - rewrite IH.
    destruct (render_line section_titles heading_color highlight
                (in_list, parts) raw) as [b ps] eqn:E.
    pose proof (render_line_content in_list parts raw) as H.
    rewrite E in H. cbn [snd] in *. rewrite H.
    cbn [List.map filter].
    destruct (nonblank (strip raw)); cbn [List.map app];
      rewrite <- app_assoc; reflexivity.
Qed.

Lemma render_lines_content :
  forall text,
    filter is_content
      (render_lines section_titles heading_color highlight text)
    = List.map (part_of_line section_titles heading_color highlight)
        (nonblank_lines text).
Proof.
  intro text. unfold render_lines, nonblank_lines.
  pose proof (render_loop_content (split_lines text) (false, [])) as H.
  destruct (fold_left _ (split_lines text) (false, [])) as [in_list parts].
  cbn [snd] in H. rewrite filter_app, filter_content_close, app_nil_r.
  exact H.
Qed.

End RenderedParts.

(** X11: in what each of the three renderers emits, an item stands only
    inside a list and a heading or a paragraph only outside one, and no
    list is closed without an item in it. *)
Theorem X11_items_inside_lists_only :
  forall text : str,
    place Outside (Medicare.render_summary text) = Some Outside
    /\ place Outside (Pharmacy.render_summary text) = Some Outside
    /\ place Outside (Merlin.render_analysis text) = Some Outside.
Proof.
  intro text. repeat split; apply render_lines_place.
Qed.

(** X12: the headings, items and paragraphs a renderer emits are, in
    order, what the non-empty stripped lines of the text become one by one:
    no line is dropped, doubled or moved, and a paragraph is its line as it
    stands. *)
Theorem X12_one_part_per_line_in_order :
  forall text : str,
    filter is_content (Medicare.render_summary text)
    = List.map (part_of_line article_section_titles (fun _ => lit "#0066cc")
                  (fun t => t))
        (nonblank_lines text)
    /\ filter is_content (Pharmacy.render_summary text)
       = List.map (part_of_line article_section_titles
                     (fun _ => lit "#0066cc") (fun t => t))
           (nonblank_lines text)
    /\ filter is_content (Merlin.render_analysis text)
       = List.map (part_of_line Merlin.section_titles Merlin.heading_color
                     Merlin.highlight)
           (nonblank_lines text).
Proof.
  intro text. repeat split; apply render_lines_content.
Qed.

Lemma lstrip_blank : forall s, blank s = true -> lstrip s = [].
Proof.
  unfold blank. induction s as [|c s IH]; intro H; [reflexivity|].
  cbn [forallb] in H. apply andb_true_iff in H. destruct H as [Hc Hs].
  cbn [lstrip]. rewrite Hc. apply IH. exact Hs.
Qed.

Lemma strip_blank : forall s, blank s = true -> strip s = [].
Proof. intros s H. unfold strip. rewrite (lstrip_blank s H). reflexivity. Qed.

Lemma split_lines_blank :
  forall text,
    blank text = true -> Forall (fun l => blank l = true) (split_lines text).
Proof.
  unfold blank. induction text as [|c text IH]; intro H.
  - repeat constructor.
  - cbn [forallb] in H. apply andb_true_iff in H. destruct H as [Hc Ht].
    specialize (IH Ht). cbn [split_lines].
    destruct (c =? 10)%N; [constructor; [reflexivity | exact IH]|].
    destruct (split_lines text) as [|l ls]; [repeat constructor|].
    + cbn. rewrite Hc. reflexivity.
    + inversion IH as [|? ? Hl Hls]; subst. constructor; [|exact Hls].
      cbn [forallb]. rewrite Hc. exact Hl.
Qed.

Lemma split_lines_not_nil : forall a, split_lines a <> [].
Proof.
  destruct a as [|c a]; [discriminate|]. cbn [split_lines].
  destruct (c =? 10)%N; [discriminate|].
  destruct (split_lines a); discriminate.
Qed.

Lemma split_lines_app :
  forall a b, split_lines (a ++ 10%N :: b) = split_lines a ++ split_lines b.
Proof.
  induction a as [|c a IH]; intro b; [reflexivity|].
  cbn [app split_lines]. rewrite IH.
  destruct (c =? 10)%N; [reflexivity|].
  pose proof (split_lines_not_nil a) as Hne.
  destruct (split_lines a) as [|l ls]; [contradiction|reflexivity].
Qed.

Section BlankLines.

Variable section_titles : list str.
Variable heading_color : str -> str.
Variable highlight : str -> str.

Lemma render_blank_lines :
  forall lines st,
    Forall (fun l => blank l = true) lines ->
    fold_left (render_line section_titles heading_color highlight) lines st
    = st.
Proof.
  induction lines as [|raw lines IH]; intros [in_list parts] H;
    [reflexivity|].
  inversion H as [|? ? Hraw Hlines]; subst. cbn [fold_left].
  unfold render_line at 2. rewrite (strip_blank raw Hraw).
  apply IH. exact Hlines.
Qed.

Lemma render_lines_of_blank :
  forall text,
    blank text = true ->
    render_lines section_titles heading_color highlight text = [].
Proof.
  intros text H. unfold render_lines.
  rewrite (render_blank_lines _ _ (split_lines_blank text H)). reflexivity.
Qed.

Lemma render_lines_skip_blank :
  forall a gap b,
    blank gap = true ->
    render_lines section_titles heading_color highlight
      (a ++ 10%N :: gap ++ 10%N :: b)
    = render_lines section_titles heading_color highlight (a ++ 10%N :: b).
Proof.
  intros a gap b H. unfold render_lines.
  rewrite !split_lines_app, !fold_left_app.
  rewrite (render_blank_lines (split_lines gap) _ (split_lines_blank gap H)).
  reflexivity.
Qed.

End BlankLines.

(** X13: a synthesis text that is empty or holds white space only gives
    no heading, no item, no paragraph and no list at all. *)
Theorem X13_blank_text_renders_nothing :
  forall text : str,
    blank text = true ->
    Medicare.render_summary text = []
    /\ Pharmacy.render_summary text = []
    /\ Merlin.render_analysis text = [].
Proof.
  intros text H. repeat split; apply render_lines_of_blank; exact H.
Qed.

Lemma X13_blank_witness :
  Medicare.render_summary (lit "   " ++ [10%N; 9%N; 10%N]) = []
  /\ Pharmacy.render_summary (lit "   " ++ [10%N; 9%N; 10%N]) = []
  /\ Merlin.render_analysis (lit "   " ++ [10%N; 9%N; 10%N]) = [].
Proof.
  apply (X13_blank_text_renders_nothing (lit "   " ++ [10%N; 9%N; 10%N])).
  reflexivity.
Defined.

(** X14: blank lines are skipped and change nothing: a text with lines of
    white space between two of its lines renders as the text without them;
    in particular they do not close an open list. *)
Theorem X14_blank_lines_change_nothing :
  forall a gap b : str,
    blank gap = true ->
    Medicare.render_summary (a ++ 10%N :: gap ++ 10%N :: b)
    = Medicare.render_summary (a ++ 10%N :: b)
    /\ Pharmacy.render_summary (a ++ 10%N :: gap ++ 10%N :: b)
       = Pharmacy.render_summary (a ++ 10%N :: b)
    /\ Merlin.render_analysis (a ++ 10%N :: gap ++ 10%N :: b)
       = Merlin.render_analysis (a ++ 10%N :: b).
Proof.
  intros a gap b H. repeat split; apply render_lines_skip_blank; exact H.
Qed.

Lemma X14_blank_lines_witness :
  Medicare.render_summary
    (lit "- first" ++ 10%N :: lit "  " ++ 10%N :: lit "- second")
  = Medicare.render_summary (lit "- first" ++ 10%N :: lit "- second").
Proof.
  apply (X14_blank_lines_change_nothing (lit "- first") (lit "  ")
           (lit "- second")).
  reflexivity.
Defined.

Lemma lstrip_incl : forall s c, In c (lstrip s) -> In c s.
Proof.
  induction s as [|x s IH]; intros c H; [exact H|].
  cbn [lstrip] in H. destruct (isspace x); [right; apply IH; exact H|exact H].
Qed.

Lemma strip_incl : forall s c, In c (strip s) -> In c s.
Proof.
  intros s c H. unfold strip in H.
  apply in_rev, lstrip_incl in H. rewrite <- in_rev in H.
  apply lstrip_incl. exact H.
Qed.

Lemma replace_hash_leaves_none :
  forall s, ~ In 35%N (replace (lit "#") [] s).
Proof.
  intro s. change (replace (lit "#") [] s)
    with (replace_from [35%N] [] 0 s).
  induction s as [|c s IH]; [intros []|].
  cbn [replace_from startswith]. rewrite andb_true_r.
  cbn [List.length Nat.sub app].
  destruct (35 =? c)%N eqn:E; [exact IH|].
  intros [H | H]; [|exact (IH H)].
  subst c. rewrite N.eqb_refl in E. discriminate.
Qed.

Lemma heading_of_line :
  forall titles color_of hl line color section,
    part_of_line titles color_of hl line = H2 color section ->
    ~ In 35%N section.
Proof.
  intros titles color_of hl line color section H. unfold part_of_line in H.
  destruct (is_section_header titles line).
  - injection H as _ <-. intro Hin. apply strip_incl in Hin.
    exact (replace_hash_leaves_none _ Hin).
  - destruct (is_bullet line); discriminate.
Qed.

Lemma rendered_heading :
  forall titles color_of hl text color section,
    In (H2 color section) (render_lines titles color_of hl text) ->
    ~ In 35%N section.
Proof.
  intros titles color_of hl text color section H.
  assert (Hc : In (H2 color section)
                 (filter is_content (render_lines titles color_of hl text)))
    by (apply filter_In; split; [exact H | reflexivity]).
  rewrite render_lines_content in Hc. apply in_map_iff in Hc.
  destruct Hc as (line & E & _).
  exact (heading_of_line titles color_of hl line color section E).
Qed.

(** X15: the heading markers are taken out of a heading wherever they
    stand in the line: no heading of the three renderers holds the
    character [#]. *)
Theorem X15_headings_hold_no_marker :
  forall (text color section : str),
    (In (H2 color section) (Medicare.render_summary text) ->
     ~ In 35%N section)
    /\ (In (H2 color section) (Pharmacy.render_summary text) ->
        ~ In 35%N section)
    /\ (In (H2 color section) (Merlin.render_analysis text) ->
        ~ In 35%N section).
Proof.
  intros text color section. repeat split; apply rendered_heading.
Qed.

Lemma X15_headings_witness :
  ~ In 35%N (lit "Key C Takeaways").
Proof.
  apply (proj1 (X15_headings_hold_no_marker (lit "## Key C# Takeaways ##")
                  (lit "#0066cc") (lit "Key C Takeaways"))).
  vm_compute. left. reflexivity.
Defined.

(* ================================================================== *)
(** * Further properties of the reference list and of the document *)
(* ================================================================== *)

Lemma combine_seq_fst :
  forall (A : Type) (l : list A) start,
    List.map fst (combine (seq start (List.length l)) l)
    = seq start (List.length l).
Proof.
  induction l as [|a l IH]; intro start; [reflexivity|].
  simpl. rewrite IH. reflexivity.
Qed.

Lemma combine_seq_snd :
  forall (A : Type) (l : list A) start,
    List.map snd (combine (seq start (List.length l)) l) = l.
Proof.
  induction l as [|a l IH]; intro start; [reflexivity|].
  simpl. rewrite IH. reflexivity.
Qed.

Lemma article_parts_length :
  forall l, List.length (flat_map article_parts l) = 5 * List.length l.
Proof.
  induction l as [|[i a] l IH]; [reflexivity|].
  cbn [flat_map]. rewrite length_app, IH. cbn [article_parts List.length].
  lia.
Qed.

Lemma numbered_block :
  forall (l : list Article) start i a,
    nth_error l i = Some a ->
    exists pre post,
      flat_map article_parts (combine (seq start (List.length l)) l)
      = pre ++ article_parts (start + i, a) ++ post
      /\ List.length pre = 5 * i.
Proof.
  induction l as [|x l IH]; intros start i a H.
  - destruct i; discriminate.
  - destruct i as [|i]; cbn [nth_error] in H.
    + injection H as ->. exists [].
      exists (flat_map article_parts
                (combine (seq (S start) (List.length l)) l)).
      rewrite Nat.add_0_r. split; reflexivity.
    + destruct (IH (S start) i a H) as (pre & post & E & L).
      exists (article_parts (start, x) ++ pre), post.
      cbn [List.length seq combine flat_map]. rewrite E.
      replace (S start + i) with (start + S i) by lia.
      rewrite <- app_assoc. split; [reflexivity|].
      rewrite length_app, L. cbn [article_parts List.length]. lia.
Qed.

Lemma nth_error_block :
  forall (pre block post : list Part) k,
    k < List.length block ->
    nth_error (pre ++ block ++ post) (List.length pre + k)
    = nth_error block k.
Proof.
  intros pre block post k H.
  rewrite nth_error_app2 by lia.
  replace (List.length pre + k - List.length pre) with k by lia.
  apply nth_error_app1. exact H.
Qed.

(** X16: the reference list does not depend on the synthesis text: after
    its three heading lines it has one block of five lines for each
    record, in the order of the ranking; the block of the record at index
    [i] opens a box, shows the number [i + 1] with the title, then the
    source with the publication text, then the link as the target and as
    the text of an anchor, and closes the box.  In the document the list
    stands after the five lines of the header and the lines of the
    narrative, and the line that closes the page follows it. *)
Theorem X16_reference_list_numbers_every_record :
  forall arts : list Article,
    List.length (reference_list arts) = 3 + 5 * List.length arts
    /\ (forall i a,
          nth_error arts i = Some a ->
          nth_error (reference_list arts) (3 + 5 * i)
          = Some (Raw (markup "<div style='margin: 15px 0; padding: 10px; background: #f9f9f9; border-left: 3px solid #0066cc;'>"))
          /\ nth_error (reference_list arts) (3 + 5 * i + 1)
             = Some (Raw (markup "<p style='margin: 5px 0;'><strong>"
                          ++ str_of_nat (i + 1) ++ lit ". " ++ title a
                          ++ lit "</strong></p>"))
          /\ nth_error (reference_list arts) (3 + 5 * i + 2)
             = Some (Raw (markup "<p style='margin: 5px 0; font-size: 10pt; color: #666;'>"
                          ++ source a ++ lit " | " ++ published a
                          ++ lit "</p>"))
          /\ nth_error (reference_list arts) (3 + 5 * i + 3)
             = Some (Raw (markup "<p style='margin: 5px 0; font-size: 10pt;'><a href='"
                          ++ link a ++ markup "' style='color: #0066cc;'>"
                          ++ link a ++ lit "</a></p>"))
          /\ nth_error (reference_list arts) (3 + 5 * i + 4)
             = Some (Raw (lit "</div>")))
    /\ forall page_title focus w text k,
         nth_error (html_parts page_title focus w text arts)
           (5 + List.length (render_summary text) + k)
         = nth_error (reference_list arts ++ [Raw (lit "</div>")]) k.
Proof.
  intro arts. split; [|split].
  - unfold reference_list. rewrite length_app, article_parts_length.
    unfold enumerate1. rewrite length_combine, length_seq, Nat.min_id.
    reflexivity.
  - intros i a H. unfold reference_list, enumerate1.
    destruct (numbered_block arts 1 i a H) as (pre & post & -> & L).
    replace (1 + i) with (i + 1) by lia.
    set (block := article_parts (i + 1, a)).
    set (head := [_; _; _]).
    assert (E : forall k, k < 5 ->
                nth_error (head ++ pre ++ block ++ post) (3 + 5 * i + k)
                = nth_error block k).
    { intros k Hk. rewrite app_assoc.
      replace (3 + 5 * i + k) with (List.length (head ++ pre) + k)
        by (rewrite length_app, L; reflexivity).
      apply nth_error_block. exact Hk. }
    replace (3 + 5 * i) with (3 + 5 * i + 0) at 1 by lia.
    rewrite !E by lia. repeat split; reflexivity.
  - intros page_title focus w text k. unfold html_parts.
    rewrite app_assoc.
    replace (5 + List.length (render_summary text) + k)
      with (List.length (header page_title focus w arts
                         ++ render_summary text) + k)
      by (rewrite length_app; reflexivity).
    rewrite nth_error_app2 by lia. f_equal. lia.
Qed.

Lemma X16_reference_list_witness :
  nth_error
    (reference_list
       [article_titled (lit "CMS: new rule!");
        article_titled (lit "Part D update")])
    (3 + 5 * 1 + 1)
  = Some (Raw (markup "<p style='margin: 5px 0;'><strong>"
               ++ str_of_nat (1 + 1) ++ lit ". "
               ++ title (article_titled (lit "Part D update"))
               ++ lit "</strong></p>")).
Proof.
  apply (proj1 (proj2 (X16_reference_list_numbers_every_record
                         [article_titled (lit "CMS: new rule!");
                          article_titled (lit "Part D update")]))
           1 (article_titled (lit "Part D update"))).
  reflexivity.
Defined.

Lemma join_In :
  forall sep parts x,
    In x parts -> exists pre post, join sep parts = pre ++ x ++ post.
Proof.
  intros sep parts. induction parts as [|p ps IH]; intros x H; [destruct H|].
  destruct H as [-> | H].
  - destruct ps as [|q ps].
    + exists [], []. cbn. rewrite app_nil_r. reflexivity.
    + exists [], (sep ++ join sep (q :: ps)). reflexivity.
  - destruct (IH x H) as (pre & post & E).
    destruct ps as [|q ps]; [destruct H|].
    exists (p ++ sep ++ pre), post.
    cbn [join]. cbn [join] in E. rewrite E, <- !app_assoc. reflexivity.
Qed.

Lemma join_contains :
  forall sep parts x p,
    In x parts -> contains p x = true -> contains p (join sep parts) = true.
Proof.
  intros sep parts x p Hx Hp.
  destruct (join_In sep parts x Hx) as (pre & post & ->).
  apply contains_inside. exact Hp.
Qed.

Lemma enumerate_In :
  forall (A : Type) (l : list A) (a : A) start,
    In a l -> exists i, In (i, a) (combine (seq start (List.length l)) l).
Proof.
  induction l as [|x l IH]; intros a start H; [destruct H|].
  destruct H as [-> | H].
  - exists start. left. reflexivity.
  - destruct (IH a (S start) H) as [i Hi]. exists i. right. exact Hi.
Qed.

Lemma contains_between :
  forall pre p post, contains p (pre ++ p ++ post) = true.
Proof. intros. apply contains_spec. exists pre, post. reflexivity. Qed.

(** The four fields of a record are in the lines of its block. *)
Lemma article_parts_hold_fields :
  forall i a,
    exists l1 l2 l3,
      In (Raw l1) (article_parts (i, a))
      /\ In (Raw l2) (article_parts (i, a))
      /\ In (Raw l3) (article_parts (i, a))
      /\ contains (str_of_nat i ++ lit ". " ++ title a) l1 = true
      /\ contains (source a ++ lit " | " ++ published a) l2 = true
      /\ contains (link a) l3 = true.
Proof.
  intros i a. unfold article_parts.
  eexists _, _, _.
  split; [right; left; reflexivity|].
  split; [right; right; left; reflexivity|].
  split; [right; right; right; left; reflexivity|].
  split; [|split]; apply contains_spec.
  - exists (markup "<p style='margin: 5px 0;'><strong>"),
      (lit "</strong></p>").
    rewrite <- !app_assoc. reflexivity.
  - exists (markup "<p style='margin: 5px 0; font-size: 10pt; color: #666;'>"),
      (lit "</p>").
    rewrite <- !app_assoc. reflexivity.
  - exists (markup "<p style='margin: 5px 0; font-size: 10pt;'><a href='"),
      (markup "' style='color: #0066cc;'>" ++ link a ++ lit "</a></p>").
    reflexivity.
Qed.

Lemma document_holds_block :
  forall page_title focus w text arts i a line,
    In (i, a) (enumerate1 arts) ->
    In (Raw line) (article_parts (i, a)) ->
    forall p, contains p line = true ->
    contains p (create_html_email page_title focus w text arts) = true.
Proof.
  intros page_title focus w text arts i a line Hi Hl p Hp.
  unfold create_html_email.
  apply (join_contains [10%N] _ line p); [|exact Hp].
  change line with (html_of_part (Raw line)). apply in_map.
  unfold html_parts. apply in_or_app. right. apply in_or_app. right.
  apply in_or_app. left. unfold reference_list. apply in_or_app. right.
  apply in_flat_map. exists (i, a). split; assumption.
Qed.

(** X17: whatever the synthesis text is, the document that is sent shows
    every collected record: its number with its title, its source with its
    publication text, and its link. *)
Theorem X17_document_shows_every_record :
  forall (page_title focus : str) (w : World) (text : str)
         (arts : list Article) (a : Article),
    In a arts ->
    exists i,
      In (i, a) (enumerate1 arts)
      /\ contains (str_of_nat i ++ lit ". " ++ title a)
           (create_html_email page_title focus w text arts) = true
      /\ contains (source a ++ lit " | " ++ published a)
           (create_html_email page_title focus w text arts) = true
      /\ contains (link a)
           (create_html_email page_title focus w text arts) = true.
Proof.
  intros page_title focus w text arts a Ha.
  destruct (enumerate_In Article arts a 1 Ha) as [i Hi].
  fold (enumerate1 arts) in Hi. exists i. split; [exact Hi|].
  destruct (article_parts_hold_fields i a)
    as (l1 & l2 & l3 & H1 & H2 & H3 & C1 & C2 & C3).
  split; [|split].
  - exact (document_holds_block page_title focus w text arts i a l1 Hi H1 _ C1).
  - exact (document_holds_block page_title focus w text arts i a l2 Hi H2 _ C2).
  - exact (document_holds_block page_title focus w text arts i a l3 Hi H3 _ C3).
Qed.

Lemma X17_document_witness :
  exists i,
    In (i, article_titled (lit "Part D update"))
      (enumerate1 [article_titled (lit "CMS: new rule!");
                   article_titled (lit "Part D update")])
    /\ contains (str_of_nat i ++ lit ". "
                 ++ title (article_titled (lit "Part D update")))
         (Medicare.create_html_email world_without_news []
            [article_titled (lit "CMS: new rule!");
             article_titled (lit "Part D update")]) = true
    /\ contains (source (article_titled (lit "Part D update")) ++ lit " | "
                 ++ published (article_titled (lit "Part D update")))
         (Medicare.create_html_email world_without_news []
            [article_titled (lit "CMS: new rule!");
             article_titled (lit "Part D update")]) = true
    /\ contains (link (article_titled (lit "Part D update")))
         (Medicare.create_html_email world_without_news []
            [article_titled (lit "CMS: new rule!");
             article_titled (lit "Part D update")]) = true.
Proof.
  apply (X17_document_shows_every_record MedicareText.page_title
           MedicareText.focus world_without_news []
           [article_titled (lit "CMS: new rule!");
            article_titled (lit "Part D update")]
           (article_titled (lit "Part D update"))).
  right. left. reflexivity.
Defined.

(* ================================================================== *)
(** * Further properties of the sheet reader *)
(* ================================================================== *)

Lemma row_accounted :
  forall row,
    List.length (accepted row) + List.length (filter is_skip_line (warned row))
    + (if short row then 1 else 0) = 1.
Proof.
  intro row. unfold accepted, warned, short.
  destruct (7 <=? List.length row)%nat eqn:L.
  - apply Nat.leb_le in L.
    assert (S : (List.length row <? 7)%nat = false)
      by (apply Nat.ltb_ge; exact L).
    rewrite S. destruct (Sheet.make_record row); reflexivity.
  - apply Nat.leb_gt in L.
    assert (S : (List.length row <? 7)%nat = true)
      by (apply Nat.ltb_lt; exact L).
    rewrite S. reflexivity.
Qed.

Lemma rows_accounted :
  forall rows,
    List.length (flat_map accepted rows)
    + List.length (filter is_skip_line (flat_map warned rows))
    + List.length (filter short rows)
    = List.length rows.
Proof.
  induction rows as [|row rows IH]; [reflexivity|].
  cbn [flat_map filter]. rewrite !length_app, filter_app, length_app.
  pose proof (row_accounted row) as H.
  destruct (short row); cbn [List.length]; lia.
Qed.

(** X18: the reader gives up ([None]) exactly when the sheet has fewer
    than two rows.  Otherwise every row under the header is accounted for
    once: it became a record, or it is named in a [Skipping invalid row]
    line, or it has fewer than 7 columns; the header itself is never read,
    and the last line printed reports the number of records. *)
Theorem X18_every_row_is_accounted_for :
  (forall values,
      fst (Sheet.read_sheet_data values) = None <-> List.length values < 2)
  /\ forall headers row rows,
       exists records printed,
         Sheet.read_sheet_data (headers :: row :: rows)
         = (Some records, printed)
         /\ List.length records
            + List.length (filter is_skip_line printed)
            + List.length (filter short (row :: rows))
            = List.length (row :: rows)
         /\ last printed Sheet.LogReading
            = Sheet.LogFound (List.length records)
         /\ forall headers',
              Sheet.read_sheet_data (headers' :: row :: rows)
              = Sheet.read_sheet_data (headers :: row :: rows).
Proof.
  split.
  - intros [|h [|r rows]]; cbn [Sheet.read_sheet_data fst List.length];
      split; intro H; try reflexivity; try lia; discriminate.
  - intros headers row rows.
    destruct (read_rows (row :: rows)
                {| Sheet.records := [];
                   Sheet.printed := [Sheet.LogReading; Sheet.LogAuthenticating] |})
      as [Hr Hp].
    cbn [Sheet.records Sheet.printed app] in Hr, Hp.
    eexists _, _. split; [reflexivity|]. rewrite Hr, Hp.
    split; [|split; [|reflexivity]].
    + rewrite filter_app. cbn [filter is_skip_line]. rewrite app_nil_r.
      apply rows_accounted.
    + apply last_last.
Qed.

Lemma X18_accounted_witness :
  fst (Sheet.read_sheet_data [[lit "Date"; lit "Correct"]]) = None.
Proof.
  apply (proj1 X18_every_row_is_accounted_for [[lit "Date"; lit "Correct"]]).
  cbn. lia.
Defined.

(* ================================================================== *)
(** * Further properties of the main programs *)
(* ================================================================== *)

Section RunsOfArticleMonitor.

Variable is_relevant_article : str -> str -> bool.
Variable scan_limit : nat.
Variable prompt_intro prompt_task prompt_format page_title focus : str.

(** The five ways a run can go. *)
Lemma main_outcomes :
  forall w,
    let arts := collect_articles is_relevant_article scan_limit (now w) (feeds w) in
    let p := prompt prompt_intro prompt_task prompt_format arts in
    let run := main is_relevant_article scan_limit prompt_intro prompt_task
                 prompt_format page_title focus w in
    (arts = [] /\ run = [Print MsgRunStarted; Print MsgNothingToReport])
    \/ (arts <> [] /\ exists e,
          client_error w = Some e
          /\ run = [Print MsgRunStarted; Print (MsgError e)])
    \/ (arts <> [] /\ client_error w = None
        /\ exists text,
             snd (create_executive_summary prompt_intro prompt_task
                    prompt_format w arts) = inl text
             /\ ((mime_error (create_html_email page_title focus w text arts)
                  = None
                  /\ run
                     = [Print MsgRunStarted; CallGenerate p]
                       ++ after_request (generate w p)
                       ++ [CallSend
                             (create_html_email page_title focus w text arts)
                             (List.length arts)]
                       ++ after_send
                            (smtp w
                               (create_html_email page_title focus w text
                                  arts))
                            (List.length arts))
                 \/ (exists m,
                       mime_error
                         (create_html_email page_title focus w text arts)
                       = Some m
                       /\ run
                          = [Print MsgRunStarted; CallGenerate p]
                            ++ after_request (generate w p)
                            ++ [Print (MsgError m)]))).
Proof.
  intros w arts p run. unfold run, main. fold arts.
  destruct arts as [|a rest] eqn:Ea; [left; split; reflexivity|].
  right. unfold create_executive_summary.
  destruct (client_error w) as [e|] eqn:Ec.
  - left. split; [discriminate|]. exists e. split; reflexivity.
  - right. split; [discriminate|]. split; [reflexivity|]. fold p.
    destruct (generate w p) as [text | e] eqn:Eg.
    + exists text. split; [reflexivity|]. unfold send_email.
      destruct (mime_error _) as [m|].
      * right. exists m. split; reflexivity.
      * left. split; [reflexivity|]. destruct (smtp w _); reflexivity.
    + exists (lit "Error creating executive summary: " ++ e).
      split; [reflexivity|]. unfold send_email.
      destruct (mime_error _) as [m|].
      * right. exists m. split; reflexivity.
      * left. split; [reflexivity|]. destruct (smtp w _); reflexivity.
Qed.

Lemma main_requests_once :
  forall w,
    let run := main is_relevant_article scan_limit prompt_intro prompt_task
                 prompt_format page_title focus w in
    requests run <= 1
    /\ sends run <= requests run
    /\ send_follows_request false run = true
    /\ forall html n,
         In (CallSend html n) run ->
         n = List.length
               (collect_articles is_relevant_article scan_limit (now w) (feeds w))
         /\ n <> 0.
Proof.
  intros w run.
  destruct (main_outcomes w)
    as [[Ea E] | [(Hne & e & _ & E)
                 | (Hne & _ & text & _ & [[_ E] | (m & _ & E)])]];
    fold run in E; rewrite E.
  - cbn. (split; [lia|]); (split; [lia|]); (split; [reflexivity|]).
    intros x m [H | [H | []]]; discriminate.
  - cbn. (split; [lia|]); (split; [lia|]); (split; [reflexivity|]).
    intros x m [H | [H | []]]; discriminate.
  - assert (Hn : List.length
                   (collect_articles is_relevant_article scan_limit (now w)
                      (feeds w)) <> 0).
    { destruct (collect_articles is_relevant_article scan_limit (now w)
                  (feeds w)); [contradiction | discriminate]. }
    set (n0 := List.length
                 (collect_articles is_relevant_article scan_limit (now w)
                    (feeds w))) in *.
    set (h := create_html_email page_title focus w text _) in *.
    clearbody n0 h.
    destruct (generate w _) as [t | e]; destruct (smtp w h) as [|e'];
      cbn; (split; [lia|]); (split; [lia|]); (split; [reflexivity|]);
      intros x m H;
      repeat (destruct H as [H | H]; try discriminate; try contradiction);
      injection H as _ <-; split; [reflexivity | exact Hn | reflexivity
                                   | exact Hn | reflexivity | exact Hn
                                   | reflexivity | exact Hn].
  - destruct (generate w _) as [t | e];
      cbn; (split; [lia|]); (split; [lia|]); (split; [reflexivity|]);
      intros x k H;
      repeat (destruct H as [H | H]; try discriminate; try contradiction).
Qed.

Lemma main_success_iff_delivered :
  forall w n,
    let run := main is_relevant_article scan_limit prompt_intro prompt_task
                 prompt_format page_title focus w in
    In (Print (MsgSuccess n)) run
    <-> exists html, In (CallSend html n) run /\ smtp w html = Delivered.
Proof.
  intros w n run.
  destruct (main_outcomes w)
    as [[Ea E] | [(Hne & e & _ & E)
                 | (Hne & _ & text & _ & [[_ E] | (m & _ & E)])]];
    fold run in E; rewrite E.
  - split.
    + intros [H | [H | []]]; discriminate.
    + intros (html & [H | [H | []]] & _); discriminate.
  - split.
    + intros [H | [H | []]]; discriminate.
    + intros (html & [H | [H | []]] & _); discriminate.
  - set (n0 := List.length
                 (collect_articles is_relevant_article scan_limit (now w)
                    (feeds w))) in *.
    set (h := create_html_email page_title focus w text _) in *.
    clearbody n0 h.
    destruct (generate w _) as [t | e]; destruct (smtp w h) as [|e'] eqn:Es;
      cbn; split.
    all: try (intro H;
              repeat (destruct H as [H | H]; try discriminate;
                      try contradiction);
              injection H as <-; exists h; split; [tauto | exact Es]).
    all: try (intros (x & H & Hs);
              repeat (destruct H as [H | H]; try discriminate;
                      try contradiction);
              injection H as <- <-; first [tauto | congruence]).
    all: intro H;
      repeat (destruct H as [H | H]; try discriminate; try contradiction).
  - destruct (generate w _) as [t | e]; cbn; split.
    all: try (intros (x & H & Hs));
      try intro H;
      repeat (destruct H as [H | H]; try discriminate; try contradiction).
Qed.

Lemma main_client_failure :
  forall w e,
    collect_articles is_relevant_article scan_limit (now w) (feeds w) <> [] ->
    client_error w = Some e ->
    main is_relevant_article scan_limit prompt_intro prompt_task prompt_format
      page_title focus w
    = [Print MsgRunStarted; Print (MsgError e)].
Proof.
  intros w e Hne Hc. unfold main.
  destruct (collect_articles _ _ _ _); [contradiction|].
  unfold create_executive_summary. rewrite Hc. reflexivity.
Qed.

End RunsOfArticleMonitor.

Section RunsOfMetricsMonitor.

Variable prompt_of : list Sheet.MetricsRecord -> str.

Lemma merlin_outcomes :
  forall w,
    let run := Merlin.main prompt_of w in
    (exists e, Merlin.sheet w = inr e
               /\ run = [Print MsgRunStarted; Print (MsgError e)])
    \/ (exists values,
          Merlin.sheet w = inl values
          /\ (fst (Sheet.read_sheet_data values) = None
              \/ fst (Sheet.read_sheet_data values) = Some [])
          /\ run = [Print MsgRunStarted; Print MsgNothingToReport])
    \/ (exists values recs,
          Merlin.sheet w = inl values
          /\ fst (Sheet.read_sheet_data values) = Some recs
          /\ recs <> []
          /\ ((exists e, Merlin.client_error w = Some e
                         /\ run = [Print MsgRunStarted; Print (MsgError e)])
              \/ (Merlin.client_error w = None
                  /\ exists text,
                       snd (Merlin.analyze_metrics prompt_of w recs) = inl text
                       /\ run
                          = [Print MsgRunStarted; CallGenerate (prompt_of recs)]
                            ++ after_request
                                 (Merlin.generate w (prompt_of recs))
                            ++ [CallSend
                                  (Merlin.create_html_email w text
                                     (List.length recs))
                                  (List.length recs)]
                            ++ after_send
                                 (Merlin.smtp w
                                    (Merlin.create_html_email w text
                                       (List.length recs)))
                                 (List.length recs)))).
Proof.
  intros w run. unfold run, Merlin.main.
  destruct (Merlin.sheet w) as [values | e] eqn:Es.
  - right. destruct (fst (Sheet.read_sheet_data values)) as [[|r recs]|] eqn:Er.
    + left. exists values. repeat split; auto.
    + right. exists values, (r :: recs).
      split; [reflexivity|]. split; [exact Er|]. split; [discriminate|].
      unfold Merlin.analyze_metrics.
      destruct (Merlin.client_error w) as [e|] eqn:Ec.
      * left. exists e. split; reflexivity.
      * right. split; [reflexivity|].
        destruct (Merlin.generate w (prompt_of (r :: recs))) as [text | e]
          eqn:Eg.
        -- exists text. split; [reflexivity|]. unfold Merlin.send_email.
           destruct (Merlin.smtp w _); reflexivity.
        -- exists (lit "Error analyzing metrics: " ++ e).
           split; [reflexivity|]. unfold Merlin.send_email.
           destruct (Merlin.smtp w _); reflexivity.
    + left. exists values. repeat split; auto.
  - left. exists e. split; reflexivity.
Qed.

Lemma merlin_requests_once :
  forall w,
    let run := Merlin.main prompt_of w in
    requests run <= 1
    /\ sends run <= requests run
    /\ send_follows_request false run = true.
Proof.
  intros w run.
  destruct (merlin_outcomes w)
    as [(e & _ & E)
       | [(values & _ & _ & E)
         | (values & recs & _ & _ & _
            & [(e & _ & E) | (_ & text & _ & E)])]];
    fold run in E; rewrite E; try (cbn; repeat split; lia).
  set (n0 := List.length recs) in *.
  set (h := Merlin.create_html_email w text n0) in *. clearbody n0 h.
  destruct (Merlin.generate w _); destruct (Merlin.smtp w h);
    cbn; repeat split; lia.
Qed.

Lemma merlin_success_iff_delivered :
  forall w n,
    let run := Merlin.main prompt_of w in
    In (Print (MsgSuccess n)) run
    <-> exists html, In (CallSend html n) run /\ Merlin.smtp w html = Delivered.
Proof.
  intros w n run.
  destruct (merlin_outcomes w)
    as [(e & _ & E)
       | [(values & _ & _ & E)
         | (values & recs & _ & _ & _
            & [(e & _ & E) | (_ & text & _ & E)])]];
    fold run in E; rewrite E.
  1-3: split;
    [ intros [H | [H | []]]; discriminate
    | intros (x & [H | [H | []]] & _); discriminate ].
  set (n0 := List.length recs) in *.
  set (h := Merlin.create_html_email w text n0) in *. clearbody n0 h.
  destruct (Merlin.generate w _) as [t | e];
    destruct (Merlin.smtp w h) as [|e'] eqn:Es; cbn; split.
  all: try (intro H;
            repeat (destruct H as [H | H]; try discriminate;
                    try contradiction);
            injection H as <-; exists h; split; [tauto | exact Es]).
  all: try (intros (x & H & Hs);
            repeat (destruct H as [H | H]; try discriminate;
                    try contradiction);
            injection H as <- <-; first [tauto | congruence]).
  all: intro H;
    repeat (destruct H as [H | H]; try discriminate; try contradiction).
Qed.

End RunsOfMetricsMonitor.

(** X19: a run of a monitor sends at most one request to the
    text-generation service and makes at most one delivery attempt, never a
    delivery attempt without a request before it; the count that an article
    monitor passes to the delivery is the number of collected records, and
    is not zero. *)
Theorem X19_one_request_one_delivery :
  (forall w : World,
      requests (Medicare.main w) <= 1
      /\ sends (Medicare.main w) <= requests (Medicare.main w)
      /\ send_follows_request false (Medicare.main w) = true
      /\ forall html n,
           In (CallSend html n) (Medicare.main w) ->
           n = List.length (Medicare.collect_articles (now w) (feeds w))
           /\ n <> 0)
  /\ (forall w : World,
      requests (Pharmacy.main w) <= 1
      /\ sends (Pharmacy.main w) <= requests (Pharmacy.main w)
      /\ send_follows_request false (Pharmacy.main w) = true
      /\ forall html n,
           In (CallSend html n) (Pharmacy.main w) ->
           n = List.length (Pharmacy.collect_articles (now w) (feeds w))
           /\ n <> 0)
  /\ (forall prompt_of (w : Merlin.World),
      requests (Merlin.main prompt_of w) <= 1
      /\ sends (Merlin.main prompt_of w) <= requests (Merlin.main prompt_of w)
      /\ send_follows_request false (Merlin.main prompt_of w) = true).
Proof.
  split; [|split].
  - intro w. apply main_requests_once.
  - intro w. apply main_requests_once.
  - intros prompt_of w. apply merlin_requests_once.
Qed.

Lemma X19_one_request_witness :
  1 = List.length
        (Medicare.collect_articles (now world_with_failing_service)
           (feeds world_with_failing_service))
  /\ 1 <> 0.
Proof.
  apply (proj2 (proj2 (proj2 (proj1 X19_one_request_one_delivery
                                world_with_failing_service)))
           (Medicare.create_html_email world_with_failing_service
              (lit "Error creating executive summary: " ++ lit "overloaded")
              (Medicare.collect_articles (now world_with_failing_service)
                 (feeds world_with_failing_service)))).
  vm_compute. right. right. right. left. reflexivity.
Defined.

(** X20: the line that reports success is printed exactly when the
    delivery attempt of the run went through: a delivery that raises is
    never followed by the success line, and no success is reported
    without a delivery. *)
Theorem X20_success_only_after_delivery :
  (forall (w : World) (n : nat),
      In (Print (MsgSuccess n)) (Medicare.main w)
      <-> exists html,
            In (CallSend html n) (Medicare.main w) /\ smtp w html = Delivered)
  /\ (forall (w : World) (n : nat),
      In (Print (MsgSuccess n)) (Pharmacy.main w)
      <-> exists html,
            In (CallSend html n) (Pharmacy.main w) /\ smtp w html = Delivered)
  /\ (forall prompt_of (w : Merlin.World) (n : nat),
      In (Print (MsgSuccess n)) (Merlin.main prompt_of w)
      <-> exists html,
            In (CallSend html n) (Merlin.main prompt_of w)
            /\ Merlin.smtp w html = Delivered).
Proof.
  split; [|split].
  - intros w n. apply main_success_iff_delivered.
  - intros w n. apply main_success_iff_delivered.
  - intros prompt_of w n. apply merlin_success_iff_delivered.
Qed.

Lemma X20_success_witness :
  In (Print (MsgSuccess 1)) (Medicare.main world_with_failing_service).
Proof.
  apply (proj1 X20_success_only_after_delivery world_with_failing_service 1).
  exists (Medicare.create_html_email world_with_failing_service
            (lit "Error creating executive summary: " ++ lit "overloaded")
            (Medicare.collect_articles (now world_with_failing_service)
               (feeds world_with_failing_service))).
  split; [|reflexivity].
  vm_compute. right. right. right. left. reflexivity.
Defined.

(** X21: only the request itself is guarded.  When the client of the
    text-generation service cannot be built, or when the sheet cannot be
    read, the run ends with the error line: no request is sent, nothing is
    rendered and no delivery is attempted. *)
Theorem X21_failure_before_the_request_ends_the_run :
  (forall (w : World) (e : str),
      Medicare.collect_articles (now w) (feeds w) <> [] ->
      client_error w = Some e ->
      Medicare.main w = [Print MsgRunStarted; Print (MsgError e)])
  /\ (forall (w : World) (e : str),
      Pharmacy.collect_articles (now w) (feeds w) <> [] ->
      client_error w = Some e ->
      Pharmacy.main w = [Print MsgRunStarted; Print (MsgError e)])
  /\ (forall prompt_of (w : Merlin.World) (e : str),
      Merlin.sheet w = inr e ->
      Merlin.main prompt_of w = [Print MsgRunStarted; Print (MsgError e)])
  /\ (forall prompt_of (w : Merlin.World) values recs (e : str),
      Merlin.sheet w = inl values ->
      fst (Sheet.read_sheet_data values) = Some recs ->
      recs <> [] ->
      Merlin.client_error w = Some e ->
      Merlin.main prompt_of w = [Print MsgRunStarted; Print (MsgError e)]).
Proof.
  split; [|split; [|split]].
  - intros w e. apply main_client_failure.
  - intros w e. apply main_client_failure.
  - intros prompt_of w e H. unfold Merlin.main. rewrite H. reflexivity.
  - intros prompt_of w values recs e Hs Hr Hne Hc.
    unfold Merlin.main. rewrite Hs, Hr.
    destruct recs as [|r recs]; [contradiction|].
    unfold Merlin.analyze_metrics. rewrite Hc. reflexivity.
Qed.

Lemma X21_failure_witness :
  Merlin.main (fun _ => []) merlin_world_without_client
  = [Print MsgRunStarted; Print (MsgError (lit "no api key"))].
Proof.
  apply (proj2 (proj2 (proj2 X21_failure_before_the_request_ends_the_run))
           (fun _ => []) merlin_world_without_client good_sheet
           (accepted good_row) (lit "no api key")).
  - reflexivity.
  - vm_compute. reflexivity.
  - vm_compute. discriminate.
  - reflexivity.
Defined.



(** X23: the insight mailer has no handler of its own.  Its run ends
    without an exception exactly when the client is built, the request
    returns and the delivery goes through; what it delivers is the text of
    the service as it came; and when the request raises, nothing is
    delivered and the exception leaves [main]. *)
Theorem X23_insight_mailer_fails_loudly :
  forall (prompt : str) (w : World),
    (snd (DailyLeadership.main prompt w) = None
     <-> client_error w = None
         /\ exists text,
              generate w prompt = Generated text /\ smtp w text = Delivered)
    /\ (forall content n,
          In (CallSend content n) (fst (DailyLeadership.main prompt w)) ->
          generate w prompt = Generated content)
    /\ (forall e,
          client_error w = None ->
          generate w prompt = GenerationRaised e ->
          snd (DailyLeadership.main prompt w) = Some e
          /\ sends (fst (DailyLeadership.main prompt w)) = 0).
Proof.
  intros prompt w.
  unfold DailyLeadership.main, DailyLeadership.generate_leadership_insight,
    DailyLeadership.send_email.
  destruct (client_error w) as [ce|] eqn:Ec.
  - split; [|split].
    + split; [discriminate | intros [H _]; discriminate].
    + intros content n H. cbn in H.
      repeat (destruct H as [H | H]; try discriminate; try contradiction).
    + discriminate.
  - destruct (generate w prompt) as [text | ge] eqn:Eg.
    + destruct (smtp w text) as [|se] eqn:Es; (split; [|split]).
      * split; [|reflexivity]. intros _. split; [reflexivity|].
        exists text. split; [reflexivity | exact Es].
      * intros content n H. cbn in H.
        repeat (destruct H as [H | H]; try discriminate; try contradiction).
        injection H as <- _. reflexivity.
      * discriminate.
      * split; [discriminate|]. intros [_ (t & Et & Ed)].
        injection Et as <-. congruence.
      * intros content n H. cbn in H.
        repeat (destruct H as [H | H]; try discriminate; try contradiction).
        injection H as <- _. reflexivity.
      * discriminate.
    + split; [|split].
      * split; [discriminate|]. intros [_ (t & Et & _)]. discriminate.
      * intros content n H. cbn in H.
        repeat (destruct H as [H | H]; try discriminate; try contradiction).
      * intros e _ E. injection E as <-. split; reflexivity.
Qed.

Lemma X23_insight_mailer_witness :
  snd (DailyLeadership.main [] world_with_failing_service)
  = Some (lit "overloaded")
  /\ sends (fst (DailyLeadership.main [] world_with_failing_service)) = 0.
Proof.
  apply (proj2 (proj2 (X23_insight_mailer_fails_loudly []
                         world_with_failing_service))
           (lit "overloaded")); reflexivity.
Defined.

(* ================================================================== *)
(** * Further properties of the request and of the scan *)
(* ================================================================== *)

(** X24: every collected record is put before the text-generation
    service: the prompt holds, for each record, its numbered block with the
    title, the source, the publication text, the first 800 characters of
    the summary and the link, between the fixed parts of the template. *)
Theorem X24_prompt_presents_every_record :
  forall (prompt_intro prompt_task prompt_format : str)
         (arts : list Article) (a : Article),
    In a arts ->
    exists i,
      In (i, a) (enumerate1 arts)
      /\ contains
           (lit "ARTICLE " ++ str_of_nat i ++ lit ":" ++ [10%N]
            ++ lit "Title: " ++ title a ++ [10%N]
            ++ lit "Source: " ++ source a ++ [10%N]
            ++ lit "Date: " ++ published a ++ [10%N]
            ++ lit "Summary: " ++ firstn 800 (summary a) ++ [10%N]
            ++ lit "Link: " ++ link a)
           (prompt prompt_intro prompt_task prompt_format arts) = true
      /\ startswith (prompt_intro ++ str_of_nat (List.length arts))
           (prompt prompt_intro prompt_task prompt_format arts) = true.
Proof.
  intros intro task format arts a Ha.
  destruct (enumerate_In Article arts a 1 Ha) as [i Hi].
  fold (enumerate1 arts) in Hi. exists i. split; [exact Hi|]. split.
  - change (contains (article_block (i, a)) (prompt intro task format arts)
            = true).
    unfold prompt.
    destruct (join_In [10%N; 10%N] (List.map article_block (enumerate1 arts))
                (article_block (i, a)) (in_map article_block _ _ Hi))
      as (pre & post & ->).
    apply contains_spec.
    exists (intro ++ str_of_nat (List.length arts) ++ task ++ pre),
      (post ++ format).
    rewrite <- !app_assoc. reflexivity.
  - apply startswith_spec. unfold prompt. eexists.
    rewrite <- !app_assoc. reflexivity.
Qed.

Lemma X24_prompt_witness :
  exists i,
    In (i, article_titled (lit "Part D update"))
      (enumerate1 [article_titled (lit "CMS: new rule!");
                   article_titled (lit "Part D update")])
    /\ contains
         (lit "ARTICLE " ++ str_of_nat i ++ lit ":" ++ [10%N]
          ++ lit "Title: " ++ title (article_titled (lit "Part D update"))
          ++ [10%N]
          ++ lit "Source: " ++ source (article_titled (lit "Part D update"))
          ++ [10%N]
          ++ lit "Date: " ++ published (article_titled (lit "Part D update"))
          ++ [10%N]
          ++ lit "Summary: "
          ++ firstn 800 (summary (article_titled (lit "Part D update")))
          ++ [10%N]
          ++ lit "Link: " ++ link (article_titled (lit "Part D update")))
         (prompt MedicareText.prompt_intro MedicareText.prompt_task
            MedicareText.prompt_format
            [article_titled (lit "CMS: new rule!");
             article_titled (lit "Part D update")]) = true
    /\ startswith
         (MedicareText.prompt_intro
          ++ str_of_nat
               (List.length [article_titled (lit "CMS: new rule!");
                             article_titled (lit "Part D update")]))
         (prompt MedicareText.prompt_intro MedicareText.prompt_task
            MedicareText.prompt_format
            [article_titled (lit "CMS: new rule!");
             article_titled (lit "Part D update")]) = true.
Proof.
  apply (X24_prompt_presents_every_record MedicareText.prompt_intro
           MedicareText.prompt_task MedicareText.prompt_format
           [article_titled (lit "CMS: new rule!");
            article_titled (lit "Part D update")]
           (article_titled (lit "Part D update"))).
  right. left. reflexivity.
Defined.

(** X25: before the deduplication the list of articles follows the
    sources: it holds, locator after locator and entry after entry, the
    articles of the entries that the classifier and the recency check let
    through among the entries the loop gets to, which are the first
    [scan_limit] of each feed up to the first at which the body of the
    loop raises. *)
Theorem X25_gathered_in_source_order :
  forall (is_relevant_article : str -> str -> bool) (scan_limit : nat)
         (now : datetime) (fs : list (option Feed)),
    articles (gather is_relevant_article scan_limit now fs)
    = flat_map
        (fun fetched =>
           match fetched with
           | None => []
           | Some feed =>
               List.map (article_of_entry feed)
                 (filter (entry_kept is_relevant_article now)
                    (reached is_relevant_article
                       (firstn scan_limit (entries feed))))
           end)
        fs
    /\ forall feed,
         (forall e, In e (firstn scan_limit (entries feed)) ->
                    entry_raises is_relevant_article e = false) ->
         reached is_relevant_article (firstn scan_limit (entries feed))
         = firstn scan_limit (entries feed).
Proof.
  intros f K now fs. split.
  - rewrite gather_articles.
    apply flat_map_ext. intros [feed|]; reflexivity.
  - intros feed H. apply reached_all. exact H.
Qed.

Lemma X25_source_order_witness :
  reached MedicareRules.is_relevant_article (firstn 25 (entries mixed_feed))
  = firstn 25 (entries mixed_feed).
Proof.
  apply (proj2 (X25_gathered_in_source_order
                  MedicareRules.is_relevant_article 25 late
                  [Some mixed_feed]) mixed_feed).
  intros e H. vm_compute in H.
  repeat (destruct H as [<- | H]; [vm_compute; reflexivity|]).
  destruct H.
Defined.

Lemma truncated_feed_articles :
  forall f K now feed,
    feed_articles f K now (Some (truncated K feed))
    = feed_articles f K now (Some feed)
    /\ feed_calls f K (Some (truncated K feed)) = feed_calls f K (Some feed).
Proof.
  intros f K now feed. unfold feed_articles, feed_calls, scanned, truncated.
  cbn [entries]. rewrite firstn_firstn, Nat.min_id. split; reflexivity.
Qed.

(** X26: the scan of a feed stops at [scan_limit] entries: what a feed
    lists beyond them is never classified and never collected, so the run
    is the run on the feed cut down to its first [scan_limit] entries. *)
Theorem X26_entries_past_the_limit_are_ignored :
  forall (is_relevant_article : str -> str -> bool) (scan_limit : nat)
         (now : datetime) (before after : list (option Feed)) (feed : Feed),
    collect_articles is_relevant_article scan_limit now
      (before ++ Some feed :: after)
    = collect_articles is_relevant_article scan_limit now
        (before ++ Some (truncated scan_limit feed) :: after)
    /\ calls (gather is_relevant_article scan_limit now
                (before ++ Some feed :: after))
       = calls (gather is_relevant_article scan_limit now
                  (before ++ Some (truncated scan_limit feed) :: after))
    /\ List.length
         (calls (gather is_relevant_article scan_limit now
                   (before ++ Some feed :: after)))
       <= scan_limit * List.length (before ++ Some feed :: after).
Proof.
  intros f K now before after feed.
  destruct (truncated_feed_articles f K now feed) as [Ha Hc].
  split; [|split].
  - unfold collect_articles. rewrite !gather_articles, !flat_map_app.
    cbn [flat_map]. rewrite Ha. reflexivity.
  - rewrite !gather_calls, !flat_map_app. cbn [flat_map]. rewrite Hc.
    reflexivity.
  - rewrite gather_calls.
    generalize (before ++ Some feed :: after) as fs.
    induction fs as [|x fs IH]; [cbn; lia|].
    cbn [flat_map List.length]. rewrite length_app.
    assert (H : List.length (feed_calls f K x) <= K).
    { unfold feed_calls, scanned. rewrite length_map.
      destruct x as [feed'|]; [|cbn; lia].
      apply Nat.le_trans with (List.length (firstn K (entries feed')));
        [apply reached_length | apply firstn_le_length]. }
    lia.
Qed.

(* ================================================================== *)
(** * The brief after a failed synthesis *)
(* ================================================================== *)

Lemma split_lines_first :
  forall a b : str,
    ~ In 10%N a ->
    exists (line : str) rest, split_lines (a ++ b) = (a ++ line) :: rest.
Proof.
  induction a as [|c a IH]; intros b H.
  - pose proof (split_lines_not_nil b) as Hne. cbn [app].
    destruct (split_lines b) as [|l ls]; [contradiction|].
    exists l, ls. reflexivity.
  - destruct (IH b) as (line & rest & E);
      [intro Hin; apply H; right; exact Hin|].
    exists line, rest. cbn [app split_lines]. rewrite E.
    destruct (c =? 10)%N eqn:Ec; [|reflexivity].
    apply N.eqb_eq in Ec. subst c. exfalso. apply H. left. reflexivity.
Qed.

Lemma lstrip_keep :
  forall a c b, isspace c = false -> lstrip (a ++ c :: b) = lstrip a ++ c :: b.
Proof.
  induction a as [|x a IH]; intros c b H; cbn [app lstrip].
  - rewrite H. reflexivity.
  - destruct (isspace x); [apply IH; exact H | reflexivity].
Qed.

(** Stripping keeps a beginning whose first and last characters are no
    white space. *)
Lemma strip_keeps_beginning :
  forall c a d y,
    isspace c = false -> isspace d = false ->
    exists z, strip ((c :: a ++ [d]) ++ y) = (c :: a ++ [d]) ++ z.
Proof.
  intros c a d y Hc Hd. exists (rev (lstrip (rev y))).
  unfold strip.
  assert (E : rev (c :: a ++ [d]) = d :: rev a ++ [c])
    by (cbn [rev]; rewrite rev_app_distr; reflexivity).
  replace (lstrip ((c :: a ++ [d]) ++ y)) with ((c :: a ++ [d]) ++ y)
    by (cbn [app lstrip]; rewrite Hc; reflexivity).
  rewrite rev_app_distr, E, (lstrip_keep (rev y) d (rev a ++ [c]) Hd).
  rewrite rev_app_distr, <- E, rev_involutive. reflexivity.
Qed.

Lemma replace_from_keeps_beginning :
  forall old new a b : str,
    ~ In 35%N a ->
    replace_from (35%N :: old) new 0 (a ++ b)
    = a ++ replace_from (35%N :: old) new 0 b.
Proof.
  intros old new. induction a as [|c a IH]; intros b H; [reflexivity|].
  cbn [app replace_from startswith].
  destruct (35 =? c)%N eqn:Ec.
  - apply N.eqb_eq in Ec. subst c. exfalso. apply H. left. reflexivity.
  - cbn [andb]. rewrite IH; [reflexivity|].
    intro Hin. apply H. right. exact Hin.
Qed.

Lemma strip_label :
  forall y : str,
    exists z : str,
      strip (lit "Error creating executive summary:" ++ y)
      = lit "Error creating executive summary:" ++ z.
Proof.
  intro y.
  exact (strip_keeps_beginning 69%N (lit "rror creating executive summary")
           58%N y eq_refl eq_refl).
Qed.

Lemma strip_label_line :
  forall y : str,
    exists z : str,
      strip (lit "Error creating executive summary: " ++ y)
      = lit "Error creating executive summary:" ++ z.
Proof.
  intro y.
  exact (strip_keeps_beginning 69%N (lit "rror creating executive summary")
           58%N (32%N :: y) eq_refl eq_refl).
Qed.

Lemma label_has_no_hash :
  ~ In 35%N (lit "Error creating executive summary:").
Proof. vm_compute. intuition discriminate. Qed.

Lemma label_has_no_newline :
  ~ In 10%N (lit "Error creating executive summary: ").
Proof. vm_compute. intuition discriminate. Qed.

(** The part made of a line that begins with the label of the failed
    synthesis shows the label. *)
Lemma label_in_part :
  forall titles color_of hl (z : str),
    contains (lit "Error creating executive summary:")
      (html_of_part
         (part_of_line titles color_of hl
            (lit "Error creating executive summary:" ++ z))) = true.
Proof.
  intros titles color_of hl z. unfold part_of_line.
  destruct (is_section_header titles _).
  - pose proof (replace_from_keeps_beginning [35%N] []
                  (lit "Error creating executive summary:") z
                  label_has_no_hash) as E1.
    pose proof (replace_from_keeps_beginning [] []
                  (lit "Error creating executive summary:")
                  (replace_from [35%N; 35%N] [] 0 z)
                  label_has_no_hash) as E2.
    destruct (strip_label
                (replace_from [35%N] [] 0 (replace_from [35%N; 35%N] [] 0 z)))
      as [z3 E3].
    assert (E : strip (replace (lit "#") []
                         (replace (lit "##") []
                            (lit "Error creating executive summary:" ++ z)))
                = lit "Error creating executive summary:" ++ z3).
    { exact (eq_trans
               (f_equal strip
                  (eq_trans (f_equal (replace_from [35%N] [] 0) E1) E2))
               E3). }
    rewrite E. cbn [html_of_part]. apply contains_spec.
    exists (markup "<h2 style='color: "
            ++ color_of (lit "Error creating executive summary:" ++ z3)
            ++ markup "; margin-top: 20px;'>"),
      (z3 ++ lit "</h2>").
    rewrite <- !app_assoc. reflexivity.
  - change (is_bullet (lit "Error creating executive summary:" ++ z))
      with false.
    cbn [html_of_part]. apply contains_spec.
    exists (markup "<p style='line-height: 1.6;'>"), (z ++ lit "</p>").
    rewrite <- !app_assoc. reflexivity.
Qed.

Lemma label_rendered :
  forall titles color_of hl (e : str),
    exists part,
      In part
        (render_lines titles color_of hl
           (lit "Error creating executive summary: " ++ e))
      /\ contains (lit "Error creating executive summary:")
           (html_of_part part) = true.
Proof.
  intros titles color_of hl e.
  destruct (split_lines_first (lit "Error creating executive summary: ") e
              label_has_no_newline) as (line & rest & E).
  destruct (strip_label_line line) as [z Ez].
  exists (part_of_line titles color_of hl
            (lit "Error creating executive summary:" ++ z)).
  split; [|apply label_in_part].
  assert (H : In (part_of_line titles color_of hl
                    (lit "Error creating executive summary:" ++ z))
                (filter is_content
                   (render_lines titles color_of hl
                      (lit "Error creating executive summary: " ++ e)))).
  { rewrite render_lines_content. apply in_map.
    unfold nonblank_lines.
    assert (E' : List.map strip
                   (split_lines
                      (lit "Error creating executive summary: " ++ e))
                 = (lit "Error creating executive summary:" ++ z)
                   :: List.map strip rest).
    { etransitivity; [exact (f_equal (List.map strip) E)|].
      cbn [List.map]. f_equal. exact Ez. }
    rewrite E'. left. reflexivity. }
  apply filter_In in H. exact (proj1 H).
Qed.

Lemma document_shows_label :
  forall page_title focus w e arts,
    contains (lit "Error creating executive summary:")
      (create_html_email page_title focus w
         (lit "Error creating executive summary: " ++ e) arts) = true.
Proof.
  intros page_title focus w e arts.
  destruct (label_rendered article_section_titles
              (fun _ => lit "#0066cc") (fun text => text) e)
    as (part & Hin & Hc).
  unfold create_html_email.
  apply (join_contains [10%N] _ (html_of_part part)); [|exact Hc].
  apply in_map. unfold html_parts. apply in_or_app. right.
  apply in_or_app. left. exact Hin.
Qed.

Lemma document_lists_record :
  forall page_title focus w text arts i a,
    nth_error arts i = Some a ->
    shows_record (create_html_email page_title focus w text arts) (i + 1) a
    = true.
Proof.
  intros page_title focus w text arts i a H.
  destruct (numbered_block arts 1 i a H) as (pre & post & E & _).
  replace (1 + i) with (i + 1) in E by lia.
  assert (Hb : forall line,
             In (Raw line) (article_parts (i + 1, a)) ->
             contains line (create_html_email page_title focus w text arts)
             = true).
  { intros line Hl. unfold create_html_email.
    apply (join_contains [10%N] _ line);
      [|apply contains_spec; exists [], []; rewrite app_nil_r; reflexivity].
    change line with (html_of_part (Raw line)). apply in_map.
    unfold html_parts. apply in_or_app. right. apply in_or_app. right.
    apply in_or_app. left. unfold reference_list, enumerate1.
    apply in_or_app. right. rewrite E. apply in_or_app. right.
    apply in_or_app. left. exact Hl. }
  unfold shows_record, reference_lines. cbn [forallb].
  rewrite !Hb; [reflexivity | | |]; unfold article_parts.
  - right. right. right. left. reflexivity.
  - right. right. left. reflexivity.
  - right. left. reflexivity.
Qed.

Section DegradedBrief.

Variable is_relevant_article : str -> str -> bool.
Variable scan_limit : nat.
Variable prompt_intro prompt_task prompt_format page_title focus : str.

Lemma degraded_brief :
  forall w e,
    collect_articles is_relevant_article scan_limit (now w) (feeds w) <> [] ->
    client_error w = None ->
    generate w
      (prompt prompt_intro prompt_task prompt_format
         (collect_articles is_relevant_article scan_limit (now w) (feeds w)))
    = GenerationRaised e ->
    let arts :=
      collect_articles is_relevant_article scan_limit (now w) (feeds w) in
    let placeholder := lit "Error creating executive summary: " ++ e in
    let html := create_html_email page_title focus w placeholder arts in
    let run := main is_relevant_article scan_limit prompt_intro prompt_task
                 prompt_format page_title focus w in
    snd (create_executive_summary prompt_intro prompt_task prompt_format
           w arts) = inl placeholder
    /\ contains (lit "Error creating executive summary:") html = true
    /\ (forall i a,
          nth_error arts i = Some a -> shows_record html (i + 1) a = true)
    /\ (mime_error html = None ->
        run = degraded_trace w
                (prompt prompt_intro prompt_task prompt_format arts) e html
                (List.length arts)
        /\ In (CallSend html (List.length arts)) run)
    /\ (forall m,
          mime_error html = Some m ->
          run = [ Print MsgRunStarted;
                  CallGenerate
                    (prompt prompt_intro prompt_task prompt_format arts);
                  Print (MsgErrorCreatingSummary e); Print (MsgError m) ]).
Proof.
  intros w e Hne Hc Hg arts placeholder html run.
  destruct (main_synthesis_raised is_relevant_article scan_limit
              prompt_intro prompt_task prompt_format page_title focus
              w e Hne Hc Hg) as [Hsent Hraised].
  fold arts placeholder html run in Hsent, Hraised.
  split; [|split; [|split; [|split]]].
  - unfold create_executive_summary. rewrite Hc.
    fold arts in Hg. rewrite Hg. reflexivity.
  - apply document_shows_label.
  - intros i a H. apply document_lists_record. exact H.
  - intro Hm. split; [exact (Hsent Hm)|]. rewrite (Hsent Hm).
    unfold degraded_trace. apply in_or_app. left.
    right. right. right. left. reflexivity.
  - exact Hraised.
Qed.

End DegradedBrief.

(** C9 (as the code has it): in a run of one of the two article monitors
    in which the synthesis request raises, the exception is caught and the
    text [Error creating executive summary: e] takes the place of the
    synthesis output.  The document that is built from it shows that label
    and, for every collected record, the three lines of the reference list
    with the number of the record, its title, its source, its publication
    text and its link.  When the document can be encoded, the delivery of
    that document is attempted and the run ends as after any delivery
    attempt; when it holds a surrogate code point, building the message
    raises before the delivery and the run ends with the report of that
    error. *)
Theorem C9_synthesis_failure_degrades :
  forall (w : World) (e : str),
    (Medicare.collect_articles (now w) (feeds w) <> [] ->
     client_error w = None ->
     generate w
       (prompt MedicareText.prompt_intro MedicareText.prompt_task
          MedicareText.prompt_format
          (Medicare.collect_articles (now w) (feeds w)))
     = GenerationRaised e ->
     let arts := Medicare.collect_articles (now w) (feeds w) in
     let placeholder := lit "Error creating executive summary: " ++ e in
     let html := Medicare.create_html_email w placeholder arts in
     snd (Medicare.create_executive_summary w arts) = inl placeholder
     /\ contains (lit "Error creating executive summary:") html = true
     /\ (forall i a,
           nth_error arts i = Some a -> shows_record html (i + 1) a = true)
     /\ (mime_error html = None ->
         Medicare.main w
         = degraded_trace w
             (prompt MedicareText.prompt_intro MedicareText.prompt_task
                MedicareText.prompt_format arts)
             e html (List.length arts)
         /\ In (CallSend html (List.length arts)) (Medicare.main w))
     /\ (forall m,
           mime_error html = Some m ->
           Medicare.main w
           = [ Print MsgRunStarted;
               CallGenerate
                 (prompt MedicareText.prompt_intro MedicareText.prompt_task
                    MedicareText.prompt_format arts);
               Print (MsgErrorCreatingSummary e); Print (MsgError m) ]))
    /\
    (Pharmacy.collect_articles (now w) (feeds w) <> [] ->
     client_error w = None ->
     generate w
       (prompt PharmacyText.prompt_intro PharmacyText.prompt_task
          PharmacyText.prompt_format
          (Pharmacy.collect_articles (now w) (feeds w)))
     = GenerationRaised e ->
     let arts := Pharmacy.collect_articles (now w) (feeds w) in
     let placeholder := lit "Error creating executive summary: " ++ e in
     let html := Pharmacy.create_html_email w placeholder arts in
     snd (Pharmacy.create_executive_summary w arts) = inl placeholder
     /\ contains (lit "Error creating executive summary:") html = true
     /\ (forall i a,
           nth_error arts i = Some a -> shows_record html (i + 1) a = true)
     /\ (mime_error html = None ->
         Pharmacy.main w
         = degraded_trace w
             (prompt PharmacyText.prompt_intro PharmacyText.prompt_task
                PharmacyText.prompt_format arts)
             e html (List.length arts)
         /\ In (CallSend html (List.length arts)) (Pharmacy.main w))
     /\ (forall m,
           mime_error html = Some m ->
           Pharmacy.main w
           = [ Print MsgRunStarted;
               CallGenerate
                 (prompt PharmacyText.prompt_intro PharmacyText.prompt_task
                    PharmacyText.prompt_format arts);
               Print (MsgErrorCreatingSummary e); Print (MsgError m) ])).
Proof.
  intros w e. split.
  - exact (degraded_brief MedicareRules.is_relevant_article 25
             MedicareText.prompt_intro MedicareText.prompt_task
             MedicareText.prompt_format MedicareText.page_title
             MedicareText.focus w e).
  - exact (degraded_brief PharmacyRules.is_relevant_article 20
             PharmacyText.prompt_intro PharmacyText.prompt_task
             PharmacyText.prompt_format PharmacyText.page_title
             PharmacyText.focus w e).
Qed.

Lemma C9_synthesis_failure_witness :
  (contains (lit "Error creating executive summary:")
     (Medicare.create_html_email world_with_failing_service
        (lit "Error creating executive summary: " ++ lit "overloaded")
        (Medicare.collect_articles (now world_with_failing_service)
           (feeds world_with_failing_service))) = true
   /\ In (CallSend
            (Medicare.create_html_email world_with_failing_service
               (lit "Error creating executive summary: " ++ lit "overloaded")
               (Medicare.collect_articles (now world_with_failing_service)
                  (feeds world_with_failing_service)))
            (List.length
               (Medicare.collect_articles (now world_with_failing_service)
                  (feeds world_with_failing_service))))
        (Medicare.main world_with_failing_service))
  /\
  (shows_record
     (Pharmacy.create_html_email world_with_failing_service
        (lit "Error creating executive summary: " ++ lit "overloaded")
        (Pharmacy.collect_articles (now world_with_failing_service)
           (feeds world_with_failing_service)))
     (0 + 1)
     (article_of_entry
        {| entries := [entry_titled (lit "CMS updates Medicare Part D rules")];
           feed_title := Some (lit "CMS Newsroom") |}
        (entry_titled (lit "CMS updates Medicare Part D rules"))) = true
   /\ In (CallSend
            (Pharmacy.create_html_email world_with_failing_service
               (lit "Error creating executive summary: " ++ lit "overloaded")
               (Pharmacy.collect_articles (now world_with_failing_service)
                  (feeds world_with_failing_service)))
            (List.length
               (Pharmacy.collect_articles (now world_with_failing_service)
                  (feeds world_with_failing_service))))
        (Pharmacy.main world_with_failing_service)).
Proof.
  split.
  - destruct (proj1 (C9_synthesis_failure_degrades world_with_failing_service
                       (lit "overloaded")))
      as (_ & Hlabel & _ & Hsent & _);
      [vm_compute; discriminate | reflexivity | reflexivity |].
    split; [exact Hlabel|].
    apply Hsent. vm_compute. reflexivity.
  - destruct (proj2 (C9_synthesis_failure_degrades world_with_failing_service
                       (lit "overloaded")))
      as (_ & _ & Hlist & Hsent & _);
      [vm_compute; discriminate | reflexivity | reflexivity |].
    split; [apply Hlist; reflexivity|].
    apply Hsent. vm_compute. reflexivity.
Defined.

(** C9 as stated fails for two kinds of run.  The insight mailer has no
    handler around its request: when the request raises, the run reports
    the error and ends with that exception, and no delivery is attempted.
    And a run of an article monitor whose document holds a surrogate code
    point ends, after the failed synthesis, with the error of the message
    that could not be built, and no delivery is attempted. *)
Lemma C9_failed_synthesis_can_end_the_run :
  DailyLeadership.main [] world_with_failing_service
  = ([Print MsgRunStarted; CallGenerate [];
      Print (MsgError (lit "overloaded"))],
     Some (lit "overloaded"))
  /\ (generate world_with_unencodable_title
        (prompt MedicareText.prompt_intro MedicareText.prompt_task
           MedicareText.prompt_format
           (Medicare.collect_articles (now world_with_unencodable_title)
              (feeds world_with_unencodable_title)))
      = GenerationRaised (lit "overloaded")
      /\ List.length
           (Medicare.collect_articles (now world_with_unencodable_title)
              (feeds world_with_unencodable_title)) = 1
      /\ List.map is_request (Medicare.main world_with_unencodable_title)
         = [false; true; false; false]
      /\ sends (Medicare.main world_with_unencodable_title) = 0
      /\ In (Print (MsgErrorCreatingSummary (lit "overloaded")))
           (Medicare.main world_with_unencodable_title)
      /\ exists position,
           last (Medicare.main world_with_unencodable_title)
             (Print MsgRunStarted)
           = Print (MsgError
                      (lit "'utf-8' codec can't encode character '\ud83d' in position "
                       ++ str_of_nat position
                       ++ lit ": surrogates not allowed"))).
Proof.
  split; [reflexivity|].
  split; [reflexivity|]. split; [vm_compute; reflexivity|].
  split; [vm_compute; reflexivity|]. split; [vm_compute; reflexivity|].
  split; [vm_compute; right; right; left; reflexivity|].
  exists 916. vm_compute. reflexivity.
Qed.
